(** * Vyze mood analytics: a shallow embedding of [dashboard/views.py] and
    [dashboard/api.py]

    The development follows the helper functions at the end of the two Python
    modules: [calculate_streak], [check_achievements], [analyze_mood_trends],
    [generate_ai_recommendations], [predict_next_mood],
    [calculate_prediction_confidence], [predict_next_week_mood] and the trend
    block of the [ai_mood_prediction] view; then the statistics of the detail
    and analytics pages, the assignment of patients, the doctor notes, the
    role decorators of [accounts/decorators.py] and the patient identifiers
    of [accounts/models.py].

    Numeric model.  Python [int] is [Z].  In [Views] and [Api] a Python
    [float] is idealised as an exact rational ([Q]): the binary64 rounding of
    [/], [*], [+], [-] is not modelled, and [round(x, 1)] is round-half-even
    on the exact value.  [Views64] and [Api64] embed the trend analyzer and
    the page statistics once more with every float operation rounded to
    binary64 ([Binary64]); what depends on the rounding is stated there.
    Comparisons of rationals are the exact ones.  A division whose divisor is
    zero raises [ZeroDivisionError], as in Python.

    Store model.  The Django tables are lists of records in insertion order;
    [filter] keeps that order, [order_by] is a stable insertion sort,
    [exists()] and [count()] are emptiness and length.  A [DateTimeField] is a
    calendar-day ordinal together with a time of day; the [__date] lookup is
    the day ordinal. *)

From Stdlib Require Import ZArith QArith Qround Qabs Qpower DecimalString.
From Stdlib Require Import String List Bool Lia Lqa.
Import ListNotations.
Local Open Scope Z_scope.

(** ** Python primitives *)
Module Py.

Inductive exc : Type :=
  | ZeroDivisionError.

Inductive result (A : Type) : Type :=
  | Ok (a : A)
  | Raise (e : exc).
Arguments Ok {A} a.
Arguments Raise {A} e.

Definition bind {A B} (m : result A) (k : A -> result B) : result B :=
  match m with
  | Ok a => k a
  | Raise e => Raise e
  end.

Definition returns {A} (m : result A) : Prop := exists a, m = Ok a.

(** [a / b] on numbers (true division). *)
Definition truediv (a b : Q) : result Q :=
  if Qeq_bool b 0 then Raise ZeroDivisionError else Ok (a / b)%Q.

(** [sum(xs)] : a left fold started at the integer 0. *)
Definition sum (xs : list Z) : Z := fold_left Z.add xs 0.
Definition sumQ (xs : list Q) : Q := fold_left Qplus xs 0%Q.

Definition len {A} (xs : list A) : Z := Z.of_nat (length xs).

(** [range(n)] *)
Definition range (n : nat) : list Z := map Z.of_nat (seq 0 n).

(** [range(a, b)] *)
Definition range_from (a b : Z) : list Z :=
  map (fun i => a + i) (range (Z.to_nat (b - a))).

(** [str(i)] on an integer. *)
Definition str (i : Z) : string := NilZero.string_of_int (Z.to_int i).

(** [xs[:k]] and [xs[k:]] for [k >= 0]. *)
Definition slice_to {A} (k : nat) (xs : list A) : list A := firstn k xs.
Definition slice_from {A} (k : nat) (xs : list A) : list A := skipn k xs.

(** [xs.insert(i, x)] for [i >= 0]; an index past the end appends. *)
Definition insert {A} (i : nat) (x : A) (xs : list A) : list A :=
  firstn i xs ++ x :: skipn i xs.

(** [xs[-1]] on a non-empty list; the callers guard emptiness. *)
Definition last_or {A} (xs : list A) (d : A) : A := last xs d.

Definition Qltb (a b : Q) : bool := negb (Qle_bool b a).

(** Two-argument [min] and [max]: the first argument wins ties. *)
Definition min (a b : Q) : Q := if Qltb b a then b else a.
Definition max (a b : Q) : Q := if Qltb a b then b else a.

(** Nearest integer, ties to even. *)
Definition round_half_even (t : Q) : Z :=
  let f := Qfloor t in
  match Qcompare (t - inject_Z f) (1 # 2) with
  | Lt => f
  | Gt => f + 1
  | Eq => if Z.even f then f else f + 1
  end.

(** [round(x, 1)] *)
Definition round1 (x : Q) : Q :=
  (inject_Z (round_half_even (x * 10)) / 10)%Q.

(** Values stored in the result dictionaries. *)
Inductive value : Type :=
  | VStr (s : string)
  | VInt (z : Z)
  | VFloat (q : Q)
  | VStrList (l : list string)
  | VNumList (l : list Q).

(** A dictionary literal: keys in the order written. *)
Definition dict := list (string * value).

Definition keys (d : dict) : list string := map fst d.

Fixpoint get (k : string) (d : dict) : option value :=
  match d with
  | [] => None
  | (k', v) :: d' => if String.eqb k k' then Some v else get k d'
  end.

Definition has_key (k : string) (d : dict) : bool :=
  match get k d with Some _ => true | None => false end.

End Py.

Notation "x <- m ;; k" := (Py.bind m (fun x => k))
  (at level 61, m at next level, right associativity).

Import Py.

(** ** The tables of [dashboard/models.py] *)

(** Primary key of [accounts.User]. *)
Definition User := Z.

Record datetime : Type := { day : Z; time_of_day : Z }.

Definition datetime_leb (a b : datetime) : bool :=
  (day a <? day b) || ((day a =? day b) && (time_of_day a <=? time_of_day b)).

(** [t - timedelta(days=d)] *)
Definition minus_days (t : datetime) (d : Z) : datetime :=
  {| day := day t - d; time_of_day := time_of_day t |}.

Module MoodEntry.
Record t : Type :=
  { user : User; mood : Z; note : string; tags : string; date : datetime }.

(** [MOOD_CHOICES = [(i, f"{i}/10") for i in range(1, 11)]] *)
Definition MOOD_CHOICES : list (Z * string) :=
  map (fun i => (i, (str i ++ "/10")%string)) (range_from 1 11).
End MoodEntry.

Module Journal.
Record t : Type :=
  { user : User; title : string; content : string; date : datetime }.
End Journal.

Module Achievement.
Record t : Type :=
  { user : User; title : string; description : string; points : Z;
    unlocked_at : datetime }.
End Achievement.

Record Store : Type :=
  { mood_entries : list MoodEntry.t;
    journals : list Journal.t;
    achievements : list Achievement.t }.

(** [QuerySet.exists()] and [QuerySet.count()] *)
Definition exists_ {A} (qs : list A) : bool :=
  match qs with [] => false | _ :: _ => true end.

Definition count {A} (qs : list A) : Z := len qs.

(** [QuerySet.order_by]: stable insertion sort on a key. *)
Fixpoint insert_by {A} (leb : A -> A -> bool) (x : A) (l : list A) : list A :=
  match l with
  | [] => [x]
  | y :: l' => if leb x y then x :: l else y :: insert_by leb x l'
  end.

Definition order_by {A} (leb : A -> A -> bool) (l : list A) : list A :=
  fold_right (insert_by leb) [] l.

Definition moods_of_user (db : Store) (user : User) : list MoodEntry.t :=
  filter (fun e => MoodEntry.user e =? user) (mood_entries db).

Definition moods_on (db : Store) (user : User) (d : Z) : list MoodEntry.t :=
  filter (fun e => (MoodEntry.user e =? user) && (day (MoodEntry.date e) =? d))
         (mood_entries db).

Definition achievements_titled (db : Store) (user : User) (title : string)
  : list Achievement.t :=
  filter (fun a => (Achievement.user a =? user)
                   && String.eqb (Achievement.title a) title)
         (achievements db).

(** [Achievement.objects.create(...)]; [unlocked_at] is [auto_now_add]. *)
Definition create_achievement (db : Store) (user : User)
  (title description : string) (points : Z) (now : datetime) : Store :=
  {| mood_entries := mood_entries db;
     journals := journals db;
     achievements := achievements db ++
       [ {| Achievement.user := user; Achievement.title := title;
            Achievement.description := description;
            Achievement.points := points;
            Achievement.unlocked_at := now |} ] |}.

(** [mood_entry.save()] *)
Definition save_mood (db : Store) (e : MoodEntry.t) : Store :=
  {| mood_entries := mood_entries db ++ [e];
     journals := journals db;
     achievements := achievements db |}.

(** [journal.save()] *)
Definition save_journal (db : Store) (j : Journal.t) : Store :=
  {| mood_entries := mood_entries db;
     journals := journals db ++ [j];
     achievements := achievements db |}.

(** ** Accounts, assignments and doctor notes *)

(** [accounts.User]: the fields the views read. *)
Module Account.
Record t : Type :=
  { id : User; username : string; role : string;
    patient_id : option string }.
End Account.

Module Assignment.
Record t : Type :=
  { doctor : User; patient : User; assigned_date : datetime;
    is_active : bool; notes : string }.
End Assignment.

Module DoctorNote.
Record t : Type :=
  { patient : User; doctor : User; note : string; date : datetime;
    is_visible_to_patient : bool }.
End DoctorNote.

Record Clinic : Type :=
  { users : list Account.t;
    assignments : list Assignment.t;
    doctor_notes : list DoctorNote.t }.

(** The ORM exceptions these paths can raise. *)
Inductive db_exc : Type :=
| DoesNotExist
| MultipleObjectsReturned
| IntegrityError
| Http404.

Inductive outcome (A : Type) : Type :=
| Done (a : A)
| Fails (e : db_exc).
Arguments Done {A} a.
Arguments Fails {A} e.

(** [QuerySet.get()] *)
Definition get_one {A} (qs : list A) : outcome A :=
  match qs with
  | [] => Fails DoesNotExist
  | [x] => Done x
  | _ :: _ :: _ => Fails MultipleObjectsReturned
  end.

(** A nullable column compared with a string: NULL matches nothing. *)
Definition column_is (col : option string) (v : string) : bool :=
  match col with
  | Some c => String.eqb c v
  | None => false
  end.

(** [User.objects.get(patient_id=code, role='patient')] *)
Definition patient_by_code (c : Clinic) (code : string) : outcome Account.t :=
  get_one (filter (fun u => column_is (Account.patient_id u) code
                            && String.eqb (Account.role u) "patient")
                  (users c)).

(** [User.objects.get(id=patient_id, role='patient')] *)
Definition patient_by_id (c : Clinic) (patient_id : User)
  : outcome Account.t :=
  get_one (filter (fun u => (Account.id u =? patient_id)
                            && String.eqb (Account.role u) "patient")
                  (users c)).

(** [DoctorPatientAssignment.objects.filter(doctor=d, patient=p,
    is_active=True)] *)
Definition active_assignments (c : Clinic) (doctor patient : User)
  : list Assignment.t :=
  filter (fun a => (Assignment.doctor a =? doctor)
                   && (Assignment.patient a =? patient)
                   && Assignment.is_active a)
         (assignments c).

(** The rows of the pair, active or not: [unique_together] allows one. *)
Definition pair_assignments (c : Clinic) (doctor patient : User)
  : list Assignment.t :=
  filter (fun a => (Assignment.doctor a =? doctor)
                   && (Assignment.patient a =? patient))
         (assignments c).

(** [DoctorPatientAssignment.objects.create(doctor=d, patient=p)]: the
    defaults are [is_active=True] and empty notes; a second row for the pair
    violates [unique_together]. *)
Definition create_assignment (c : Clinic) (doctor patient : User)
  (now : datetime) : outcome (Clinic * Assignment.t) :=
  if exists_ (pair_assignments c doctor patient) then Fails IntegrityError
  else
    let assignment :=
      {| Assignment.doctor := doctor; Assignment.patient := patient;
         Assignment.assigned_date := now; Assignment.is_active := true;
         Assignment.notes := "" |} in
    Done ({| users := users c;
             assignments := assignments c ++ [assignment];
             doctor_notes := doctor_notes c |}, assignment).

(** [DoctorNote.objects.create(...)] and [serializer.save(...)] *)
Definition create_note (c : Clinic) (n : DoctorNote.t) : Clinic :=
  {| users := users c;
     assignments := assignments c;
     doctor_notes := doctor_notes c ++ [n] |}.

(** ** [accounts/decorators.py] *)

(** What a decorated view returns: the redirect of the decorator, with the
    message it flashes, or the result of the view. *)
Inductive guarded (R : Type) : Type :=
| Redirect (to message : string)
| Pass (r : R)
| LoginRedirect.
Arguments Redirect {R} to message.
Arguments Pass {R} r.
Arguments LoginRedirect {R}.

(** [request.user]: [None] is the anonymous user. *)
Definition doctor_required {R} (view_func : Account.t -> R)
  (request_user : option Account.t) : guarded R :=
  match request_user with
  | None => Redirect "login" "You must be logged in to access this page."
  | Some u =>
      if negb (String.eqb (Account.role u) "doctor")
      then Redirect "patient_dashboard"
             "Access denied. This page is only available to doctors."
      else Pass (view_func u)
  end.

Definition patient_required {R} (view_func : Account.t -> R)
  (request_user : option Account.t) : guarded R :=
  match request_user with
  | None => Redirect "login" "You must be logged in to access this page."
  | Some u =>
      if negb (String.eqb (Account.role u) "patient")
      then Redirect "doctor_dashboard"
             "Access denied. This page is only available to patients."
      else Pass (view_func u)
  end.

(** [django.contrib.auth.decorators.login_required]: the anonymous user is
    sent to the login page and nothing is flashed; [LoginRedirect] is that
    answer. *)
Definition login_required {R} (view_func : Account.t -> guarded R)
  (request_user : option Account.t) : guarded R :=
  match request_user with
  | None => LoginRedirect
  | Some u => view_func u
  end.

(** ** [accounts/models.py]: patient identifiers *)

(** [generate_patient_id]: [draws] are the successive values of
    [str(uuid.uuid4())[:8].upper()]; the loop returns the first one no user
    holds, [None] when the draws run out first. *)
Fixpoint generate_patient_id (c : Clinic) (draws : list string)
  : option string :=
  match draws with
  | [] => None
  | patient_id :: rest =>
      if negb (exists_ (filter (fun u => column_is (Account.patient_id u)
                                                   patient_id)
                               (users c)))
      then Some patient_id
      else generate_patient_id c rest
  end.

(** [not self.patient_id or self.patient_id == ''] *)
Definition lacks_patient_id (u : Account.t) : bool :=
  match Account.patient_id u with
  | None => true
  | Some code => String.eqb code ""
  end.

(** The part of [User.save] that runs before the row is written. *)
Definition with_patient_id (c : Clinic) (u : Account.t)
  (draws : list string) : option Account.t :=
  if String.eqb (Account.role u) "patient" && lacks_patient_id u then
    match generate_patient_id c draws with
    | Some code =>
        Some {| Account.id := Account.id u;
                Account.username := Account.username u;
                Account.role := Account.role u;
                Account.patient_id := Some code |}
    | None => None
    end
  else Some u.

(** ** Statistics shared by the detail and analytics views *)

(** [int(x)] on a float: truncation towards zero. *)
Definition py_int (q : Q) : Z :=
  if Qle_bool 0 q then Qfloor q else Qceiling q.

(** [aggregate(Avg('mood'))['mood__avg']]: NULL on an empty table. *)
Definition mood_avg (moods : list MoodEntry.t) : option Q :=
  match moods with
  | [] => None
  | _ :: _ =>
      Some (inject_Z (sum (map MoodEntry.mood moods))
            / inject_Z (len moods))%Q
  end.

(** [x or 0] *)
Definition or_zero (x : option Q) : Q :=
  match x with
  | None => 0%Q
  | Some q => if Qeq_bool q 0 then 0%Q else q
  end.

(** One row more in a [GROUP BY key ORDER BY key] result that carries a sum
    and a count per key. *)
Fixpoint group_add (key value : Z) (rows : list (Z * (Z * Z)))
  : list (Z * (Z * Z)) :=
  match rows with
  | [] => [(key, (value, 1))]
  | (k, (s, n)) :: rest =>
      if key <? k then (key, (value, 1)) :: rows
      else if key =? k then (k, (s + value, n + 1)) :: rest
      else (k, (s, n)) :: group_add key value rest
  end.

Definition group_by (key value : MoodEntry.t -> Z) (qs : list MoodEntry.t)
  : list (Z * (Z * Z)) :=
  fold_left (fun rows e => group_add (key e) (value e) rows) qs [].

(** [.values('mood').annotate(count=Count('id')).order_by('mood')]: rows
    (mood, count). *)
Definition mood_distribution (db : Store) (user : User) : list (Z * Z) :=
  map (fun row => (fst row, snd (snd row)))
      (group_by MoodEntry.mood MoodEntry.mood (moods_of_user db user)).

(** [.order_by('date__date').values('date__date').annotate(
    avg_mood=Avg('mood'), count=Count('id'))] over the last 30 days: rows
    (day, avg_mood, count); a group is never empty. *)
Definition mood_trend (db : Store) (user : User) (now : datetime)
  : list (Z * (Q * Z)) :=
  let end_date := day now in
  let start_date := end_date - 30 in
  map (fun row => (fst row,
                   ((inject_Z (fst (snd row)) / inject_Z (snd (snd row)))%Q,
                    snd (snd row))))
      (group_by (fun e => day (MoodEntry.date e)) MoodEntry.mood
         (filter (fun e => (MoodEntry.user e =? user)
                           && (start_date <=? day (MoodEntry.date e))
                           && (day (MoodEntry.date e) <=? end_date))
                 (mood_entries db))).

(** The [stats] dictionary; [current_streak] is what the streak loop
    returned. *)
Module Stats.
Record t : Type :=
  { total_moods : Z;
    total_journals : Z;
    avg_mood : Q;
    avg_mood_percentage : Z;
    current_streak : option Z }.
End Stats.

(** What the patient detail pages show. *)
Module Detail.
Record t : Type :=
  { patient : Account.t;
    mood_entries : list MoodEntry.t;
    journals : list Journal.t;
    mood_trend : list (Z * (Q * Z));
    mood_distribution : list (Z * Z);
    stats : Stats.t }.
End Detail.

(** Flash messages of the HTML views. *)
Inductive flash : Type :=
| Success (text : string)
| Warning (text : string)
| Error (text : string).

(** REST responses: status code and payload.  [ErrorBody] is a payload that
    carries a message and nothing else: under the key 'error' in the views,
    under 'detail' in the denials of the framework. *)
Inductive body : Type :=
| ErrorBody (error : string)
| ErrorsBody
| AssignedBody (message : string) (assignment : Assignment.t)
| NoteBody (note : DoctorNote.t)
| DetailsBody (detail : Detail.t).

Record Response : Type := { status : Z; data : body }.

(** What an HTML view answers besides the store it leaves: a redirect with
    the message it flashed, or a rendered template. *)
Inductive page : Type :=
| RedirectTo (to : string) (message : flash)
| Render (template : string).

(** [permission_classes([permissions.IsAuthenticated])]: the REST framework
    answers the anonymous user before the view runs.  The status is 403
    under the framework's default authentication classes (the project
    settings are not among the sources). *)
Definition not_authenticated : Response :=
  {| status := 403;
     data := ErrorBody "Authentication credentials were not provided." |}.

Definition is_authenticated {R} (denied : R)
  (view_func : option Account.t -> guarded R)
  (request_user : option Account.t) : guarded R :=
  match request_user with
  | None => Pass denied
  | Some _ => view_func request_user
  end.

(** [MoodEntryForm(request.POST)]: [cleaned_data['mood']] of a valid form,
    [None] when [is_valid()] is false.  The mood is a required choice field:
    the posted text has to be [str(i)] for a value [i] of [MOOD_CHOICES],
    and is coerced to that integer.  The note is optional, so it never
    invalidates the form. *)
Definition cleaned_mood (posted : option string) : option Z :=
  match posted with
  | None => None
  | Some text =>
      match find (fun choice => String.eqb (str (fst choice)) text)
                 MoodEntry.MOOD_CHOICES with
      | Some choice => Some (fst choice)
      | None => None
      end
  end.

(** ** [dashboard/views.py] *)
Module Views.

(** The [while True] loop of [calculate_streak]; [None] when the fuel runs
    out before the [break]. *)
Fixpoint streak_loop (fuel : nat) (db : Store) (user : User)
  (check_date streak : Z) : option Z :=
  match fuel with
  | O => None
  | S fuel' =>
      if exists_ (moods_on db user check_date)
      then streak_loop fuel' db user (check_date - 1) (streak + 1)
      else Some streak
  end.

Definition calculate_streak (db : Store) (user : User) (now : datetime)
  : option Z :=
  let today := day now in
  streak_loop (S (length (mood_entries db))) db user today 0.

Definition check_achievements (db : Store) (user : User) (now : datetime)
  : Store :=
  let mood_count := count (moods_of_user db user) in
  let db1 :=
    if (7 <=? mood_count)
       && negb (exists_ (achievements_titled db user "Week Warrior"))
    then create_achievement db user "Week Warrior"
           "Logged mood for 7 days!" 10 now
    else db in
  if (30 <=? mood_count)
     && negb (exists_ (achievements_titled db1 user "Monthly Master"))
  then create_achievement db1 user "Monthly Master"
         "Logged mood for 30 days!" 50 now
  else db1.

(** The body of [if form.is_valid():] in [log_mood]: save the entry, then
    check achievements. *)
Definition log_mood_valid (db : Store) (user : User) (mood : Z)
  (note tags : string) (now : datetime) : Store :=
  let mood_entry :=
    {| MoodEntry.user := user; MoodEntry.mood := mood;
       MoodEntry.note := note; MoodEntry.tags := tags;
       MoodEntry.date := now |} in
  check_achievements (save_mood db mood_entry) user now.

(** The [log_mood] view behind [login_required].  [method] is
    [request.method], [posted_mood] the posted text of the mood field,
    [note] the cleaned note and [selected_tags] is
    [request.POST.get('selected_tags', '')].  An invalid form and every
    method other than POST render the form page. *)
Definition log_mood_of (db : Store) (method : string)
  (posted_mood : option string) (note selected_tags : string)
  (now : datetime) (user : Account.t) : Store * page :=
  if String.eqb method "POST" then
    match cleaned_mood posted_mood with
    | Some mood =>
        (log_mood_valid db (Account.id user) mood note selected_tags now,
         RedirectTo "patient_dashboard" (Success "Mood logged successfully!"))
    | None => (db, Render "dashboard/log_mood.html")
    end
  else (db, Render "dashboard/log_mood.html").

Definition log_mood (db : Store) (method : string)
  (posted_mood : option string) (note selected_tags : string)
  (now : datetime) (request_user : option Account.t)
  : guarded (Store * page) :=
  login_required
    (fun user =>
       Pass (log_mood_of db method posted_mood note selected_tags now user))
    request_user.

(** The 30-day query of [analyze_mood_trends]. *)
Definition recent_moods_30 (db : Store) (user : User) (now : datetime)
  : list MoodEntry.t :=
  let thirty_days_ago := minus_days now 30 in
  order_by (fun a b => datetime_leb (MoodEntry.date a) (MoodEntry.date b))
    (filter (fun e => (MoodEntry.user e =? user)
                      && datetime_leb thirty_days_ago (MoodEntry.date e))
            (mood_entries db)).

Definition no_data : dict :=
  [ ("trend", VStr "neutral");
    ("message", VStr "Start logging your mood to get personalized insights!");
    ("recommendations",
      VStrList ["Log your daily mood"; "Write in your journal";
                "Try breathing exercises"]) ]%string.

(** [avg_mood] of [analyze_mood_trends]. *)
Definition avg_mood_of (recent_moods : list MoodEntry.t) : result Q :=
  truediv (inject_Z (sum (map MoodEntry.mood recent_moods)))
          (inject_Z (len recent_moods)).

(** The half average with its [if half else avg_mood] guard. *)
Definition half_avg (half : list Z) (avg_mood : Q) : result Q :=
  if exists_ half
  then truediv (inject_Z (sum half)) (inject_Z (len half))
  else Ok avg_mood.

(** The block that computes [trend_slope]. *)
Definition trend_slope (recent_moods : list MoodEntry.t) (avg_mood : Q)
  : result Q :=
  if 3 <=? len recent_moods then
    let y_values := map MoodEntry.mood recent_moods in
    if 1 <? len recent_moods then
      let first_half := slice_to (length y_values / 2) y_values in
      let second_half := slice_from (length y_values / 2) y_values in
      first_avg <- half_avg first_half avg_mood ;;
      second_avg <- half_avg second_half avg_mood ;;
      Ok (second_avg - first_avg)%Q
    else Ok 0%Q
  else Ok 0%Q.

(** The [if trend_slope > 0.5 ... elif trend_slope < -0.5 ... else] chain:
    trend, message, recommendations. *)
Definition classify (trend_slope : Q) : string * string * list string :=
  if Qltb (1 # 2) trend_slope then
    ("improving",
     "Your mood has been trending upward! Keep up the great work.",
     ["Continue your current wellness routine";
      "Consider sharing your progress with your doctor";
      "Try new activities that bring you joy"])%string
  else if Qltb trend_slope (- (1 # 2)) then
    ("declining",
     "Your mood has been trending downward. Consider reaching out for support.",
     ["Practice deep breathing exercises";
      "Reach out to your assigned doctor";
      "Try mindfulness activities";
      "Consider professional counseling if needed"])%string
  else
    ("stable",
     "Your mood has been relatively stable. This is a good foundation to build upon.",
     ["Maintain your current routine";
      "Try new wellness activities";
      "Continue journaling your thoughts";
      "Stay connected with your support network"])%string.

(** Mood range analysis: level and additional message. *)
Definition mood_range (avg_mood : Q) : string * string :=
  if Qle_bool 8 avg_mood then
    ("excellent",
     "You're doing exceptionally well! Consider how you can maintain this positive state.")%string
  else if Qle_bool 6 avg_mood then
    ("good",
     "You're in a good place. Small improvements can make a big difference.")%string
  else if Qle_bool 4 avg_mood then
    ("moderate",
     "There's room for improvement. Focus on self-care and professional support.")%string
  else
    ("needs_attention",
     "Consider reaching out to mental health professionals for additional support.")%string.

(** [analyze_mood_trends] after its query. *)
Definition analyze_recent_moods (recent_moods : list MoodEntry.t)
  : result dict :=
  if negb (exists_ recent_moods) then Ok no_data
  else
    avg_mood <- avg_mood_of recent_moods ;;
    trend_slope <- trend_slope recent_moods avg_mood ;;
    let '(trend, message, recommendations) := classify trend_slope in
    let '(mood_level, additional_message) := mood_range avg_mood in
    Ok [ ("trend", VStr trend);
         ("mood_level", VStr mood_level);
         ("avg_mood", VFloat (round1 avg_mood));
         ("message", VStr message);
         ("additional_message", VStr additional_message);
         ("recommendations", VStrList recommendations);
         ("data_points", VInt (len recent_moods)) ]%string.

Definition analyze_mood_trends (db : Store) (user : User) (now : datetime)
  : result dict :=
  analyze_recent_moods (recent_moods_30 db user now).

(** [generate_ai_recommendations]; the journal count is read from the
    store. *)
Definition bucket (avg_mood : Q) : list string :=
  if Qltb avg_mood 4 then
    ["Consider speaking with a mental health professional";
     "Try daily gratitude journaling to shift perspective";
     "Practice deep breathing exercises for 5 minutes daily";
     "Reach out to trusted friends or family for support"]%string
  else if Qltb avg_mood 6 then
    ["Continue with your current wellness activities";
     "Try adding mindfulness meditation to your routine";
     "Consider light exercise like walking";
     "Track your sleep patterns for better rest"]%string
  else
    ["Great job maintaining positive mental health!";
     "Consider helping others by sharing your coping strategies";
     "Try advanced mindfulness techniques";
     "Continue your current healthy habits"]%string.

Definition urgent_support : string :=
  "⚠️ URGENT: Your mood trend suggests you may need additional support".

Definition urgent_contact : string :=
  "Consider contacting a healthcare provider soon".

Definition journaling_more : string :=
  "Try journaling more frequently to process your emotions".

Definition wellness_games : string :=
  "Engage with our wellness games for stress relief".

(** The list as it stands just before [return recommendations[:5]]. *)
Definition assemble_recommendations (db : Store) (avg_mood : Q)
  (trend : string) (user : User) : list string :=
  let recommendations := [] ++ bucket avg_mood in
  let recommendations :=
    if String.eqb trend "declining"
    then insert 1 urgent_contact (insert 0 urgent_support recommendations)
    else recommendations in
  let journal_count :=
    count (filter (fun j => Journal.user j =? user) (journals db)) in
  let recommendations :=
    if journal_count <? 5
    then recommendations ++ [journaling_more]
    else recommendations in
  let game_sessions := 0 in
  let recommendations :=
    if game_sessions <? 3
    then recommendations ++ [wellness_games]
    else recommendations in
  recommendations.

Definition generate_ai_recommendations (db : Store) (avg_mood : Q)
  (trend : string) (user : User) : list string :=
  slice_to 5 (assemble_recommendations db avg_mood trend user).

(** The regression sums of [predict_next_mood] over [x_values = range(n)]. *)
Definition sum_x (n : nat) : Z := sum (range n).
Definition sum_xx (n : nat) : Z := sum (map (fun x => x * x) (range n)).
Definition sum_xy (n : nat) (y_values : list Z) : Z :=
  sum (map (fun xy => fst xy * snd xy) (combine (range n) y_values)).

(** [n * sum_xx - sum_x * sum_x], the divisor of the slope. *)
Definition ols_denominator (n : nat) : Z :=
  Z.of_nat n * sum_xx n - sum_x n * sum_x n.

Definition predict_next_mood (mood_values : list Z) : result Q :=
  if len mood_values <? 3 then
    truediv (inject_Z (sum mood_values)) (inject_Z (len mood_values))
  else
    let n := length mood_values in
    let y_values := mood_values in
    let sum_y := sum y_values in
    slope <- truediv
               (inject_Z (Z.of_nat n * sum_xy n y_values - sum_x n * sum_y))
               (inject_Z (ols_denominator n)) ;;
    intercept <- truediv (inject_Z sum_y - slope * inject_Z (sum_x n))%Q
                         (inject_Z (Z.of_nat n)) ;;
    let next_x := inject_Z (Z.of_nat n) in
    let predicted := (slope * next_x + intercept)%Q in
    Ok (max 1 (min 10 (round1 predicted))).

(** [calculate_prediction_confidence].  [std_dev = variance ** 0.5] is not
    rational; since the square root is monotone on the non-negative
    [variance], [std_dev < 1] is [variance < 1] and [std_dev < 2] is
    [variance < 4]. *)
Definition calculate_prediction_confidence (mood_values : list Z)
  : result string :=
  if len mood_values <? 5 then Ok "Low"%string
  else
    mean <- truediv (inject_Z (sum mood_values))
                    (inject_Z (len mood_values)) ;;
    variance <- truediv
                  (sumQ (map (fun x => (inject_Z x - mean) ^ 2)%Q mood_values))
                  (inject_Z (len mood_values)) ;;
    if Qltb variance 1 then Ok "High"%string
    else if Qltb variance 4 then Ok "Medium"%string
    else Ok "Low"%string.

(** The 14-day query of [predict_next_week_mood]. *)
Definition recent_moods_14 (db : Store) (user : User) (now : datetime)
  : list MoodEntry.t :=
  let end_date := day now in
  let start_date := end_date - 14 in
  order_by (fun a b => day (MoodEntry.date a) <=? day (MoodEntry.date b))
    (filter (fun e => (MoodEntry.user e =? user)
                      && (start_date <=? day (MoodEntry.date e))
                      && (day (MoodEntry.date e) <=? end_date))
            (mood_entries db)).

Definition no_forecast : dict :=
  [ ("prediction", VStr "neutral");
    ("confidence", VStr "low");
    ("message", VStr "Need more mood data for accurate predictions");
    ("weekly_forecast", VNumList [5; 5; 5; 5; 5; 5; 5]%Q) ]%string.

(** The regression slope of the weekly forecaster.  The generator evaluates
    [sum(x_values)/len(x_values)] once per element; it is evaluated once
    here, which raises in the same cases because the generators of this
    branch are never empty. *)
Definition weekly_slope (mood_values : list Z) (avg_mood : Q) : result Q :=
  if 1 <? len mood_values then
    let x_values := range (length mood_values) in
    mean_x <- truediv (inject_Z (sum x_values)) (inject_Z (len x_values)) ;;
    truediv
      (sumQ (map (fun xy => (inject_Z (fst xy) - mean_x)
                            * (inject_Z (snd xy) - avg_mood))%Q
                 (combine x_values mood_values)))
      (sumQ (map (fun x => (inject_Z x - mean_x) ^ 2)%Q x_values))
  else Ok 0%Q.

(** One pass of the [for i in range(7)] loop. *)
Definition forecast_day (base_mood : Z) (slope : Q) (i : Z) : Q :=
  let predicted_mood :=
    min 10 (max 1 (inject_Z base_mood
                   + slope * inject_Z (i + 1) * (1 # 10))%Q) in
  round1 predicted_mood.

(** [predict_next_week_mood] after its query. *)
Definition predict_week_from (recent_moods : list MoodEntry.t)
  : result dict :=
  if negb (exists_ recent_moods) then Ok no_forecast
  else
    let mood_values := map MoodEntry.mood recent_moods in
    avg_mood <- truediv (inject_Z (sum mood_values))
                        (inject_Z (len mood_values)) ;;
    slope <- weekly_slope mood_values avg_mood ;;
    let base_mood := if exists_ mood_values then last_or mood_values 0 else 5 in
    let weekly_forecast := map (forecast_day base_mood slope) (range 7) in
    avg_predicted <- truediv (sumQ weekly_forecast)
                             (inject_Z (len weekly_forecast)) ;;
    let '(prediction, message) :=
      if Qle_bool 7 avg_predicted then
        ("positive", "Your mood trend suggests a positive week ahead!")%string
      else if Qle_bool 4 avg_predicted then
        ("stable", "Your mood is likely to remain stable this week.")%string
      else
        ("challenging",
         "You might face some challenging days. Consider reaching out for support.")%string in
    let confidence :=
      if 7 <=? len mood_values then "high"%string
      else if 3 <=? len mood_values then "medium"%string
      else "low"%string in
    Ok [ ("prediction", VStr prediction);
         ("confidence", VStr confidence);
         ("message", VStr message);
         ("weekly_forecast", VNumList weekly_forecast);
         ("avg_predicted", VFloat (round1 avg_predicted)) ]%string.

Definition predict_next_week_mood (db : Store) (user : User) (now : datetime)
  : result dict :=
  predict_week_from (recent_moods_14 db user now).

(** The query of the [ai_mood_prediction] view: newest first, at most 14. *)
Definition recent_moods_latest (db : Store) (user : User)
  : list MoodEntry.t :=
  slice_to 14
    (order_by (fun a b => datetime_leb (MoodEntry.date b) (MoodEntry.date a))
       (moods_of_user db user)).

(** The trend block of [ai_mood_prediction]: label and message from the two
    half means. *)
Definition half_trend (first_half second_half : Q) : string * string :=
  if Qltb first_half second_half then
    ("improving",
     "Your mood has been trending upward! Keep up the great work.")%string
  else if Qltb second_half first_half then
    ("declining",
     "Your mood has been trending downward. Consider reaching out for support.")%string
  else
    ("stable",
     "Your mood has been relatively stable. This consistency is positive.")%string.

(** [prediction_data] of the [ai_mood_prediction] view, after its query;
    [None] is Python's [None]. *)
Definition prediction_data_from (db : Store) (user : User)
  (recent_moods : list MoodEntry.t) : result (option dict) :=
  if 7 <=? len recent_moods then
    let mood_values := map MoodEntry.mood recent_moods in
    avg_mood <- truediv (inject_Z (sum mood_values))
                        (inject_Z (len mood_values)) ;;
    if 7 <=? len mood_values then
      let h := (length mood_values / 2)%nat in
      first_half <- truediv (inject_Z (sum (slice_to h mood_values)))
                            (inject_Z (len (slice_to h mood_values))) ;;
      second_half <- truediv (inject_Z (sum (slice_from h mood_values)))
                             (inject_Z (len (slice_from h mood_values))) ;;
      let '(trend, trend_message) := half_trend first_half second_half in
      let recommendations :=
        generate_ai_recommendations db avg_mood trend user in
      predicted_mood <- predict_next_mood mood_values ;;
      confidence <- calculate_prediction_confidence mood_values ;;
      Ok (Some [ ("avg_mood", VFloat (round1 avg_mood));
                 ("trend", VStr trend);
                 ("trend_message", VStr trend_message);
                 ("recommendations", VStrList recommendations);
                 ("data_points", VInt (len mood_values));
                 ("predicted_mood", VFloat predicted_mood);
                 ("confidence", VStr confidence) ]%string)
    else Ok None
  else Ok None.

Definition ai_mood_prediction (db : Store) (user : User)
  : result (option dict) :=
  prediction_data_from db user (recent_moods_latest db user).

(** [patient_stats] of [patient_detail], [stats] of
    [progress_analytics]. *)
Definition patient_stats (db : Store) (patient : User) (now : datetime)
  : Stats.t :=
  let total_moods := count (moods_of_user db patient) in
  let total_journals :=
    count (filter (fun j => Journal.user j =? patient) (journals db)) in
  let avg_mood := round1 (or_zero (mood_avg (moods_of_user db patient))) in
  let current_streak := calculate_streak db patient now in
  {| Stats.total_moods := total_moods;
     Stats.total_journals := total_journals;
     Stats.avg_mood := avg_mood;
     Stats.avg_mood_percentage := py_int (avg_mood * 10);
     Stats.current_streak := current_streak |}.



(** The POST branch of [add_doctor_note] behind its decorators; [note]
    is the posted [request.POST['note']] and [checkbox] is
    [request.POST.get('is_visible_to_patient')]. *)
Definition add_doctor_note_of (c : Clinic) (patient_id : User)
  (note : string) (checkbox : option string) (now : datetime)
  (doctor : Account.t) : outcome (Clinic * flash) :=
  match patient_by_id c patient_id with
  | Fails DoesNotExist => Fails Http404
  | Fails e => Fails e
  | Done patient =>
      let is_visible := column_is checkbox "on" in
      Done (create_note c
              {| DoctorNote.patient := Account.id patient;
                 DoctorNote.doctor := Account.id doctor;
                 DoctorNote.note := note;
                 DoctorNote.date := now;
                 DoctorNote.is_visible_to_patient := is_visible |},
            Success "Note added successfully!")
  end.

Definition add_doctor_note (c : Clinic) (patient_id : User) (note : string)
  (checkbox : option string) (now : datetime)
  (request_user : option Account.t) : guarded (outcome (Clinic * flash)) :=
  login_required
    (fun user =>
       doctor_required (add_doctor_note_of c patient_id note checkbox now)
         (Some user))
    request_user.

(** The POST branch of [assign_patient] behind its decorators;
    [patient_id] is the posted value after [.strip().upper()].  Only
    [User.DoesNotExist] is caught. *)
Definition assign_patient_of (c : Clinic) (patient_id : string)
  (now : datetime) (doctor : Account.t) : outcome (Clinic * flash) :=
  match patient_by_code c patient_id with
  | Done patient =>
      if exists_ (active_assignments c (Account.id doctor)
                    (Account.id patient))
      then Done (c, Warning ("Patient " ++ Account.username patient
                             ++ " is already assigned to you."))
      else
        match create_assignment c (Account.id doctor) (Account.id patient)
                now with
        | Done (c', _) =>
            Done (c', Success ("Successfully assigned patient "
                               ++ Account.username patient
                               ++ " (ID: " ++ patient_id ++ ")."))
        | Fails e => Fails e
        end
  | Fails DoesNotExist =>
      Done (c, Error ("No patient found with ID: " ++ patient_id))
  | Fails e => Fails e
  end.

Definition assign_patient (c : Clinic) (patient_id : string)
  (now : datetime) (request_user : option Account.t)
  : guarded (outcome (Clinic * flash)) :=
  login_required
    (fun user =>
       doctor_required (assign_patient_of c patient_id now) (Some user))
    request_user.

(** [progress_analytics]: the forecast with its percentages.  The guard is
    [mood_prediction and 'weekly_forecast' in mood_prediction]; the value
    under that key is always a list of numbers. *)
Definition weekly_forecast_with_percentages (mood_prediction : dict)
  : option (list (Q * Z)) :=
  if exists_ mood_prediction && has_key "weekly_forecast" mood_prediction
  then
    match get "weekly_forecast" mood_prediction with
    | Some (VNumList weekly_forecast) =>
        Some (map (fun mood => (mood, py_int (mood * 10))) weekly_forecast)
    | _ => None
    end
  else None.

Definition progress_prediction (db : Store) (user : User) (now : datetime)
  : result (dict * option (list (Q * Z))) :=
  mood_prediction <- predict_next_week_mood db user now ;;
  Ok (mood_prediction, weekly_forecast_with_percentages mood_prediction).

End Views.

(** ** [dashboard/api.py] *)
Module Api.

Fixpoint streak_loop (fuel : nat) (db : Store) (user : User)
  (check_date streak : Z) : option Z :=
  match fuel with
  | O => None
  | S fuel' =>
      if exists_ (moods_on db user check_date)
      then streak_loop fuel' db user (check_date - 1) (streak + 1)
      else Some streak
  end.

Definition calculate_streak (db : Store) (user : User) (now : datetime)
  : option Z :=
  let today := day now in
  streak_loop (S (length (mood_entries db))) db user today 0.

Definition no_data : dict :=
  [ ("trend", VStr "neutral");
    ("message", VStr "Start logging your mood to get personalized insights!");
    ("recommendations",
      VStrList ["Log your daily mood"; "Write in your journal";
                "Try breathing exercises"]) ]%string.

Definition avg_mood_of (recent_moods : list MoodEntry.t) : result Q :=
  truediv (inject_Z (sum (map MoodEntry.mood recent_moods)))
          (inject_Z (len recent_moods)).

Definition half_avg (half : list MoodEntry.t) (avg_mood : Q) : result Q :=
  if exists_ half
  then truediv (inject_Z (sum (map MoodEntry.mood half)))
               (inject_Z (len half))
  else Ok avg_mood.

Definition trend_slope (recent_moods : list MoodEntry.t) (avg_mood : Q)
  : result Q :=
  if 3 <=? len recent_moods then
    let first_half := slice_to (length recent_moods / 2) recent_moods in
    let second_half := slice_from (length recent_moods / 2) recent_moods in
    first_avg <- half_avg first_half avg_mood ;;
    second_avg <- half_avg second_half avg_mood ;;
    Ok (second_avg - first_avg)%Q
  else Ok 0%Q.

(** Trend and message; this variant builds no recommendation list. *)
Definition classify (trend_slope : Q) : string * string :=
  if Qltb (1 # 2) trend_slope then
    ("improving",
     "Your mood has been trending upward! Keep up the great work.")%string
  else if Qltb trend_slope (- (1 # 2)) then
    ("declining",
     "Your mood has been trending downward. Consider reaching out for support.")%string
  else
    ("stable",
     "Your mood has been relatively stable. This is a good foundation to build upon.")%string.

Definition analyze_recent_moods (recent_moods : list MoodEntry.t)
  : result dict :=
  if negb (exists_ recent_moods) then Ok no_data
  else
    avg_mood <- avg_mood_of recent_moods ;;
    trend_slope <- trend_slope recent_moods avg_mood ;;
    let '(trend, message) := classify trend_slope in
    Ok [ ("trend", VStr trend);
         ("avg_mood", VFloat (round1 avg_mood));
         ("message", VStr message);
         ("data_points", VInt (len recent_moods)) ]%string.

Definition recent_moods_30 (db : Store) (user : User) (now : datetime)
  : list MoodEntry.t :=
  let thirty_days_ago := minus_days now 30 in
  order_by (fun a b => datetime_leb (MoodEntry.date a) (MoodEntry.date b))
    (filter (fun e => (MoodEntry.user e =? user)
                      && datetime_leb thirty_days_ago (MoodEntry.date e))
            (mood_entries db)).

Definition analyze_mood_trends (db : Store) (user : User) (now : datetime)
  : result dict :=
  analyze_recent_moods (recent_moods_30 db user now).

(** [DoctorNoteViewSet.get_queryset] *)
Definition get_queryset (c : Clinic) (user : Account.t)
  : list DoctorNote.t :=
  if String.eqb (Account.role user) "doctor" then
    filter (fun n => DoctorNote.doctor n =? Account.id user) (doctor_notes c)
  else
    filter (fun n => (DoctorNote.patient n =? Account.id user)
                     && DoctorNote.is_visible_to_patient n)
           (doctor_notes c).

(** [DoctorNoteViewSet.create_for_patient]; [validated] is the note text and
    visibility flag of a valid serializer, [None] when it is not valid. *)
Definition create_for_patient (c : Clinic) (user : Account.t)
  (patient_id : User) (validated : option (string * bool)) (now : datetime)
  : outcome (Clinic * Response) :=
  if negb (String.eqb (Account.role user) "doctor") then
    Done (c, {| status := 403;
                data := ErrorBody "Only doctors can create notes" |})
  else
    match patient_by_id c patient_id with
    | Fails DoesNotExist =>
        Done (c, {| status := 404; data := ErrorBody "Patient not found" |})
    | Fails e => Fails e
    | Done patient =>
        if negb (exists_ (active_assignments c (Account.id user)
                            (Account.id patient)))
        then Done (c, {| status := 403;
                         data := ErrorBody
                                   "You are not assigned to this patient" |})
        else
          match validated with
          | Some (note, is_visible) =>
              let n :=
                {| DoctorNote.patient := Account.id patient;
                   DoctorNote.doctor := Account.id user;
                   DoctorNote.note := note;
                   DoctorNote.date := now;
                   DoctorNote.is_visible_to_patient := is_visible |} in
              Done (create_note c n, {| status := 201; data := NoteBody n |})
          | None => Done (c, {| status := 400; data := ErrorsBody |})
          end
    end.

(** [assign_patient] behind its permission class and [doctor_required];
    [patient_id] is the request value after [.strip().upper()]. *)
Definition assign_patient_of (c : Clinic) (patient_id : string)
  (now : datetime) (doctor : Account.t) : outcome (Clinic * Response) :=
  match patient_by_code c patient_id with
  | Fails DoesNotExist =>
      Done (c, {| status := 404;
                  data := ErrorBody ("No patient found with ID: "
                                     ++ patient_id) |})
  | Fails e => Fails e
  | Done patient =>
      if exists_ (active_assignments c (Account.id doctor)
                    (Account.id patient))
      then Done (c, {| status := 400;
                       data := ErrorBody ("Patient "
                                          ++ Account.username patient
                                          ++ " is already assigned to you") |})
      else
        match create_assignment c (Account.id doctor) (Account.id patient)
                now with
        | Done (c', assignment) =>
            Done (c', {| status := 201;
                         data := AssignedBody
                                   ("Successfully assigned patient "
                                    ++ Account.username patient
                                    ++ " (ID: " ++ patient_id ++ ")")
                                   assignment |})
        | Fails e => Fails e
        end
  end.

Definition assign_patient (c : Clinic) (patient_id : string)
  (now : datetime) (request_user : option Account.t)
  : guarded (outcome (Clinic * Response)) :=
  is_authenticated (Done (c, not_authenticated))
    (doctor_required (assign_patient_of c patient_id now)) request_user.

Definition patient_stats (db : Store) (patient : User) (now : datetime)
  : Stats.t :=
  let total_moods := count (moods_of_user db patient) in
  let total_journals :=
    count (filter (fun j => Journal.user j =? patient) (journals db)) in
  let avg_mood := round1 (or_zero (mood_avg (moods_of_user db patient))) in
  let current_streak := calculate_streak db patient now in
  {| Stats.total_moods := total_moods;
     Stats.total_journals := total_journals;
     Stats.avg_mood := avg_mood;
     Stats.avg_mood_percentage := py_int (avg_mood * 10);
     Stats.current_streak := current_streak |}.



End Api.

(** ** Binary64 arithmetic *)
Module Binary64.

(** [floor(log2 x)] for [x > 0]. *)
Definition ilog2 (x : Q) : Z :=
  let k := Z.log2 (Qnum x) - Z.log2 (Zpos (Qden x)) in
  if Qle_bool (2 ^ k) x then k else k - 1.

(** The binary64 number nearest to [x], ties to even: [x] is scaled to 53
    significant bits, rounded to an integer and scaled back.  The exponent
    range is not modelled (no overflow, no subnormal numbers): the numbers
    rounded below are quotients, differences and products of moods and
    counts. *)
Definition nearest (x : Q) : Q :=
  if Qeq_bool x 0 then 0%Q
  else
    let e := ilog2 (Qabs x) - 52 in
    Qred (inject_Z (round_half_even (x / 2 ^ e)) * 2 ^ e)%Q.

(** [a / b] on integers: the correctly rounded quotient. *)
Definition truediv (a b : Z) : result Q :=
  if b =? 0 then Raise ZeroDivisionError
  else Ok (nearest (inject_Z a / inject_Z b)).

(** [a - b] and [a * b] on floats. *)
Definition sub (a b : Q) : Q := nearest (a - b).
Definition mul (a b : Q) : Q := nearest (a * b).

(** [round(x, 1)] on a float: the decimal with one digit nearest to the
    value of [x], ties to even, converted back to binary64. *)
Definition round1 (x : Q) : Q :=
  nearest (inject_Z (round_half_even (x * 10)) / 10).

(** [aggregate(Avg('mood'))['mood__avg']]: the sum divided by the count in
    binary64, NULL on an empty table. *)
Definition mood_avg (moods : list MoodEntry.t) : option Q :=
  match moods with
  | [] => None
  | _ :: _ =>
      Some (nearest (inject_Z (sum (map MoodEntry.mood moods))
                     / inject_Z (len moods)))
  end.

End Binary64.

(** ** [dashboard/views.py] in binary64 *)
Module Views64.

Definition avg_mood_of (recent_moods : list MoodEntry.t) : result Q :=
  Binary64.truediv (sum (map MoodEntry.mood recent_moods)) (len recent_moods).

Definition half_avg (half : list Z) (avg_mood : Q) : result Q :=
  if exists_ half then Binary64.truediv (sum half) (len half)
  else Ok avg_mood.

Definition trend_slope (recent_moods : list MoodEntry.t) (avg_mood : Q)
  : result Q :=
  if 3 <=? len recent_moods then
    let y_values := map MoodEntry.mood recent_moods in
    if 1 <? len recent_moods then
      let first_half := slice_to (length y_values / 2) y_values in
      let second_half := slice_from (length y_values / 2) y_values in
      first_avg <- half_avg first_half avg_mood ;;
      second_avg <- half_avg second_half avg_mood ;;
      Ok (Binary64.sub second_avg first_avg)
    else Ok 0%Q
  else Ok 0%Q.

(** [analyze_mood_trends] after its query; the comparisons of [classify]
    and [mood_range] are exact on the rounded values. *)
Definition analyze_recent_moods (recent_moods : list MoodEntry.t)
  : result dict :=
  if negb (exists_ recent_moods) then Ok Views.no_data
  else
    avg_mood <- avg_mood_of recent_moods ;;
    trend_slope <- trend_slope recent_moods avg_mood ;;
    let '(trend, message, recommendations) := Views.classify trend_slope in
    let '(mood_level, additional_message) := Views.mood_range avg_mood in
    Ok [ ("trend", VStr trend);
         ("mood_level", VStr mood_level);
         ("avg_mood", VFloat (Binary64.round1 avg_mood));
         ("message", VStr message);
         ("additional_message", VStr additional_message);
         ("recommendations", VStrList recommendations);
         ("data_points", VInt (len recent_moods)) ]%string.

Definition analyze_mood_trends (db : Store) (user : User) (now : datetime)
  : result dict :=
  analyze_recent_moods (Views.recent_moods_30 db user now).

(** [patient_stats] of [patient_detail], [stats] of
    [progress_analytics]. *)
Definition patient_stats (db : Store) (patient : User) (now : datetime)
  : Stats.t :=
  let total_moods := count (moods_of_user db patient) in
  let total_journals :=
    count (filter (fun j => Journal.user j =? patient) (journals db)) in
  let avg_mood :=
    Binary64.round1 (or_zero (Binary64.mood_avg (moods_of_user db patient))) in
  let current_streak := Views.calculate_streak db patient now in
  {| Stats.total_moods := total_moods;
     Stats.total_journals := total_journals;
     Stats.avg_mood := avg_mood;
     Stats.avg_mood_percentage := py_int (Binary64.mul avg_mood 10);
     Stats.current_streak := current_streak |}.

End Views64.

(** ** [dashboard/api.py] in binary64 *)
Module Api64.

Definition avg_mood_of (recent_moods : list MoodEntry.t) : result Q :=
  Binary64.truediv (sum (map MoodEntry.mood recent_moods)) (len recent_moods).

Definition half_avg (half : list MoodEntry.t) (avg_mood : Q) : result Q :=
  if exists_ half
  then Binary64.truediv (sum (map MoodEntry.mood half)) (len half)
  else Ok avg_mood.

Definition trend_slope (recent_moods : list MoodEntry.t) (avg_mood : Q)
  : result Q :=
  if 3 <=? len recent_moods then
    let first_half := slice_to (length recent_moods / 2) recent_moods in
    let second_half := slice_from (length recent_moods / 2) recent_moods in
    first_avg <- half_avg first_half avg_mood ;;
    second_avg <- half_avg second_half avg_mood ;;
    Ok (Binary64.sub second_avg first_avg)
  else Ok 0%Q.

Definition analyze_recent_moods (recent_moods : list MoodEntry.t)
  : result dict :=
  if negb (exists_ recent_moods) then Ok Api.no_data
  else
    avg_mood <- avg_mood_of recent_moods ;;
    trend_slope <- trend_slope recent_moods avg_mood ;;
    let '(trend, message) := Api.classify trend_slope in
    Ok [ ("trend", VStr trend);
         ("avg_mood", VFloat (Binary64.round1 avg_mood));
         ("message", VStr message);
         ("data_points", VInt (len recent_moods)) ]%string.

Definition analyze_mood_trends (db : Store) (user : User) (now : datetime)
  : result dict :=
  analyze_recent_moods (Api.recent_moods_30 db user now).

Definition patient_stats (db : Store) (patient : User) (now : datetime)
  : Stats.t :=
  let total_moods := count (moods_of_user db patient) in
  let total_journals :=
    count (filter (fun j => Journal.user j =? patient) (journals db)) in
  let avg_mood :=
    Binary64.round1 (or_zero (Binary64.mood_avg (moods_of_user db patient))) in
  let current_streak := Api.calculate_streak db patient now in
  {| Stats.total_moods := total_moods;
     Stats.total_journals := total_journals;
     Stats.avg_mood := avg_mood;
     Stats.avg_mood_percentage := py_int (Binary64.mul avg_mood 10);
     Stats.current_streak := current_streak |}.

End Api64.

(** ** The requests that change the store *)

Definition empty_store : Store :=
  {| mood_entries := []; journals := []; achievements := [] |}.

(** One request.  The [log_mood] view saves an entry and runs
    [check_achievements] (the step allows every mood value, also those the
    form refuses); the [add_journal] view saves a journal; the REST
    view sets create, update and delete mood entries and journals without
    touching achievements (the achievement view set is read-only);
    [check_achievements] may also be run on its own. *)
Inductive step : Store -> Store -> Prop :=
| step_log_mood db user mood note tags now :
    step db (Views.log_mood_valid db user mood note tags now)
| step_add_journal db journal :
    step db (save_journal db journal)
| step_rest db moods journals' :
    step db {| mood_entries := moods; journals := journals';
               achievements := achievements db |}
| step_check db user now :
    step db (Views.check_achievements db user now).

Inductive reachable : Store -> Prop :=
| reach_empty : reachable empty_store
| reach_step db db' : reachable db -> step db db' -> reachable db'.

(** At most one achievement per (user, title). *)
Definition unique_titles (db : Store) : Prop :=
  forall user title, (length (achievements_titled db user title) <= 1)%nat.

(** ** Specification-side notions *)

(** Mean of a list of integers, as an exact rational. *)
Definition mean (l : list Z) : Q := (inject_Z (sum l) / inject_Z (len l))%Q.

Definition in_mood_range (m : Z) : Prop := 1 <= m <= 10.

Definition in_forecast_range (q : Q) : Prop := (1 <= q)%Q /\ (q <= 10)%Q.

(** [user] has at least one mood entry on calendar day [d]. *)
Definition logged_on (db : Store) (user : User) (d : Z) : Prop :=
  exists e, In e (mood_entries db)
            /\ MoodEntry.user e = user /\ day (MoodEntry.date e) = d.

(** The entries of [user] dated on day [d] or earlier: the variant of the
    streak loop. *)
Definition entries_upto (db : Store) (user : User) (d : Z)
  : list MoodEntry.t :=
  filter (fun e => (MoodEntry.user e =? user) && (day (MoodEntry.date e) <=? d))
         (mood_entries db).

(** The keys of the no-data and of the full trend results. *)
Definition no_data_keys : list string :=
  ["trend"; "message"; "recommendations"]%string.

Definition views_trend_keys : list string :=
  ["trend"; "mood_level"; "avg_mood"; "message"; "additional_message";
   "recommendations"; "data_points"]%string.

Definition api_trend_keys : list string :=
  ["trend"; "avg_mood"; "message"; "data_points"]%string.

(** The label the 0.5 dead band assigns to a slope. *)
Definition trend_label (slope : Q) : string :=
  if Qltb (1 # 2) slope then "improving"
  else if Qltb slope (- (1 # 2)) then "declining"
  else "stable".

(** Every achievement is one of the two the rule engine creates, with its
    points, and a holder of "Monthly Master" also holds "Week Warrior". *)
Definition well_formed_achievements (db : Store) : Prop :=
  (forall a, In a (achievements db) ->
     (Achievement.title a = "Week Warrior"%string /\ Achievement.points a = 10)
     \/ (Achievement.title a = "Monthly Master"%string
         /\ Achievement.points a = 50))
  /\ (forall user,
        exists_ (achievements_titled db user "Monthly Master") = true ->
        exists_ (achievements_titled db user "Week Warrior") = true).


(** Some user holds the patient identifier [code]. *)
Definition code_taken (c : Clinic) (code : string) : Prop :=
  exists u, In u (users c) /\ Account.patient_id u = Some code.

(** Rows of a grouped query in strictly ascending key order. *)
Fixpoint ascending {V} (rows : list (Z * V)) : Prop :=
  match rows with
  | [] => True
  | row :: rest =>
      (forall k, In k (map fst rest) -> fst row < k) /\ ascending rest
  end.

(** The rows of [qs] whose key is [k], their number and the sum of their
    values. *)
Definition group_of (key : MoodEntry.t -> Z) (k : Z) (qs : list MoodEntry.t)
  : list MoodEntry.t :=
  filter (fun e => key e =? k) qs.

Definition occurrences (key : MoodEntry.t -> Z) (k : Z)
  (qs : list MoodEntry.t) : Z :=
  len (group_of key k qs).

Definition group_total (key value : MoodEntry.t -> Z) (k : Z)
  (qs : list MoodEntry.t) : Z :=
  sum (map value (group_of key k qs)).

(** The row of key [k], if any. *)
Fixpoint find_row {V} (k : Z) (rows : list (Z * V)) : option V :=
  match rows with
  | [] => None
  | (k', v) :: rest => if k =? k' then Some v else find_row k rest
  end.

(** Half a unit in the last place, relative: [2^-53]. *)
Definition half_ulp : Q := 1 # 2 ^ 53.

(** The history sizes for which the binary64 results are compared with the
    exact ones. *)
Definition max_history : Z := 1000000.

(** Sample rows for the worked instances. *)
Definition mood_entry_on (user : User) (mood d : Z) : MoodEntry.t :=
  {| MoodEntry.user := user; MoodEntry.mood := mood;
     MoodEntry.note := ""; MoodEntry.tags := "";
     MoodEntry.date := {| day := d; time_of_day := 0 |} |}.

Definition sample_doctor : Account.t :=
  {| Account.id := 1; Account.username := "dr";
     Account.role := "doctor"; Account.patient_id := None |}.

Definition sample_patient : Account.t :=
  {| Account.id := 2; Account.username := "ann";
     Account.role := "patient"; Account.patient_id := Some "AB12CD34"%string |}.

Definition sample_clinic : Clinic :=
  {| users := [sample_doctor; sample_patient];
     assignments := []; doctor_notes := [] |}.

(** One valid POST to [log_mood] by the sample patient on each of the days
    0 .. n-1, from the empty store. *)
Definition logged_days (n : nat) : Store :=
  fold_left (fun db d =>
               fst (Views.log_mood_of db "POST" (Some "5"%string) "" ""
                      {| day := d; time_of_day := 0 |} sample_patient))
            (range n) empty_store.

(** ** Python primitives: basic facts *)

Lemma truediv_nonzero (a b : Q) :
  ~ (b == 0)%Q -> truediv a b = Ok (a / b)%Q.
Proof.
  intros Hb. unfold truediv.
  destruct (Qeq_bool b 0) eqn:E; [|reflexivity].
  apply Qeq_bool_iff in E. contradiction.
Qed.

Lemma truediv_Z (a : Q) (z : Z) :
  z <> 0 -> truediv a (inject_Z z) = Ok (a / inject_Z z)%Q.
Proof.
  intros Hz. apply truediv_nonzero.
  unfold Qeq, inject_Z; simpl. lia.
Qed.

Lemma truediv_zero (a : Q) : truediv a 0 = Raise ZeroDivisionError.
Proof. reflexivity. Qed.

Lemma fold_add_acc (l : list Z) (a : Z) :
  fold_left Z.add l a = a + fold_left Z.add l 0.
Proof.
  revert a. induction l as [|x l IH]; intros a; simpl; [lia|].
  rewrite (IH (a + x)), (IH x). lia.
Qed.

Lemma sum_cons (x : Z) (l : list Z) : sum (x :: l) = x + sum l.
Proof. unfold sum; simpl. apply fold_add_acc. Qed.

Lemma sum_app (l1 l2 : list Z) : sum (l1 ++ l2) = sum l1 + sum l2.
Proof.
  induction l1 as [|x l1 IH]; simpl.
  - reflexivity.
  - rewrite !sum_cons, IH. lia.
Qed.

Lemma len_cons {A} (x : A) (l : list A) : len (x :: l) = 1 + len l.
Proof. unfold len. simpl length. lia. Qed.

Lemma len_nonneg {A} (l : list A) : 0 <= len l.
Proof. unfold len. lia. Qed.

Lemma len_pos {A} (l : list A) : l <> [] -> 0 < len l.
Proof.
  destruct l; [congruence|]. intros _.
  rewrite len_cons. pose proof (len_nonneg l). lia.
Qed.

Lemma exists_true {A} (l : list A) : exists_ l = true <-> l <> [].
Proof. destruct l; simpl; split; congruence. Qed.

Lemma Qltb_lt (a b : Q) : Qltb a b = true <-> (a < b)%Q.
Proof.
  unfold Qltb. rewrite negb_true_iff. split.
  - intros H. apply Qnot_le_lt. intros Hle.
    apply Qle_bool_iff in Hle. congruence.
  - intros H. destruct (Qle_bool b a) eqn:E; [|reflexivity].
    apply Qle_bool_iff in E. exfalso. exact (Qlt_not_le _ _ H E).
Qed.

Lemma Qltb_ge (a b : Q) : Qltb a b = false <-> (b <= a)%Q.
Proof.
  unfold Qltb. rewrite negb_false_iff. apply Qle_bool_iff.
Qed.

(** ** Recommendation engine *)

Lemma bucket_length (avg_mood : Q) : length (Views.bucket avg_mood) = 4%nat.
Proof.
  unfold Views.bucket.
  destruct (Qltb avg_mood 4); [reflexivity|].
  destruct (Qltb avg_mood 6); reflexivity.
Qed.

(** Every bucket is a four-element list, so the list operations of the
    function can be run on its shape. *)
Lemma bucket_shape (avg_mood : Q) :
  exists a b c d, Views.bucket avg_mood = [a; b; c; d].
Proof.
  pose proof (bucket_length avg_mood) as H.
  destruct (Views.bucket avg_mood) as [|a [|b [|c [|d [|e l]]]]];
    try discriminate H.
  now exists a, b, c, d.
Qed.

(** C4: the returned list has at most five entries; it is the five-element
    prefix of the assembled list (truncation is the last step); for the
    trend "declining" the two urgent-support messages sit at positions 0 and
    1, followed by the first three entries of the mood bucket, so that the
    inserted messages are kept and the later appended ones are cut. *)
Theorem recommendations_priority (db : Store) (avg_mood : Q) (trend : string)
  (user : User) :
  let r := Views.generate_ai_recommendations db avg_mood trend user in
  (length r <= 5)%nat
  /\ r = firstn 5 (Views.assemble_recommendations db avg_mood trend user)
  /\ (trend = "declining"%string ->
      nth_error r 0 = Some Views.urgent_support
      /\ nth_error r 1 = Some Views.urgent_contact
      /\ r = Views.urgent_support :: Views.urgent_contact
               :: firstn 3 (Views.bucket avg_mood)).
Proof.
  intros r. subst r.
  unfold Views.generate_ai_recommendations, slice_to.
  split; [apply firstn_le_length|].
  split; [reflexivity|].
  intros ->.
  unfold Views.assemble_recommendations.
  destruct (bucket_shape avg_mood) as (a & b & c & d & ->).
  cbv [String.eqb Ascii.eqb Bool.eqb insert firstn skipn app].
  destruct (count _ <? 5); cbn; auto.
Qed.

Lemma recommendations_priority_witness :
  nth_error (Views.generate_ai_recommendations empty_store 3 "declining" 1) 0
  = Some Views.urgent_support.
Proof.
  apply (recommendations_priority empty_store 3 "declining"%string 1).
  reflexivity.
Defined.

(** C10: the function returns exactly five recommendations.  The bucket
    brings four, the wellness-games entry is appended on every path
    ([game_sessions] is the constant 0), so at least five entries reach the
    final truncation. *)
Theorem recommendations_exactly_five (db : Store) (avg_mood : Q)
  (trend : string) (user : User) :
  length (Views.generate_ai_recommendations db avg_mood trend user) = 5%nat
  /\ length (Views.bucket avg_mood) = 4%nat
  /\ In Views.wellness_games
        (Views.assemble_recommendations db avg_mood trend user)
  /\ (5 <= length (Views.assemble_recommendations db avg_mood trend user))%nat.
Proof.
  assert (Hin : In Views.wellness_games
                   (Views.assemble_recommendations db avg_mood trend user)).
  { unfold Views.assemble_recommendations.
    change (0 <? 3) with true. cbv iota.
    apply in_or_app. right. left. reflexivity. }
  assert (Hlen : (5 <= length (Views.assemble_recommendations
                                 db avg_mood trend user))%nat).
  { unfold Views.assemble_recommendations.
    change (0 <? 3) with true. cbv iota.
    rewrite length_app. simpl length at 2.
    match goal with
    | |- (5 <= length ?l + 1)%nat => assert (4 <= length l)%nat; [|lia]
    end.
    destruct (count _ <? 5);
      destruct (String.eqb trend "declining");
      unfold insert;
      repeat rewrite ?length_app, ?length_firstn, ?length_skipn;
      simpl length; rewrite ?bucket_length; simpl; lia. }
  repeat split; auto using bucket_length.
  unfold Views.generate_ai_recommendations, slice_to.
  rewrite length_firstn. lia.
Qed.

(** ** Single-value predictor: the regression sums *)

Lemma range_S (n : nat) : range (S n) = range n ++ [Z.of_nat n].
Proof.
  unfold range. rewrite seq_S, map_app. reflexivity.
Qed.

Lemma length_range (n : nat) : length (range n) = n.
Proof. unfold range. now rewrite length_map, length_seq. Qed.

Lemma sum_x_S (n : nat) : Views.sum_x (S n) = Views.sum_x n + Z.of_nat n.
Proof.
  unfold Views.sum_x. rewrite range_S, sum_app, sum_cons.
  change (sum []) with 0. lia.
Qed.

Lemma sum_xx_S (n : nat) :
  Views.sum_xx (S n) = Views.sum_xx n + Z.of_nat n * Z.of_nat n.
Proof.
  unfold Views.sum_xx. rewrite range_S, map_app, sum_app.
  simpl map. rewrite sum_cons. change (sum []) with 0. lia.
Qed.

Lemma sum_x_closed (n : nat) :
  2 * Views.sum_x n = Z.of_nat n * (Z.of_nat n - 1).
Proof.
  induction n as [|n IH]; [reflexivity|].
  rewrite sum_x_S, Nat2Z.inj_succ. nia.
Qed.

Lemma sum_xx_closed (n : nat) :
  6 * Views.sum_xx n
  = (Z.of_nat n - 1) * Z.of_nat n * (2 * Z.of_nat n - 1).
Proof.
  induction n as [|n IH]; [reflexivity|].
  rewrite sum_xx_S, Nat2Z.inj_succ. nia.
Qed.

Lemma ols_denominator_closed (n : nat) :
  12 * Views.ols_denominator n
  = Z.of_nat n * Z.of_nat n * (Z.of_nat n * Z.of_nat n - 1).
Proof.
  unfold Views.ols_denominator.
  pose proof (sum_x_closed n) as Hx.
  pose proof (sum_xx_closed n) as Hxx.
  set (m := Z.of_nat n) in *.
  set (sx := Views.sum_x n) in *.
  set (sxx := Views.sum_xx n) in *.
  assert (H4 : 4 * (sx * sx) = (m * (m - 1)) * (m * (m - 1))).
  { rewrite <- Hx. ring. }
  assert (H12 : 12 * (m * sxx) = 2 * m * ((m - 1) * m * (2 * m - 1))).
  { rewrite <- Hxx. ring. }
  assert (E : 12 * (m * sxx - sx * sx)
              = 12 * (m * sxx) - 3 * (4 * (sx * sx))) by ring.
  rewrite E, H4, H12. ring.
Qed.

Lemma ols_denominator_pos (n : nat) :
  (2 <= n)%nat -> 0 < Views.ols_denominator n.
Proof.
  intros Hn. pose proof (ols_denominator_closed n) as H.
  assert (Hm : 2 <= Z.of_nat n) by lia.
  set (m := Z.of_nat n) in *.
  assert (0 < m * m * (m * m - 1)) by nia.
  lia.
Qed.

Lemma predict_next_mood_regression (mood_values : list Z) :
  (3 <= length mood_values)%nat ->
  let n := length mood_values in
  let slope :=
    (inject_Z (Z.of_nat n * Views.sum_xy n mood_values
               - Views.sum_x n * sum mood_values)
     / inject_Z (Views.ols_denominator n))%Q in
  let intercept :=
    ((inject_Z (sum mood_values) - slope * inject_Z (Views.sum_x n))
     / inject_Z (Z.of_nat n))%Q in
  Views.predict_next_mood mood_values
  = Ok (max 1 (min 10 (round1 (slope * inject_Z (Z.of_nat n) + intercept)))).
Proof.
  intros Hn n slope intercept.
  unfold Views.predict_next_mood.
  assert (Hlen : (len mood_values <? 3) = false).
  { apply Z.ltb_ge. unfold len. lia. }
  rewrite Hlen. fold n.
  rewrite truediv_Z by (pose proof (ols_denominator_pos n); lia).
  cbn [bind]. fold slope.
  rewrite truediv_Z by lia.
  reflexivity.
Qed.

(** C8: for at least three mood values the divisor
    [n * sum_xx - sum_x * sum_x] over the indices [0 .. n-1] is not zero
    (it is n^2 (n^2 - 1) / 12), and neither is the second divisor [n]; both
    divisions of the regression branch succeed and [predict_next_mood]
    returns the clamped, rounded prediction. *)
Theorem ols_denominator_nonzero (mood_values : list Z) :
  (3 <= length mood_values)%nat ->
  let n := length mood_values in
  Z.of_nat n * Views.sum_xx n - Views.sum_x n * Views.sum_x n <> 0
  /\ 12 * Views.ols_denominator n
     = Z.of_nat n * Z.of_nat n * (Z.of_nat n * Z.of_nat n - 1)
  /\ (forall a, truediv a (inject_Z (Views.ols_denominator n))
                <> Raise ZeroDivisionError)
  /\ (forall a, truediv a (inject_Z (Z.of_nat n)) <> Raise ZeroDivisionError)
  /\ returns (Views.predict_next_mood mood_values).
Proof.
  intros Hn n.
  pose proof (ols_denominator_pos n) as Hpos.
  split; [fold (Views.ols_denominator n); lia|].
  split; [apply ols_denominator_closed|].
  split; [intros a; rewrite truediv_Z by lia; discriminate|].
  split; [intros a; rewrite truediv_Z by lia; discriminate|].
  eexists. apply predict_next_mood_regression. exact Hn.
Qed.

Lemma ols_denominator_nonzero_witness :
  returns (Views.predict_next_mood [5; 5; 5; 5; 5]).
Proof.
  apply (ols_denominator_nonzero [5; 5; 5; 5; 5]).
  simpl. lia.
Defined.

(** ** Rounding, clamping and sums of rationals *)

Lemma sq_pair_pos (m : Q) : (0 < (0 - m) ^ 2 + (1 - m) ^ 2)%Q.
Proof. simpl. nra. Qed.

Lemma round_half_even_bounds (t : Q) :
  Qfloor t <= round_half_even t <= Qfloor t + 1.
Proof.
  unfold round_half_even.
  destruct (Qcompare _ _); [destruct (Z.even _)| |]; lia.
Qed.

Lemma round_half_even_range (t : Q) (a b : Z) :
  (inject_Z a <= t)%Q -> (t <= inject_Z b)%Q ->
  a <= round_half_even t <= b.
Proof.
  intros Ha Hb.
  pose proof (round_half_even_bounds t) as [Hlo Hhi].
  pose proof (Qfloor_resp_le _ _ Ha) as Hfa. rewrite Qfloor_Z in Hfa.
  pose proof (Qfloor_resp_le _ _ Hb) as Hfb. rewrite Qfloor_Z in Hfb.
  split; [lia|].
  destruct (Z.eq_dec (Qfloor t) b) as [E|NE]; [|lia].
  unfold round_half_even.
  assert (Hd : Qcompare (t - inject_Z (Qfloor t)) (1 # 2) = Lt).
  { apply (proj1 (Qlt_alt _ _)). rewrite E. lra. }
  rewrite Hd. lia.
Qed.

Lemma round1_range (x : Q) :
  in_forecast_range x -> in_forecast_range (round1 x).
Proof.
  intros [Hlo Hhi]. unfold round1.
  assert (H : 10 <= round_half_even (x * 10) <= 100).
  { apply round_half_even_range; unfold inject_Z; lra. }
  revert H. generalize (round_half_even (x * 10)). intros r Hr.
  unfold in_forecast_range, Qle, Qdiv, Qmult, Qinv, inject_Z; simpl. lia.
Qed.

Lemma clamp_max_min (x : Q) : in_forecast_range (max 1 (min 10 x)).
Proof.
  unfold in_forecast_range, max, min.
  destruct (Qltb x 10) eqn:E1.
  - apply Qltb_lt in E1.
    destruct (Qltb 1 x) eqn:E2.
    + apply Qltb_lt in E2. lra.
    + lra.
  - destruct (Qltb 1 10) eqn:E2; lra.
Qed.

Lemma clamp_min_max (x : Q) : in_forecast_range (min 10 (max 1 x)).
Proof.
  unfold in_forecast_range, max, min.
  destruct (Qltb 1 x) eqn:E1.
  - apply Qltb_lt in E1.
    destruct (Qltb x 10) eqn:E2.
    + apply Qltb_lt in E2. lra.
    + lra.
  - destruct (Qltb 1 10) eqn:E2; lra.
Qed.

Lemma fold_Qplus_acc (l : list Q) (a : Q) :
  (fold_left Qplus l a == a + sumQ l)%Q.
Proof.
  unfold sumQ. revert a. induction l as [|x l IH]; intros a; simpl.
  - ring.
  - rewrite (IH (a + x)%Q), (IH (0 + x)%Q). ring.
Qed.

Lemma sumQ_cons (x : Q) (l : list Q) : (sumQ (x :: l) == x + sumQ l)%Q.
Proof. unfold sumQ at 1. simpl. rewrite fold_Qplus_acc. ring. Qed.

Lemma sumQ_nonneg (l : list Q) :
  Forall (fun q => (0 <= q)%Q) l -> (0 <= sumQ l)%Q.
Proof.
  induction 1 as [|x l Hx Hl IH].
  - unfold sumQ; simpl. lra.
  - rewrite sumQ_cons. lra.
Qed.


Lemma sum_bounds (l : list Z) :
  Forall in_mood_range l -> len l <= sum l <= 10 * len l.
Proof.
  induction 1 as [|x l Hx Hl IH].
  - unfold len, sum; simpl. lia.
  - rewrite sum_cons, len_cons. unfold in_mood_range in Hx. lia.
Qed.

Lemma mean_in_range (l : list Z) :
  l <> [] -> Forall in_mood_range l -> in_forecast_range (mean l).
Proof.
  intros Hne Hall.
  pose proof (sum_bounds l Hall) as [Hlo Hhi].
  pose proof (len_pos l Hne) as Hpos.
  unfold mean, in_forecast_range.
  assert (Hq : (0 < inject_Z (len l))%Q).
  { unfold Qlt, inject_Z; simpl. lia. }
  split.
  - apply Qle_shift_div_l; [exact Hq|].
    unfold Qle, Qmult, inject_Z; cbn [Qnum Qden]. lia.
  - apply Qle_shift_div_r; [exact Hq|].
    unfold Qle, Qmult, inject_Z; cbn [Qnum Qden]. lia.
Qed.

Lemma squares_nonneg (m : Q) (xs : list Z) :
  Forall (fun q => (0 <= q)%Q) (map (fun x => (inject_Z x - m) ^ 2)%Q xs).
Proof.
  apply Forall_forall. intros q Hq.
  apply in_map_iff in Hq as (x & <- & _).
  set (t := (inject_Z x - m)%Q).
  change (t ^ 2)%Q with (t * t)%Q. nra.
Qed.

Lemma range_two (k : nat) :
  range (S (S k)) = 0 :: 1 :: map Z.of_nat (seq 2 k).
Proof. reflexivity. Qed.

Lemma centred_squares_pos (n : nat) (m : Q) :
  (2 <= n)%nat ->
  (0 < sumQ (map (fun x => (inject_Z x - m) ^ 2)%Q (range n)))%Q.
Proof.
  intros Hn. destruct n as [|[|k]]; try lia.
  rewrite range_two. cbn [map]. rewrite !sumQ_cons.
  pose proof (sumQ_nonneg _ (squares_nonneg m (map Z.of_nat (seq 2 k)))) as H.
  change (inject_Z 0) with 0%Q. change (inject_Z 1) with 1%Q.
  pose proof (sq_pair_pos m). lra.
Qed.

Lemma weekly_slope_returns (mood_values : list Z) (avg_mood : Q) :
  returns (Views.weekly_slope mood_values avg_mood).
Proof.
  unfold Views.weekly_slope.
  destruct (1 <? len mood_values) eqn:E; [|eexists; reflexivity].
  apply Z.ltb_lt in E. unfold len in E.
  rewrite truediv_Z by (unfold len; rewrite length_range; lia).
  cbn [bind].
  rewrite truediv_nonzero.
  - eexists; reflexivity.
  - intros H0.
    pose proof (centred_squares_pos (length mood_values)
      (inject_Z (sum (range (length mood_values)))
       / inject_Z (len (range (length mood_values))))%Q) as Hpos.
    rewrite H0 in Hpos. 
    assert (2 <= length mood_values)%nat by lia. specialize (Hpos H). lra.
Qed.

Lemma forecast_day_range (base_mood : Z) (slope : Q) (i : Z) :
  in_forecast_range (Views.forecast_day base_mood slope i).
Proof.
  unfold Views.forecast_day. apply round1_range, clamp_min_max.
Qed.

Lemma predict_week_from_forecast (recent_moods : list MoodEntry.t) :
  recent_moods <> [] ->
  exists base_mood slope d,
    Views.predict_week_from recent_moods = Ok d
    /\ get "weekly_forecast" d
       = Some (VNumList (map (Views.forecast_day base_mood slope) (range 7))).
Proof.
  intros Hne. unfold Views.predict_week_from.
  rewrite (proj2 (exists_true _) Hne). cbn [negb].
  rewrite truediv_Z.
  2:{ unfold len. rewrite length_map. destruct recent_moods; [congruence|].
      simpl length. lia. }
  cbn [bind].
  destruct (weekly_slope_returns (map MoodEntry.mood recent_moods)
              (inject_Z (sum (map MoodEntry.mood recent_moods))
               / inject_Z (len (map MoodEntry.mood recent_moods)))%Q)
    as [slope ->].
  cbn [bind].
  rewrite truediv_Z by (unfold len; rewrite length_map, length_range; lia).
  cbn [bind].
  eexists _, slope.
  destruct (Qle_bool 7 _); [|destruct (Qle_bool 4 _)];
    eexists; (split; [reflexivity|reflexivity]).
Qed.

(** C3: for every non-empty list of mood values in 1..10 the single-value
    predictor returns a value in [1, 10], and the weekly forecaster returns
    seven forecast values, each in [1, 10]. *)
Theorem forecasts_within_range (mood_values : list Z) :
  mood_values <> [] ->
  Forall in_mood_range mood_values ->
  (exists v, Views.predict_next_mood mood_values = Ok v
             /\ in_forecast_range v)
  /\ (forall recent_moods,
        map MoodEntry.mood recent_moods = mood_values ->
        exists d weekly_forecast,
          Views.predict_week_from recent_moods = Ok d
          /\ get "weekly_forecast" d = Some (VNumList weekly_forecast)
          /\ length weekly_forecast = 7%nat
          /\ Forall in_forecast_range weekly_forecast).
Proof.
  intros Hne Hall. split.
  - destruct (len mood_values <? 3) eqn:E.
    + exists (mean mood_values). split; [|now apply mean_in_range].
      unfold Views.predict_next_mood. rewrite E.
      apply truediv_Z. pose proof (len_pos mood_values Hne). lia.
    + apply Z.ltb_ge in E. unfold len in E.
      eexists. split.
      * apply predict_next_mood_regression. lia.
      * apply clamp_max_min.
  - intros recent_moods Hmap.
    assert (Hrm : recent_moods <> []).
    { intros ->. simpl in Hmap. congruence. }
    destruct (predict_week_from_forecast recent_moods Hrm)
      as (base_mood & slope & d & Hd & Hget).
    exists d, (map (Views.forecast_day base_mood slope) (range 7)).
    repeat split; auto.
    apply Forall_forall. intros q Hq.
    apply in_map_iff in Hq as (i & <- & _).
    apply forecast_day_range.
Qed.

Lemma forecasts_within_range_witness :
  exists v, Views.predict_next_mood (repeat 10 10) = Ok v
            /\ in_forecast_range v.
Proof.
  apply (forecasts_within_range (repeat 10 10)).
  - discriminate.
  - repeat constructor; unfold in_mood_range; lia.
Defined.

(** ** Streak calculator *)

Lemma moods_on_logged (db : Store) (user : User) (d : Z) :
  exists_ (moods_on db user d) = true <-> logged_on db user d.
Proof.
  rewrite exists_true. unfold moods_on, logged_on. split.
  - intros Hne.
    destruct (filter _ (mood_entries db)) as [|e l] eqn:E; [congruence|].
    assert (Hin : In e (e :: l)) by now left.
    rewrite <- E in Hin. apply filter_In in Hin as [Hin Hp].
    apply andb_true_iff in Hp as [Hu Hd].
    exists e. repeat split; auto; lia.
  - intros (e & Hin & Hu & Hd) Hnil.
    assert (Hf : In e (filter
                  (fun e => (MoodEntry.user e =? user)
                            && (day (MoodEntry.date e) =? d))
                  (mood_entries db))).
    { apply filter_In. split; [exact Hin|].
      apply andb_true_iff. split; lia. }
    rewrite Hnil in Hf. exact Hf.
Qed.

Lemma moods_on_not_logged (db : Store) (user : User) (d : Z) :
  exists_ (moods_on db user d) = false <-> ~ logged_on db user d.
Proof.
  rewrite <- moods_on_logged. destruct (exists_ _); split; congruence.
Qed.

(** A day with an entry adds at least that entry to the variant. *)
Lemma entries_upto_step (db : Store) (user : User) (d : Z) :
  length (entries_upto db user d)
  = (length (entries_upto db user (d - 1)) + length (moods_on db user d))%nat.
Proof.
  unfold entries_upto, moods_on.
  induction (mood_entries db) as [|e l IH]; [reflexivity|].
  cbn [filter].
  destruct (MoodEntry.user e =? user); cbn [andb]; [|exact IH].
  destruct (Z.compare_spec (day (MoodEntry.date e)) d) as [E|L|G].
  - replace (day (MoodEntry.date e) <=? d) with true by (symmetry; lia).
    replace (day (MoodEntry.date e) <=? d - 1) with false by (symmetry; lia).
    replace (day (MoodEntry.date e) =? d) with true by (symmetry; lia).
    cbn [length]. lia.
  - replace (day (MoodEntry.date e) <=? d) with true by (symmetry; lia).
    replace (day (MoodEntry.date e) <=? d - 1) with true by (symmetry; lia).
    replace (day (MoodEntry.date e) =? d) with false by (symmetry; lia).
    cbn [length]. lia.
  - replace (day (MoodEntry.date e) <=? d) with false by (symmetry; lia).
    replace (day (MoodEntry.date e) <=? d - 1) with false by (symmetry; lia).
    replace (day (MoodEntry.date e) =? d) with false by (symmetry; lia).
    exact IH.
Qed.

Lemma entries_upto_le (db : Store) (user : User) (d : Z) :
  (length (entries_upto db user d) <= length (mood_entries db))%nat.
Proof. apply filter_length_le. Qed.

(** The loop reaches its [break] as soon as the fuel exceeds the variant,
    and then returns the length of the run of logged days ending at
    [check_date]. *)
Lemma streak_loop_spec (fuel : nat) (db : Store) (user : User) :
  forall check_date streak,
    (length (entries_upto db user check_date) < fuel)%nat ->
    exists k,
      0 <= k
      /\ Views.streak_loop fuel db user check_date streak = Some (streak + k)
      /\ (forall i, 0 <= i < k -> logged_on db user (check_date - i))
      /\ ~ logged_on db user (check_date - k).
Proof.
  induction fuel as [|fuel IH]; intros check_date streak Hfuel; [lia|].
  cbn [Views.streak_loop].
  destruct (exists_ (moods_on db user check_date)) eqn:E.
  - pose proof (entries_upto_step db user check_date) as Hstep.
    assert (Hpos : (0 < length (moods_on db user check_date))%nat).
    { destruct (moods_on db user check_date); [discriminate|simpl; lia]. }
    destruct (IH (check_date - 1) (streak + 1))
      as (k & Hk & Hrun & Hall & Hend); [lia|].
    exists (k + 1). split; [lia|]. split; [rewrite Hrun; f_equal; lia|].
    split.
    + intros i Hi. destruct (Z.eq_dec i 0) as [->|Hnz].
      * rewrite Z.sub_0_r. now apply moods_on_logged.
      * replace (check_date - i) with (check_date - 1 - (i - 1)) by lia.
        apply Hall. lia.
    + replace (check_date - (k + 1)) with (check_date - 1 - k) by lia.
      exact Hend.
  - exists 0. split; [lia|]. split; [f_equal; lia|]. split; [intros; lia|].
    rewrite Z.sub_0_r. now apply moods_on_not_logged.
Qed.

Lemma api_streak_loop (fuel : nat) (db : Store) (user : User) :
  forall check_date streak,
    Api.streak_loop fuel db user check_date streak
    = Views.streak_loop fuel db user check_date streak.
Proof.
  induction fuel as [|fuel IH]; intros; [reflexivity|].
  cbn [Api.streak_loop Views.streak_loop]. now rewrite IH.
Qed.

(** C5: both copies of [calculate_streak] return, and the number returned is
    the length of the run of consecutive calendar days that ends today and
    has an entry on each day: the days today, today-1, ..., today-(n-1) are
    logged and day today-n is not.  Hence no entry today gives 0, and entries
    today and yesterday with none the day before give 2, whatever was logged
    earlier. *)
Theorem streak_is_run_of_logged_days (db : Store) (user : User)
  (now : datetime) :
  exists n,
    Views.calculate_streak db user now = Some n
    /\ Api.calculate_streak db user now = Some n
    /\ 0 <= n
    /\ (forall i, 0 <= i < n -> logged_on db user (day now - i))
    /\ ~ logged_on db user (day now - n)
    /\ (~ logged_on db user (day now) -> n = 0)
    /\ (logged_on db user (day now) ->
        logged_on db user (day now - 1) ->
        ~ logged_on db user (day now - 2) -> n = 2).
Proof.
  destruct (streak_loop_spec (S (length (mood_entries db))) db user (day now) 0)
    as (n & Hn & Hrun & Hall & Hend).
  { pose proof (entries_upto_le db user (day now)). lia. }
  exists n. rewrite Z.add_0_l in Hrun.
  split; [exact Hrun|].
  split; [unfold Api.calculate_streak; rewrite api_streak_loop; exact Hrun|].
  split; [exact Hn|]. split; [exact Hall|]. split; [exact Hend|]. split.
  - intros Hnot. destruct (Z.eq_dec n 0) as [|Hnz]; [assumption|].
    exfalso. apply Hnot. rewrite <- (Z.sub_0_r (day now)). apply Hall. lia.
  - intros H0 H1 H2.
    destruct (Z.eq_dec n 0) as [->|]; [rewrite Z.sub_0_r in Hend; tauto|].
    destruct (Z.eq_dec n 1) as [->|]; [tauto|].
    destruct (Z.eq_dec n 2) as [|]; [assumption|].
    exfalso. apply H2, Hall. lia.
Qed.

Lemma streak_is_run_of_logged_days_witness :
  Views.calculate_streak
    {| mood_entries :=
         map (fun d => {| MoodEntry.user := 1; MoodEntry.mood := 5;
                          MoodEntry.note := ""; MoodEntry.tags := "";
                          MoodEntry.date := {| day := d; time_of_day := 0 |} |})
             [7; 9; 10];
       journals := []; achievements := [] |}
    1 {| day := 10; time_of_day := 0 |}
  = Some 2.
Proof.
  match goal with
  | |- Views.calculate_streak ?db ?u ?t = _ =>
      destruct (streak_is_run_of_logged_days db u t)
        as (n & -> & _ & _ & _ & _ & _ & H2)
  end.
  f_equal. apply H2.
  - eexists. split; [right; right; left; reflexivity|]. split; reflexivity.
  - eexists. split; [right; left; reflexivity|]. split; reflexivity.
  - intros (e & Hin & _ & Hd). simpl in Hin.
    destruct Hin as [<-|[<-|[<-|[]]]]; discriminate Hd.
Defined.

(** ** Achievement rule engine *)

Lemma exists_app {A} (l1 l2 : list A) :
  exists_ (l1 ++ l2) = exists_ l1 || exists_ l2.
Proof. destruct l1; reflexivity. Qed.

Lemma titled_create (db : Store) (user : User) (title description : string)
  (points : Z) (now : datetime) (user' : User) (title' : string) :
  achievements_titled
    (create_achievement db user title description points now) user' title'
  = achievements_titled db user' title'
    ++ (if (user =? user') && String.eqb title title'
        then [ {| Achievement.user := user; Achievement.title := title;
                  Achievement.description := description;
                  Achievement.points := points;
                  Achievement.unlocked_at := now |} ]
        else []).
Proof.
  unfold achievements_titled, create_achievement. cbn [achievements].
  rewrite filter_app. reflexivity.
Qed.

(** What one run of [check_achievements] adds for a (user, title) pair. *)
Lemma titled_check (db : Store) (user : User) (now : datetime)
  (user' : User) (title' : string) :
  exists added,
    achievements_titled (Views.check_achievements db user now) user' title'
    = achievements_titled db user' title' ++ added
    /\ (length added <= 1)%nat
    /\ (added <> [] ->
        user' = user
        /\ achievements_titled db user' title' = []
        /\ (title' = "Week Warrior" \/ title' = "Monthly Master")%string).
Proof.
  unfold Views.check_achievements.
  set (c := count (moods_of_user db user)).
  destruct ((7 <=? c)
            && negb (exists_ (achievements_titled db user "Week Warrior")))
    eqn:EA;
  [ destruct ((30 <=? c)
       && negb (exists_ (achievements_titled
                  (create_achievement db user "Week Warrior"
                     "Logged mood for 7 days!" 10 now) user "Monthly Master")))
       eqn:EB
  | destruct ((30 <=? c)
       && negb (exists_ (achievements_titled db user "Monthly Master")))
       eqn:EB ].
  - (* both created *)
    rewrite titled_create in EB.
    change (String.eqb "Week Warrior" "Monthly Master") with false in EB.
    rewrite andb_false_r, app_nil_r in EB.
    apply andb_true_iff in EA as [_ EA], EB as [_ EB].
    apply negb_true_iff in EA, EB.
    rewrite !titled_create, <- app_assoc.
    destruct (Z.eqb_spec user user') as [<-|Hu]; cbn [andb app].
    + destruct (String.eqb_spec "Week Warrior" title') as [<-|Hw].
      * change (String.eqb "Monthly Master" "Week Warrior") with false.
        cbn iota.
        eexists; split; [reflexivity|]. split; [simpl; lia|].
        intros _. split; [reflexivity|]. split; [|now left].
        destruct (achievements_titled db user "Week Warrior");
          [reflexivity|discriminate].
      * destruct (String.eqb_spec "Monthly Master" title') as [<-|Hm].
        -- eexists; split; [reflexivity|]. split; [simpl; lia|].
           intros _. split; [reflexivity|]. split; [|now right].
           destruct (achievements_titled db user "Monthly Master");
             [reflexivity|discriminate].
        -- exists []. split; [reflexivity|]. split; [simpl; lia|congruence].
    + exists []. split; [reflexivity|]. split; [simpl; lia|congruence].
  - (* only Week Warrior *)
    apply andb_true_iff in EA as [_ EA]. apply negb_true_iff in EA.
    rewrite titled_create.
    destruct (Z.eqb_spec user user') as [<-|Hu]; cbn [andb].
    + destruct (String.eqb_spec "Week Warrior" title') as [<-|Hw].
      * eexists; split; [reflexivity|]. split; [simpl; lia|].
        intros _. split; [reflexivity|]. split; [|now left].
        destruct (achievements_titled db user "Week Warrior");
          [reflexivity|discriminate].
      * exists []. split; [reflexivity|]. split; [simpl; lia|congruence].
    + exists []. split; [reflexivity|]. split; [simpl; lia|congruence].
  - (* only Monthly Master *)
    apply andb_true_iff in EB as [_ EB]. apply negb_true_iff in EB.
    rewrite titled_create.
    destruct (Z.eqb_spec user user') as [<-|Hu]; cbn [andb].
    + destruct (String.eqb_spec "Monthly Master" title') as [<-|Hw].
      * eexists; split; [reflexivity|]. split; [simpl; lia|].
        intros _. split; [reflexivity|]. split; [|now right].
        destruct (achievements_titled db user "Monthly Master");
          [reflexivity|discriminate].
      * exists []. split; [reflexivity|]. split; [simpl; lia|congruence].
    + exists []. split; [reflexivity|]. split; [simpl; lia|congruence].
  - exists []. rewrite app_nil_r.
    split; [reflexivity|]. split; [simpl; lia|congruence].
Qed.

Lemma titled_create_mono (db : Store) (user : User) (title description : string)
  (points : Z) (now : datetime) (user' : User) (title' : string) :
  exists_ (achievements_titled db user' title') = true ->
  exists_ (achievements_titled
             (create_achievement db user title description points now)
             user' title') = true.
Proof.
  intros H. rewrite titled_create, exists_app, H. reflexivity.
Qed.

Lemma titled_create_same (db : Store) (user : User) (title description : string)
  (points : Z) (now : datetime) :
  exists_ (achievements_titled
             (create_achievement db user title description points now)
             user title) = true.
Proof.
  rewrite titled_create, exists_app, Z.eqb_refl, String.eqb_refl.
  apply orb_true_r.
Qed.

Lemma check_moods (db : Store) (user : User) (now : datetime) :
  mood_entries (Views.check_achievements db user now) = mood_entries db.
Proof.
  unfold Views.check_achievements.
  destruct (_ && _); destruct (_ && _); reflexivity.
Qed.

Lemma week_warrior_after_check (db : Store) (user : User) (now : datetime) :
  7 <= count (moods_of_user db user) ->
  exists_ (achievements_titled (Views.check_achievements db user now)
             user "Week Warrior") = true.
Proof.
  intros Hc. unfold Views.check_achievements.
  replace (7 <=? count (moods_of_user db user)) with true by (symmetry; lia).
  cbn [andb].
  destruct (exists_ (achievements_titled db user "Week Warrior")) eqn:EW;
    cbn [negb];
    (destruct (_ && _);
     [apply titled_create_mono|];
     auto using titled_create_same).
Qed.

Lemma monthly_master_after_check (db : Store) (user : User) (now : datetime) :
  30 <= count (moods_of_user db user) ->
  exists_ (achievements_titled (Views.check_achievements db user now)
             user "Monthly Master") = true.
Proof.
  intros Hc. unfold Views.check_achievements.
  replace (30 <=? count (moods_of_user db user)) with true by (symmetry; lia).
  cbn [andb].
  match goal with
  | |- context [negb (exists_ ?q)] => destruct (exists_ q) eqn:EM
  end; cbn [negb]; auto using titled_create_same.
Qed.

Lemma check_twice (db : Store) (user : User) (now now' : datetime) :
  Views.check_achievements (Views.check_achievements db user now) user now'
  = Views.check_achievements db user now.
Proof.
  pose proof (week_warrior_after_check db user now) as Hww.
  pose proof (monthly_master_after_check db user now) as Hmm.
  assert (Hm : moods_of_user (Views.check_achievements db user now) user
               = moods_of_user db user).
  { unfold moods_of_user. now rewrite check_moods. }
  remember (Views.check_achievements db user now) as db2 eqn:E. clear E.
  unfold Views.check_achievements. rewrite Hm.
  destruct (Z.leb_spec 7 (count (moods_of_user db user))) as [H7|H7];
    [rewrite Hww by exact H7|]; cbn [andb negb];
    (destruct (Z.leb_spec 30 (count (moods_of_user db user))) as [H30|H30];
     [rewrite Hmm by exact H30|]; reflexivity).
Qed.

Lemma check_keeps_unique (db : Store) (user : User) (now : datetime) :
  unique_titles db -> unique_titles (Views.check_achievements db user now).
Proof.
  intros Hu user' title'.
  destruct (titled_check db user now user' title')
    as (added & -> & Hlen & Hadd).
  rewrite length_app. specialize (Hu user' title').
  destruct added as [|a added]; [simpl; lia|].
  destruct Hadd as (_ & -> & _); [discriminate|]. simpl in *. lia.
Qed.

Lemma reachable_unique (db : Store) : reachable db -> unique_titles db.
Proof.
  induction 1 as [|db db' Hr IH Hstep].
  - intros user title. simpl. lia.
  - destruct Hstep.
    + unfold Views.log_mood_valid. apply check_keeps_unique. exact IH.
    + exact IH.
    + exact IH.
    + apply check_keeps_unique. exact IH.
Qed.

(** C7: running [check_achievements] again changes nothing.  When the user
    already holds "Week Warrior" the run adds no achievement of that title;
    two runs in a row leave the store exactly as one run does; a store with
    at most one achievement per (user, title) keeps that property; and every
    store reached from the empty one by requests has at most one achievement
    per (user, title).  The guard is the (user, title) existence query. *)
Theorem check_achievements_idempotent (db : Store) (user : User)
  (now now' : datetime) :
  (exists_ (achievements_titled db user "Week Warrior") = true ->
   achievements_titled (Views.check_achievements db user now)
     user "Week Warrior"
   = achievements_titled db user "Week Warrior")
  /\ Views.check_achievements (Views.check_achievements db user now) user now'
     = Views.check_achievements db user now
  /\ (unique_titles db ->
      unique_titles (Views.check_achievements db user now))
  /\ (reachable db -> unique_titles db).
Proof.
  split; [|split; [apply check_twice|split;
                   [apply check_keeps_unique|apply reachable_unique]]].
  intros Hex.
  destruct (titled_check db user now user "Week Warrior")
    as (added & -> & _ & Hadd).
  destruct added as [|a added]; [apply app_nil_r|].
  destruct Hadd as (_ & Hnil & _); [discriminate|].
  rewrite Hnil in Hex. discriminate.
Qed.

Lemma check_achievements_idempotent_witness :
  let t := {| day := 7; time_of_day := 0 |} in
  let db := fold_left (fun db d => Views.log_mood_valid db 1 5 "" "" 
                                     {| day := d; time_of_day := 0 |})
                      (range 7) empty_store in
  achievements_titled (Views.check_achievements db 1 t) 1 "Week Warrior"
  = achievements_titled db 1 "Week Warrior".
Proof.
  intros t db.
  apply (check_achievements_idempotent db 1 t t).
  reflexivity.
Defined.

(** ** Binary64 rounding *)

Lemma two_neq0 : ~ (2 == 0)%Q.
Proof. intros H. discriminate H. Qed.

Lemma pow2_pos (e : Z) : (0 < 2 ^ e)%Q.
Proof. apply Qpower_0_lt. reflexivity. Qed.

Lemma pow2_succ (e : Z) : (2 ^ (e + 1) == 2 * 2 ^ e)%Q.
Proof.
  rewrite Qpower_plus by apply two_neq0. change (2 ^ 1)%Q with 2%Q. ring.
Qed.

Lemma pow2_pred (e : Z) : (2 ^ (e - 1) == 2 ^ e / 2)%Q.
Proof.
  replace e with ((e - 1) + 1) at 2 by lia. rewrite pow2_succ. field.
Qed.

Lemma pow2_sub (a b : Z) : (2 ^ (a - b) == 2 ^ a / 2 ^ b)%Q.
Proof. apply Qpower_minus. apply two_neq0. Qed.

Lemma pow2_Z (n : Z) : 0 <= n -> (2 ^ n == inject_Z (2 ^ n))%Q.
Proof. intros Hn. now rewrite Zpower_Qpower. Qed.

Lemma inject_Z_pos (z : Z) : 0 < z -> (0 < inject_Z z)%Q.
Proof. intros H. change 0%Q with (inject_Z 0). now rewrite <- Zlt_Qlt. Qed.

Lemma log2_bracket (z : Z) :
  0 < z ->
  (2 ^ Z.log2 z <= inject_Z z)%Q /\ (inject_Z z < 2 * 2 ^ Z.log2 z)%Q.
Proof.
  intros Hz. destruct (Z.log2_spec z Hz) as [H1 H2].
  pose proof (Z.log2_nonneg z) as H0.
  rewrite <- pow2_succ, !pow2_Z by lia.
  split; [rewrite <- Zle_Qle|rewrite <- Zlt_Qlt]; lia.
Qed.

Lemma quotient_bracket (P D A B : Q) :
  (0 < A)%Q -> (0 < B)%Q -> (A <= P)%Q -> (P < 2 * A)%Q ->
  (B <= D)%Q -> (D < 2 * B)%Q ->
  (A / B / 2 < P / D)%Q /\ (P / D < 2 * (A / B))%Q.
Proof.
  intros HA HB H1 H2 H3 H4.
  assert (HD : (0 < D)%Q) by lra.
  assert (Ht : (0 < A / B)%Q).
  { apply Qlt_shift_div_l; [exact HB|]. lra. }
  assert (Et : (A == A / B * B)%Q) by (field; lra).
  revert Ht Et. generalize (A / B)%Q. intros t Ht Et.
  assert (Hm1 : (0 < t * (2 * B - D))%Q) by (apply Qmult_lt_0_compat; lra).
  assert (Hm2 : (0 <= t * (D - B))%Q) by (apply Qmult_le_0_compat; lra).
  split.
  - apply Qlt_shift_div_l; [exact HD|].
    assert (E : (t / 2 * D == t * D * (1 # 2))%Q) by field.
    rewrite E. lra.
  - apply Qlt_shift_div_r; [exact HD|]. lra.
Qed.

(** [ilog2 x] is the exponent of the binade of [x]. *)
Lemma ilog2_spec (x : Q) :
  (0 < x)%Q ->
  (2 ^ Binary64.ilog2 x <= x)%Q /\ (x < 2 ^ (Binary64.ilog2 x + 1))%Q.
Proof.
  intros Hx.
  assert (Hp : 0 < Qnum x) by (unfold Qlt in Hx; simpl in Hx; lia).
  destruct (log2_bracket _ Hp) as [P1 P2].
  destruct (log2_bracket _ (Pos2Z.is_pos (Qden x))) as [Q1 Q2].
  destruct (quotient_bracket _ _ _ _ (pow2_pos _) (pow2_pos _) P1 P2 Q1 Q2)
    as [Hlo Hhi].
  rewrite <- pow2_sub in Hlo, Hhi.
  assert (Ex : (inject_Z (Qnum x) / inject_Z (Z.pos (Qden x)) == x)%Q).
  { rewrite <- Qmake_Qdiv. now destruct x. }
  rewrite Ex in Hlo, Hhi.
  unfold Binary64.ilog2.
  set (k := Z.log2 (Qnum x) - Z.log2 (Z.pos (Qden x))) in *.
  destruct (Qle_bool (2 ^ k) x) eqn:E.
  - apply Qle_bool_iff in E. split; [exact E|]. now rewrite pow2_succ.
  - assert (E' : (x < 2 ^ k)%Q).
    { apply Qnot_le_lt. intros H. apply Qle_bool_iff in H. congruence. }
    split.
    + rewrite pow2_pred. lra.
    + now replace (k - 1 + 1) with k by lia.
Qed.

Lemma round_half_even_near (t : Q) :
  (Qabs (inject_Z (round_half_even t) - t) <= 1 # 2)%Q.
Proof.
  apply Qabs_Qle_condition.
  pose proof (Qfloor_le t) as H1. pose proof (Qlt_floor t) as H2.
  rewrite inject_Z_plus in H2. change (inject_Z 1) with 1%Q in H2.
  unfold round_half_even.
  destruct (Qcompare (t - inject_Z (Qfloor t)) (1 # 2)) eqn:E.
  - apply Qeq_alt in E.
    destruct (Z.even (Qfloor t));
      [|rewrite inject_Z_plus; change (inject_Z 1) with 1%Q]; split; lra.
  - apply Qlt_alt in E. split; lra.
  - apply Qgt_alt in E. rewrite inject_Z_plus.
    change (inject_Z 1) with 1%Q. split; lra.
Qed.

Lemma Qabs_pos_nonzero (x : Q) : ~ (x == 0)%Q -> (0 < Qabs x)%Q.
Proof.
  intros Hx. apply Qabs_case; intros H; apply Qle_lteq in H as [H|H].
  - exact H.
  - exfalso. apply Hx. now symmetry.
  - lra.
  - contradiction.
Qed.

Lemma nearest_eq (x : Q) :
  ~ (x == 0)%Q ->
  (Binary64.nearest x
   == inject_Z (round_half_even (x / 2 ^ (Binary64.ilog2 (Qabs x) - 52)))
      * 2 ^ (Binary64.ilog2 (Qabs x) - 52))%Q.
Proof.
  intros Hx. unfold Binary64.nearest.
  destruct (Qeq_bool x 0) eqn:E; [apply Qeq_bool_iff in E; contradiction|].
  apply Qred_correct.
Qed.

Lemma nearest_zero (x : Q) : (x == 0)%Q -> Binary64.nearest x = 0%Q.
Proof.
  intros Hx. unfold Binary64.nearest. apply Qeq_bool_iff in Hx.
  now rewrite Hx.
Qed.

(** One rounding moves a number by at most half a unit in the last of its
    53 bits. *)
Lemma nearest_error (x : Q) :
  (Qabs (Binary64.nearest x - x) <= Qabs x * half_ulp)%Q.
Proof.
  destruct (Qeq_dec x 0) as [Hx|Hx].
  { rewrite (nearest_zero x Hx), Hx. discriminate. }
  rewrite (nearest_eq x Hx).
  pose proof (Qabs_pos_nonzero x Hx) as Ha.
  destruct (ilog2_spec _ Ha) as [Hlo _].
  set (L := Binary64.ilog2 (Qabs x)) in *. set (e := L - 52).
  pose proof (pow2_pos e) as He.
  pose proof (round_half_even_near (x / 2 ^ e)) as Hr.
  set (r := inject_Z (round_half_even (x / 2 ^ e))) in *.
  assert (E1 : (r * 2 ^ e - x == (r - x / 2 ^ e) * 2 ^ e)%Q) by (field; lra).
  rewrite E1, Qabs_Qmult, (Qabs_pos (2 ^ e)) by lra.
  assert (E2 : (2 ^ L == 2 ^ e * inject_Z (2 ^ 52))%Q).
  { rewrite <- pow2_Z by lia. rewrite <- Qpower_plus by apply two_neq0.
    unfold e. now replace (L - 52 + 52) with L by lia. }
  rewrite E2 in Hlo.
  revert Hr Hlo He. generalize (Qabs (r - x / 2 ^ e)) (2 ^ e)%Q (Qabs x).
  intros d p a Hd Hlo Hp.
  change (inject_Z (2 ^ 52)) with (4503599627370496 # 1)%Q in Hlo.
  change half_ulp with (1 # 9007199254740992)%Q.
  nra.
Qed.

Lemma nearest_close (x c : Q) :
  (Qabs x <= c)%Q ->
  (x - c * half_ulp <= Binary64.nearest x)%Q
  /\ (Binary64.nearest x <= x + c * half_ulp)%Q.
Proof.
  intros Hc. pose proof (nearest_error x) as H.
  assert (H' : (Qabs (Binary64.nearest x - x) <= c * half_ulp)%Q).
  { eapply Qle_trans; [exact H|].
    apply Qmult_le_compat_r; [exact Hc|discriminate]. }
  apply Qabs_Qle_condition in H'. destruct H' as [H1 H2]. split; lra.
Qed.

(** [ilog2] and [nearest] depend on the value of the rational only. *)
Lemma ilog2_unique (x : Q) (L : Z) :
  (2 ^ L <= x)%Q -> (x < 2 ^ (L + 1))%Q -> Binary64.ilog2 x = L.
Proof.
  intros H1 H2.
  assert (Hx : (0 < x)%Q).
  { apply Qlt_le_trans with (2 ^ L)%Q; [apply pow2_pos|exact H1]. }
  destruct (ilog2_spec x Hx) as [S1 S2].
  set (L' := Binary64.ilog2 x) in *.
  assert (Hmono : forall a b, a + 1 <= b -> (2 ^ (a + 1) <= 2 ^ b)%Q).
  { intros a b Hab. apply Qpower_le_compat_l; [exact Hab|discriminate]. }
  destruct (Z.lt_trichotomy L' L) as [Hlt|[Heq|Hgt]]; [|exact Heq|].
  - exfalso. specialize (Hmono L' L ltac:(lia)). lra.
  - exfalso. specialize (Hmono L L' ltac:(lia)). lra.
Qed.

Lemma ilog2_comp (x y : Q) :
  (0 < x)%Q -> (x == y)%Q -> Binary64.ilog2 x = Binary64.ilog2 y.
Proof.
  intros Hx E. destruct (ilog2_spec x Hx) as [S1 S2].
  symmetry. apply ilog2_unique; now rewrite <- E.
Qed.

Lemma round_half_even_comp (x y : Q) :
  (x == y)%Q -> round_half_even x = round_half_even y.
Proof.
  intros E. unfold round_half_even.
  rewrite (Qfloor_comp _ _ E).
  assert (E' : (x - inject_Z (Qfloor y) == y - inject_Z (Qfloor y))%Q)
    by now rewrite E.
  now rewrite (Qcompare_comp _ _ E' _ _ (Qeq_refl (1 # 2))).
Qed.

Lemma nearest_comp (x y : Q) :
  (x == y)%Q -> Binary64.nearest x = Binary64.nearest y.
Proof.
  intros E. unfold Binary64.nearest.
  destruct (Qeq_bool x 0) eqn:Ex.
  - apply Qeq_bool_iff in Ex. rewrite E in Ex. apply Qeq_bool_iff in Ex.
    now rewrite Ex.
  - assert (Hx : ~ (x == 0)%Q).
    { intros H. apply Qeq_bool_iff in H. congruence. }
    assert (Ey : Qeq_bool y 0 = false).
    { apply not_true_is_false. intros H. apply Qeq_bool_iff in H.
      apply Hx. now rewrite E. }
    rewrite Ey.
    assert (EL : Binary64.ilog2 (Qabs x) = Binary64.ilog2 (Qabs y)).
    { apply ilog2_comp; [now apply Qabs_pos_nonzero|now rewrite E]. }
    rewrite EL. set (e := Binary64.ilog2 (Qabs y) - 52).
    apply Qred_complete.
    rewrite (round_half_even_comp (x / 2 ^ e) (y / 2 ^ e)); [reflexivity|].
    now rewrite E.
Qed.

Lemma b64_truediv (a b : Z) :
  b <> 0 ->
  Binary64.truediv a b = Ok (Binary64.nearest (inject_Z a / inject_Z b)).
Proof.
  intros Hb. unfold Binary64.truediv.
  now replace (b =? 0) with false by (symmetry; lia).
Qed.

Lemma b64_mean (l : list Z) :
  l <> [] ->
  Binary64.truediv (sum l) (len l) = Ok (Binary64.nearest (mean l)).
Proof.
  intros Hne. apply b64_truediv. pose proof (len_pos l Hne). lia.
Qed.

(** The rounded difference of two rounded numbers of [1, 10] is within
    30 * 2^-53 of the exact difference. *)
Lemma rounded_difference_close (m1 m2 : Q) :
  in_forecast_range m1 -> in_forecast_range m2 ->
  (Qabs (Binary64.sub (Binary64.nearest m2) (Binary64.nearest m1)
         - (m2 - m1)) <= 30 * half_ulp)%Q.
Proof.
  intros [L1 U1] [L2 U2]. unfold Binary64.sub.
  destruct (nearest_close m1 10) as [A1 A2].
  { apply Qabs_Qle_condition. split; lra. }
  destruct (nearest_close m2 10) as [B1 B2].
  { apply Qabs_Qle_condition. split; lra. }
  assert (Hu : (20 * half_ulp <= 1)%Q) by discriminate.
  assert (Hu0 : (0 <= half_ulp)%Q) by discriminate.
  revert A1 A2 B1 B2 Hu Hu0.
  pose proof (nearest_close (Binary64.nearest m2 - Binary64.nearest m1) 10)
    as C.
  revert C. generalize half_ulp. intros u C A1 A2 B1 B2 Hu Hu0.
  destruct C as [C1 C2].
  { apply Qabs_Qle_condition. split; lra. }
  apply Qabs_Qle_condition. split; lra.
Qed.

Lemma Qlt_div_r (a b c : Q) : (0 < c)%Q -> (a < b / c)%Q -> (a * c < b)%Q.
Proof.
  intros Hc H. apply (Qmult_lt_r _ _ c Hc) in H.
  assert (E : (b / c * c == b)%Q) by (field; lra). now rewrite E in H.
Qed.

Lemma Qlt_div_l (a b c : Q) : (0 < c)%Q -> (b / c < a)%Q -> (b < a * c)%Q.
Proof.
  intros Hc H. apply (Qmult_lt_r _ _ c Hc) in H.
  assert (E : (b / c * c == b)%Q) by (field; lra). now rewrite E in H.
Qed.

(** A ratio of integers with a denominator up to 10^12 that is not 1/2
    keeps a distance from it. *)
Lemma half_gap (N D : Z) :
  0 < D -> D <= 10 ^ 12 ->
  ((1 # 2 < inject_Z N / inject_Z D)%Q ->
   ((1 # 2) + (1 # 2 * 10 ^ 12) <= inject_Z N / inject_Z D)%Q)
  /\ ((inject_Z N / inject_Z D < 1 # 2)%Q ->
      (inject_Z N / inject_Z D <= (1 # 2) - (1 # 2 * 10 ^ 12))%Q).
Proof.
  intros HD HB.
  pose proof (inject_Z_pos D HD) as HDq.
  assert (HBq : (inject_Z D <= inject_Z (10 ^ 12))%Q)
    by now rewrite <- Zle_Qle.
  change (inject_Z (10 ^ 12)) with (1000000000000 # 1)%Q in HBq.
  change (1 # 2 * 10 ^ 12)%Q with (1 # 2000000000000)%Q.
  split; intros H.
  - apply Qle_shift_div_l; [exact HDq|].
    apply Qlt_div_r in H; [|exact HDq].
    assert (HZ : D < 2 * N).
    { rewrite Zlt_Qlt, inject_Z_mult. change (inject_Z 2) with 2%Q. lra. }
    assert (HZ' : (inject_Z (D + 1) <= inject_Z (2 * N))%Q)
      by (rewrite <- Zle_Qle; lia).
    rewrite inject_Z_plus, inject_Z_mult in HZ'.
    change (inject_Z 2) with 2%Q in HZ'. change (inject_Z 1) with 1%Q in HZ'.
    lra.
  - apply Qle_shift_div_r; [exact HDq|].
    apply Qlt_div_l in H; [|exact HDq].
    assert (HZ : 2 * N < D).
    { rewrite Zlt_Qlt, inject_Z_mult. change (inject_Z 2) with 2%Q. lra. }
    assert (HZ' : (inject_Z (2 * N + 1) <= inject_Z D)%Q)
      by (rewrite <- Zle_Qle; lia).
    rewrite inject_Z_plus, inject_Z_mult in HZ'.
    change (inject_Z 2) with 2%Q in HZ'. change (inject_Z 1) with 1%Q in HZ'.
    lra.
Qed.

(** The difference of two means as one ratio. *)
Lemma means_ratio (l1 l2 : list Z) :
  l1 <> [] -> l2 <> [] ->
  (mean l2 - mean l1
   == inject_Z (sum l2 * len l1 - sum l1 * len l2)
      / inject_Z (len l1 * len l2))%Q.
Proof.
  intros H1 H2. unfold mean.
  pose proof (inject_Z_pos _ (len_pos l1 H1)) as Q1.
  pose proof (inject_Z_pos _ (len_pos l2 H2)) as Q2.
  unfold Z.sub. rewrite inject_Z_plus, inject_Z_opp, !inject_Z_mult.
  field. split; lra.
Qed.

Lemma Qopp_ratio (N D : Z) :
  (- (inject_Z N / inject_Z D) == inject_Z (- N) / inject_Z D)%Q.
Proof. rewrite inject_Z_opp. unfold Qdiv. ring. Qed.

(** Away from the thresholds a slope computed within 30 * 2^-53 of a ratio
    is on the same side of 0.5 and of -0.5 as the ratio. *)
Lemma slope_side (N D : Z) (slope : Q) :
  0 < D -> D <= 10 ^ 12 ->
  (Qabs (slope - inject_Z N / inject_Z D) <= 30 * half_ulp)%Q ->
  ((1 # 2 < inject_Z N / inject_Z D)%Q -> (1 # 2 < slope)%Q)
  /\ ((inject_Z N / inject_Z D < 1 # 2)%Q -> (slope < 1 # 2)%Q)
  /\ ((inject_Z N / inject_Z D < - (1 # 2))%Q -> (slope < - (1 # 2))%Q)
  /\ ((- (1 # 2) < inject_Z N / inject_Z D)%Q -> (- (1 # 2) < slope)%Q).
Proof.
  intros HD HB Hc. apply Qabs_Qle_condition in Hc as [C1 C2].
  destruct (half_gap N D HD HB) as [G1 G2].
  destruct (half_gap (- N) D HD HB) as [G3 G4].
  rewrite <- Qopp_ratio in G3, G4.
  assert (Hu : (30 * half_ulp < 1 # 2 * 10 ^ 12)%Q) by reflexivity.
  revert C1 C2 G1 G2 G3 G4 Hu.
  generalize (inject_Z N / inject_Z D)%Q (30 * half_ulp)%Q
             (1 # 2 * 10 ^ 12)%Q.
  intros s u g C1 C2 G1 G2 G3 G4 Hu.
  repeat split; intros H.
  - specialize (G1 H). lra.
  - specialize (G2 H). lra.
  - assert (H' : (1 # 2 < - s)%Q) by lra. specialize (G3 H'). lra.
  - assert (H' : (- s < 1 # 2)%Q) by lra. specialize (G4 H'). lra.
Qed.

Lemma mean_ratio_tenths (l : list Z) (k : Z) :
  l <> [] ->
  (inject_Z k - mean l * 10
   == inject_Z (k * len l - 10 * sum l) / inject_Z (len l))%Q.
Proof.
  intros Hne. unfold mean.
  pose proof (inject_Z_pos _ (len_pos l Hne)) as Hq.
  unfold Z.sub. rewrite inject_Z_plus, inject_Z_opp, !inject_Z_mult.
  change (inject_Z 10) with 10%Q. field. lra.
Qed.

(** The tenths of [round(avg, 1)] for the rounded mean of moods in 1..10:
    an integer of 10..100 nearest to ten times the exact mean. *)
Lemma tenths_of_rounded_mean (l : list Z) :
  l <> [] -> Forall in_mood_range l -> len l <= max_history ->
  let tenths := round_half_even (Binary64.nearest (mean l) * 10) in
  10 <= tenths <= 100
  /\ (Qabs (inject_Z tenths - mean l * 10) <= 1 # 2)%Q.
Proof.
  intros Hne Hall Hmax tenths.
  assert (Hr : in_forecast_range (mean l)).
  { apply mean_in_range; [|exact Hall].
    destruct l; [congruence|discriminate]. }
  destruct Hr as [Hlo Hhi].
  destruct (nearest_close (mean l) 10) as [A1 A2].
  { apply Qabs_Qle_condition. split; lra. }
  pose proof (round_half_even_near (Binary64.nearest (mean l) * 10)) as Hn.
  fold tenths in Hn. apply Qabs_Qle_condition in Hn as [N1 N2].
  assert (Hu : (100 * half_ulp < 1 # 2 * 10 ^ 12)%Q) by reflexivity.
  assert (Hu0 : (0 <= half_ulp)%Q) by discriminate.
  assert (Hg : ((1 # 2 * 10 ^ 12) < 1 # 4)%Q) by reflexivity.
  pose proof (len_pos l Hne) as Hlen.
  assert (HD : len l <= 10 ^ 12) by (unfold max_history in Hmax; lia).
  destruct (half_gap (tenths * len l - 10 * sum l) (len l) Hlen HD)
    as [G1 _].
  destruct (half_gap (- (tenths * len l - 10 * sum l)) (len l) Hlen HD)
    as [G2 _].
  rewrite <- Qopp_ratio in G2.
  rewrite <- (mean_ratio_tenths l tenths Hne) in G1, G2.
  revert A1 A2 N1 N2 Hu Hu0 Hg G1 G2.
  generalize (Binary64.nearest (mean l)) (mean l) half_ulp (1 # 2 * 10 ^ 12)%Q
    Hlo Hhi.
  intros a m u g Hlo' Hhi' A1 A2 N1 N2 Hu Hu0 Hg G1 G2.
  assert (Hclose : (Qabs (inject_Z tenths - m * 10) <= 1 # 2)%Q).
  { apply Qabs_Qle_condition. split.
    - apply Qnot_lt_le. intros H.
      assert (H' : (1 # 2 < - (inject_Z tenths - m * 10))%Q) by lra.
      specialize (G2 H'). lra.
    - apply Qnot_lt_le. intros H. specialize (G1 H). lra. }
  split; [|exact Hclose].
  apply Qabs_Qle_condition in Hclose as [C1 C2].
  split.
  - assert (H : (inject_Z 9 < inject_Z tenths)%Q)
      by (change (inject_Z 9) with 9%Q; lra).
    rewrite <- Zlt_Qlt in H. lia.
  - assert (H : (inject_Z tenths < inject_Z 101)%Q)
      by (change (inject_Z 101) with 101%Q; lra).
    rewrite <- Zlt_Qlt in H. lia.
Qed.

(** A ratio of integers that is not an integer [t] keeps a distance from
    it. *)
Lemma integer_gap (N D t : Z) :
  0 < D -> D <= 10 ^ 12 ->
  ((inject_Z t < inject_Z N / inject_Z D)%Q ->
   (inject_Z t + (1 # 10 ^ 12) <= inject_Z N / inject_Z D)%Q)
  /\ ((inject_Z N / inject_Z D < inject_Z t)%Q ->
      (inject_Z N / inject_Z D <= inject_Z t - (1 # 10 ^ 12))%Q).
Proof.
  intros HD HB.
  pose proof (inject_Z_pos D HD) as HDq.
  assert (HBq : (inject_Z D <= inject_Z (10 ^ 12))%Q)
    by now rewrite <- Zle_Qle.
  change (inject_Z (10 ^ 12)) with (1000000000000 # 1)%Q in HBq.
  change (1 # 10 ^ 12)%Q with (1 # 1000000000000)%Q.
  split; intros H.
  - apply Qle_shift_div_l; [exact HDq|].
    apply Qlt_div_r in H; [|exact HDq].
    assert (HZ : t * D < N).
    { rewrite Zlt_Qlt, inject_Z_mult. exact H. }
    assert (HZ' : (inject_Z (t * D + 1) <= inject_Z N)%Q)
      by (rewrite <- Zle_Qle; lia).
    rewrite inject_Z_plus, inject_Z_mult in HZ'.
    change (inject_Z 1) with 1%Q in HZ'. lra.
  - apply Qle_shift_div_r; [exact HDq|].
    apply Qlt_div_l in H; [|exact HDq].
    assert (HZ : N < t * D).
    { rewrite Zlt_Qlt, inject_Z_mult. exact H. }
    assert (HZ' : (inject_Z (N + 1) <= inject_Z (t * D))%Q)
      by (rewrite <- Zle_Qle; lia).
    rewrite inject_Z_plus, inject_Z_mult in HZ'.
    change (inject_Z 1) with 1%Q in HZ'. lra.
Qed.

Lemma nearest_small_integer (t : Z) :
  1 <= t <= 10 -> Binary64.nearest (inject_Z t) = inject_Z t.
Proof.
  intros Ht.
  assert (H : t = 1 \/ t = 2 \/ t = 3 \/ t = 4 \/ t = 5 \/ t = 6 \/ t = 7
              \/ t = 8 \/ t = 9 \/ t = 10) by lia.
  repeat (destruct H as [-> | H]; [vm_compute; reflexivity|]).
  subst. vm_compute. reflexivity.
Qed.

(** Rounding the mean does not move it across an integer threshold. *)
Lemma rounded_mean_threshold (l : list Z) (t : Z) :
  l <> [] -> Forall in_mood_range l -> len l <= max_history ->
  1 <= t <= 10 ->
  ((inject_Z t <= Binary64.nearest (mean l))%Q <-> (inject_Z t <= mean l)%Q).
Proof.
  intros Hne Hall Hmax Ht.
  assert (Hr : in_forecast_range (mean l)).
  { apply mean_in_range; [|exact Hall].
    destruct l; [congruence|discriminate]. }
  destruct Hr as [Hlo Hhi].
  destruct (nearest_close (mean l) 10) as [A1 A2].
  { apply Qabs_Qle_condition. split; lra. }
  pose proof (len_pos l Hne) as Hlen.
  assert (HD : len l <= 10 ^ 12) by (unfold max_history in Hmax; lia).
  destruct (integer_gap (sum l) (len l) t Hlen HD) as [G1 G2].
  fold (mean l) in G1, G2.
  assert (Hu : (10 * half_ulp < 1 # 10 ^ 12)%Q) by reflexivity.
  split; intros H.
  - apply Qnot_lt_le. intros Hlt. specialize (G2 Hlt).
    revert A2 G2 Hu H. generalize (Binary64.nearest (mean l)) (mean l)
      half_ulp (1 # 10 ^ 12)%Q (inject_Z t). intros. lra.
  - apply Qle_lteq in H as [H|H].
    + specialize (G1 H).
      revert A1 G1 Hu. generalize (Binary64.nearest (mean l)) (mean l)
        half_ulp (1 # 10 ^ 12)%Q (inject_Z t). intros. lra.
    + rewrite <- (nearest_comp _ _ H), (nearest_small_integer t Ht).
      apply Qle_refl.
Qed.

(** ** Trend analyzer *)

Lemma len_map {A B} (f : A -> B) (l : list A) : len (map f l) = len l.
Proof. unfold len. now rewrite length_map. Qed.

Lemma mean_truediv (l : list Z) :
  l <> [] -> truediv (inject_Z (sum l)) (inject_Z (len l)) = Ok (mean l).
Proof.
  intros Hne. apply truediv_Z. pose proof (len_pos l Hne). lia.
Qed.

Lemma firstn_nonempty {A} (k : nat) (l : list A) :
  (1 <= k)%nat -> l <> [] -> firstn k l <> [].
Proof.
  intros Hk Hl. destruct k; [lia|]. destruct l; [congruence|]. discriminate.
Qed.

Lemma skipn_nonempty {A} (k : nat) (l : list A) :
  (k < length l)%nat -> skipn k l <> [].
Proof.
  intros Hk Hnil. apply (f_equal (@length A)) in Hnil.
  rewrite length_skipn in Hnil. simpl in Hnil. lia.
Qed.

Lemma half_lt (n : nat) : (3 <= n)%nat -> (1 <= n / 2 /\ n / 2 < n)%nat.
Proof.
  intros Hn. split.
  - change 1%nat with (2 / 2)%nat. apply Nat.Div0.div_le_mono. lia.
  - apply Nat.div_lt; lia.
Qed.

Lemma views_half_avg (half : list Z) (avg_mood : Q) :
  half <> [] -> Views.half_avg half avg_mood = Ok (mean half).
Proof.
  intros Hne. unfold Views.half_avg.
  rewrite (proj2 (exists_true _) Hne). now apply mean_truediv.
Qed.

Lemma api_half_avg (half : list MoodEntry.t) (avg_mood : Q) :
  half <> [] ->
  Api.half_avg half avg_mood = Ok (mean (map MoodEntry.mood half)).
Proof.
  intros Hne. unfold Api.half_avg.
  rewrite (proj2 (exists_true _) Hne), <- (len_map MoodEntry.mood).
  apply mean_truediv. destruct half; [congruence|discriminate].
Qed.

Lemma views_trend_slope_small (recent_moods : list MoodEntry.t)
  (avg_mood : Q) :
  (length recent_moods < 3)%nat ->
  Views.trend_slope recent_moods avg_mood = Ok 0%Q.
Proof.
  intros Hn. unfold Views.trend_slope.
  replace (3 <=? len recent_moods) with false; [reflexivity|].
  symmetry. apply Z.leb_gt. unfold len. lia.
Qed.

Lemma api_trend_slope_small (recent_moods : list MoodEntry.t)
  (avg_mood : Q) :
  (length recent_moods < 3)%nat ->
  Api.trend_slope recent_moods avg_mood = Ok 0%Q.
Proof.
  intros Hn. unfold Api.trend_slope.
  replace (3 <=? len recent_moods) with false; [reflexivity|].
  symmetry. apply Z.leb_gt. unfold len. lia.
Qed.

Lemma views_trend_slope_halves (recent_moods : list MoodEntry.t)
  (avg_mood : Q) :
  (3 <= length recent_moods)%nat ->
  let y_values := map MoodEntry.mood recent_moods in
  let h := (length recent_moods / 2)%nat in
  Views.trend_slope recent_moods avg_mood
  = Ok (mean (skipn h y_values) - mean (firstn h y_values))%Q.
Proof.
  intros Hn y_values h. unfold Views.trend_slope, slice_to, slice_from.
  replace (3 <=? len recent_moods) with true
    by (symmetry; apply Z.leb_le; unfold len; lia).
  replace (1 <? len recent_moods) with true
    by (symmetry; apply Z.ltb_lt; unfold len; lia).
  rewrite length_map. fold y_values h.
  destruct (half_lt _ Hn) as [H1 H2]. fold h in H1, H2.
  assert (Hy : length y_values = length recent_moods)
    by apply length_map.
  rewrite views_half_avg.
  2:{ apply firstn_nonempty; [exact H1|].
      intros E. rewrite E in Hy. simpl in Hy. lia. }
  cbn [bind].
  rewrite views_half_avg by (apply skipn_nonempty; lia).
  reflexivity.
Qed.

Lemma api_trend_slope_halves (recent_moods : list MoodEntry.t)
  (avg_mood : Q) :
  (3 <= length recent_moods)%nat ->
  let y_values := map MoodEntry.mood recent_moods in
  let h := (length recent_moods / 2)%nat in
  Api.trend_slope recent_moods avg_mood
  = Ok (mean (skipn h y_values) - mean (firstn h y_values))%Q.
Proof.
  intros Hn y_values h. unfold Api.trend_slope, slice_to, slice_from.
  replace (3 <=? len recent_moods) with true
    by (symmetry; apply Z.leb_le; unfold len; lia).
  fold h. destruct (half_lt _ Hn) as [H1 H2]. fold h in H1, H2.
  rewrite api_half_avg.
  2:{ apply firstn_nonempty; [exact H1|]. intros E. rewrite E in Hn.
      simpl in Hn. lia. }
  cbn [bind].
  rewrite api_half_avg by (apply skipn_nonempty; lia).
  subst y_values. now rewrite firstn_map, skipn_map.
Qed.

(** Both variants compute the same slope, whatever [avg_mood] is passed. *)
Lemma trend_slope_returns (recent_moods : list MoodEntry.t) :
  exists slope,
    (forall avg_mood, Views.trend_slope recent_moods avg_mood = Ok slope)
    /\ (forall avg_mood, Api.trend_slope recent_moods avg_mood = Ok slope)
    /\ ((length recent_moods < 3)%nat -> slope = 0%Q)
    /\ ((3 <= length recent_moods)%nat ->
        slope = (mean (skipn (length recent_moods / 2)
                         (map MoodEntry.mood recent_moods))
                 - mean (firstn (length recent_moods / 2)
                           (map MoodEntry.mood recent_moods)))%Q).
Proof.
  destruct (Nat.lt_ge_cases (length recent_moods) 3) as [Hs|Hl].
  - exists 0%Q. repeat split; auto using views_trend_slope_small,
                                       api_trend_slope_small.
    intros; lia.
  - eexists. split; [intros; now apply views_trend_slope_halves|].
    split; [intros; now apply api_trend_slope_halves|].
    split; [intros; lia|reflexivity].
Qed.

Lemma views_classify_label (slope : Q) :
  fst (fst (Views.classify slope)) = trend_label slope.
Proof.
  unfold Views.classify, trend_label.
  destruct (Qltb (1 # 2) slope); [reflexivity|].
  destruct (Qltb slope (- (1 # 2))); reflexivity.
Qed.

Lemma api_classify_label (slope : Q) :
  fst (Api.classify slope) = trend_label slope.
Proof.
  unfold Api.classify, trend_label.
  destruct (Qltb (1 # 2) slope); [reflexivity|].
  destruct (Qltb slope (- (1 # 2))); reflexivity.
Qed.

Lemma trend_label_cases (slope : Q) :
  (trend_label slope = "improving"%string <-> (1 # 2 < slope)%Q)
  /\ (trend_label slope = "declining"%string <-> (slope < - (1 # 2))%Q)
  /\ (trend_label slope = "stable"%string
      <-> ~ (1 # 2 < slope)%Q /\ ~ (slope < - (1 # 2))%Q).
Proof.
  unfold trend_label.
  destruct (Qltb (1 # 2) slope) eqn:E1.
  - apply Qltb_lt in E1.
    repeat split; try discriminate; try tauto; intros; exfalso; lra.
  - apply Qltb_ge in E1.
    destruct (Qltb slope (- (1 # 2))) eqn:E2.
    + apply Qltb_lt in E2.
      repeat split; try discriminate; try tauto; intros; exfalso; lra.
    + apply Qltb_ge in E2.
      repeat split; try discriminate; try tauto; intros; try lra;
        exfalso; lra.
Qed.

Lemma views_analyze_nonempty (recent_moods : list MoodEntry.t) (slope : Q) :
  recent_moods <> [] ->
  (forall avg_mood, Views.trend_slope recent_moods avg_mood = Ok slope) ->
  exists d,
    Views.analyze_recent_moods recent_moods = Ok d
    /\ get "trend" d = Some (VStr (trend_label slope))
    /\ keys d = views_trend_keys.
Proof.
  intros Hne Hslope. unfold Views.analyze_recent_moods, Views.avg_mood_of.
  rewrite (proj2 (exists_true _) Hne). cbn [negb].
  rewrite truediv_Z by (pose proof (len_pos _ Hne); lia).
  cbn [bind]. rewrite Hslope. cbn [bind].
  rewrite <- views_classify_label.
  destruct (Views.classify slope) as [[trend message] recommendations].
  destruct (Views.mood_range _) as [mood_level additional_message].
  eexists. split; [reflexivity|]. split; reflexivity.
Qed.

Lemma api_analyze_nonempty (recent_moods : list MoodEntry.t) (slope : Q) :
  recent_moods <> [] ->
  (forall avg_mood, Api.trend_slope recent_moods avg_mood = Ok slope) ->
  exists d,
    Api.analyze_recent_moods recent_moods = Ok d
    /\ get "trend" d = Some (VStr (trend_label slope))
    /\ keys d = api_trend_keys.
Proof.
  intros Hne Hslope. unfold Api.analyze_recent_moods, Api.avg_mood_of.
  rewrite (proj2 (exists_true _) Hne). cbn [negb].
  rewrite truediv_Z by (pose proof (len_pos _ Hne); lia).
  cbn [bind]. rewrite Hslope. cbn [bind].
  rewrite <- api_classify_label.
  destruct (Api.classify slope) as [trend message].
  eexists. split; [reflexivity|]. split; reflexivity.
Qed.

(** ** Trend analyzer in binary64 *)

Lemma views64_half_avg (half : list Z) (avg_mood : Q) :
  half <> [] ->
  Views64.half_avg half avg_mood = Ok (Binary64.nearest (mean half)).
Proof.
  intros Hne. unfold Views64.half_avg.
  rewrite (proj2 (exists_true _) Hne). now apply b64_mean.
Qed.

Lemma api64_half_avg (half : list MoodEntry.t) (avg_mood : Q) :
  half <> [] ->
  Api64.half_avg half avg_mood
  = Ok (Binary64.nearest (mean (map MoodEntry.mood half))).
Proof.
  intros Hne. unfold Api64.half_avg.
  rewrite (proj2 (exists_true _) Hne), <- (len_map MoodEntry.mood).
  apply b64_mean. destruct half; [congruence|discriminate].
Qed.

Lemma views64_trend_slope_small (recent_moods : list MoodEntry.t)
  (avg_mood : Q) :
  (length recent_moods < 3)%nat ->
  Views64.trend_slope recent_moods avg_mood = Ok 0%Q.
Proof.
  intros Hn. unfold Views64.trend_slope.
  replace (3 <=? len recent_moods) with false; [reflexivity|].
  symmetry. apply Z.leb_gt. unfold len. lia.
Qed.

Lemma api64_trend_slope_small (recent_moods : list MoodEntry.t)
  (avg_mood : Q) :
  (length recent_moods < 3)%nat ->
  Api64.trend_slope recent_moods avg_mood = Ok 0%Q.
Proof.
  intros Hn. unfold Api64.trend_slope.
  replace (3 <=? len recent_moods) with false; [reflexivity|].
  symmetry. apply Z.leb_gt. unfold len. lia.
Qed.

Lemma views64_trend_slope_halves (recent_moods : list MoodEntry.t)
  (avg_mood : Q) :
  (3 <= length recent_moods)%nat ->
  let y_values := map MoodEntry.mood recent_moods in
  let h := (length recent_moods / 2)%nat in
  Views64.trend_slope recent_moods avg_mood
  = Ok (Binary64.sub (Binary64.nearest (mean (skipn h y_values)))
                     (Binary64.nearest (mean (firstn h y_values)))).
Proof.
  intros Hn y_values h. unfold Views64.trend_slope, slice_to, slice_from.
  replace (3 <=? len recent_moods) with true
    by (symmetry; apply Z.leb_le; unfold len; lia).
  replace (1 <? len recent_moods) with true
    by (symmetry; apply Z.ltb_lt; unfold len; lia).
  rewrite length_map. fold y_values h.
  destruct (half_lt _ Hn) as [H1 H2]. fold h in H1, H2.
  assert (Hy : length y_values = length recent_moods)
    by apply length_map.
  rewrite views64_half_avg.
  2:{ apply firstn_nonempty; [exact H1|].
      intros E. rewrite E in Hy. simpl in Hy. lia. }
  cbn [bind].
  rewrite views64_half_avg by (apply skipn_nonempty; lia).
  reflexivity.
Qed.

Lemma api64_trend_slope_halves (recent_moods : list MoodEntry.t)
  (avg_mood : Q) :
  (3 <= length recent_moods)%nat ->
  let y_values := map MoodEntry.mood recent_moods in
  let h := (length recent_moods / 2)%nat in
  Api64.trend_slope recent_moods avg_mood
  = Ok (Binary64.sub (Binary64.nearest (mean (skipn h y_values)))
                     (Binary64.nearest (mean (firstn h y_values)))).
Proof.
  intros Hn y_values h. unfold Api64.trend_slope, slice_to, slice_from.
  replace (3 <=? len recent_moods) with true
    by (symmetry; apply Z.leb_le; unfold len; lia).
  fold h. destruct (half_lt _ Hn) as [H1 H2]. fold h in H1, H2.
  rewrite api64_half_avg.
  2:{ apply firstn_nonempty; [exact H1|]. intros E. rewrite E in Hn.
      simpl in Hn. lia. }
  cbn [bind].
  rewrite api64_half_avg by (apply skipn_nonempty; lia).
  subst y_values. now rewrite firstn_map, skipn_map.
Qed.

(** Both variants compute the same slope, whatever [avg_mood] is passed. *)
Lemma trend_slope64_returns (recent_moods : list MoodEntry.t) :
  exists slope,
    (forall avg_mood, Views64.trend_slope recent_moods avg_mood = Ok slope)
    /\ (forall avg_mood, Api64.trend_slope recent_moods avg_mood = Ok slope)
    /\ ((length recent_moods < 3)%nat -> slope = 0%Q)
    /\ ((3 <= length recent_moods)%nat ->
        slope = Binary64.sub
                  (Binary64.nearest
                     (mean (skipn (length recent_moods / 2)
                              (map MoodEntry.mood recent_moods))))
                  (Binary64.nearest
                     (mean (firstn (length recent_moods / 2)
                              (map MoodEntry.mood recent_moods))))).
Proof.
  destruct (Nat.lt_ge_cases (length recent_moods) 3) as [Hs|Hl].
  - exists 0%Q. repeat split; auto using views64_trend_slope_small,
                                       api64_trend_slope_small.
    intros; lia.
  - eexists. split; [intros; now apply views64_trend_slope_halves|].
    split; [intros; now apply api64_trend_slope_halves|].
    split; [intros; lia|reflexivity].
Qed.

Lemma views64_analyze_nonempty (recent_moods : list MoodEntry.t)
  (slope : Q) :
  recent_moods <> [] ->
  (forall avg_mood, Views64.trend_slope recent_moods avg_mood = Ok slope) ->
  exists d,
    Views64.analyze_recent_moods recent_moods = Ok d
    /\ get "trend" d = Some (VStr (trend_label slope))
    /\ keys d = views_trend_keys.
Proof.
  intros Hne Hslope. unfold Views64.analyze_recent_moods, Views64.avg_mood_of.
  rewrite (proj2 (exists_true _) Hne). cbn [negb].
  rewrite b64_truediv by (pose proof (len_pos _ Hne); lia).
  cbn [bind]. rewrite Hslope. cbn [bind].
  rewrite <- views_classify_label.
  destruct (Views.classify slope) as [[trend message] recommendations].
  destruct (Views.mood_range _) as [mood_level additional_message].
  eexists. split; [reflexivity|]. split; reflexivity.
Qed.

Lemma api64_analyze_nonempty (recent_moods : list MoodEntry.t) (slope : Q) :
  recent_moods <> [] ->
  (forall avg_mood, Api64.trend_slope recent_moods avg_mood = Ok slope) ->
  exists d,
    Api64.analyze_recent_moods recent_moods = Ok d
    /\ get "trend" d = Some (VStr (trend_label slope))
    /\ keys d = api_trend_keys.
Proof.
  intros Hne Hslope. unfold Api64.analyze_recent_moods, Api64.avg_mood_of.
  rewrite (proj2 (exists_true _) Hne). cbn [negb].
  rewrite b64_truediv by (pose proof (len_pos _ Hne); lia).
  cbn [bind]. rewrite Hslope. cbn [bind].
  rewrite <- api_classify_label.
  destruct (Api.classify slope) as [trend message].
  eexists. split; [reflexivity|]. split; reflexivity.
Qed.

Lemma Forall_halves {A} (P : A -> Prop) (k : nat) (l : list A) :
  Forall P l -> Forall P (firstn k l) /\ Forall P (skipn k l).
Proof.
  intros H. rewrite <- (firstn_skipn k l) in H.
  now apply Forall_app in H.
Qed.

(** The computed slope against the exact one, for moods in 1..10. *)
Lemma trend_slope_vs_exact (y_values : list Z) (h : nat) :
  (1 <= h < length y_values)%nat ->
  Forall in_mood_range y_values ->
  len y_values <= max_history ->
  let exact := (mean (skipn h y_values) - mean (firstn h y_values))%Q in
  let slope := Binary64.sub (Binary64.nearest (mean (skipn h y_values)))
                            (Binary64.nearest (mean (firstn h y_values))) in
  (Qabs (slope - exact) <= 30 * half_ulp)%Q
  /\ ((1 # 2 < exact)%Q -> (1 # 2 < slope)%Q)
  /\ ((exact < 1 # 2)%Q -> (slope < 1 # 2)%Q)
  /\ ((exact < - (1 # 2))%Q -> (slope < - (1 # 2))%Q)
  /\ ((- (1 # 2) < exact)%Q -> (- (1 # 2) < slope)%Q).
Proof.
  intros [Hh1 Hh2] Hall Hmax exact slope.
  assert (Hf : firstn h y_values <> []).
  { apply firstn_nonempty; [exact Hh1|]. intros E. rewrite E in Hh2.
    simpl in Hh2. lia. }
  assert (Hs : skipn h y_values <> []) by (apply skipn_nonempty; lia).
  assert (R1 : in_forecast_range (mean (firstn h y_values))).
  { apply mean_in_range; [|now apply (Forall_halves _ h)].
    destruct (firstn h y_values); [congruence|discriminate]. }
  assert (R2 : in_forecast_range (mean (skipn h y_values))).
  { apply mean_in_range; [|now apply (Forall_halves _ h)].
    destruct (skipn h y_values); [congruence|discriminate]. }
  pose proof (rounded_difference_close _ _ R1 R2) as Hc.
  fold slope exact in Hc. split; [exact Hc|].
  pose proof (means_ratio _ _ Hf Hs) as E. fold exact in E.
  rewrite E in Hc |- *.
  apply slope_side; [| |exact Hc].
  - pose proof (len_pos _ Hf). pose proof (len_pos _ Hs). lia.
  - unfold len in *. rewrite length_firstn, length_skipn.
    unfold max_history in Hmax. nia.
Qed.

(** ** The [ai_mood_prediction] view *)

Lemma confidence_returns (mood_values : list Z) :
  returns (Views.calculate_prediction_confidence mood_values).
Proof.
  unfold Views.calculate_prediction_confidence.
  destruct (len mood_values <? 5) eqn:E; [eexists; reflexivity|].
  apply Z.ltb_ge in E.
  rewrite truediv_Z by lia. cbn [bind].
  rewrite truediv_Z by lia. cbn [bind].
  destruct (Qltb _ 1); [eexists; reflexivity|].
  destruct (Qltb _ 4); eexists; reflexivity.
Qed.

Lemma half_trend_cases (first_half second_half : Q) :
  (fst (Views.half_trend first_half second_half) = "improving"%string
   <-> (first_half < second_half)%Q)
  /\ (fst (Views.half_trend first_half second_half) = "declining"%string
      <-> (second_half < first_half)%Q)
  /\ (fst (Views.half_trend first_half second_half) = "stable"%string
      <-> (first_half == second_half)%Q).
Proof.
  unfold Views.half_trend.
  destruct (Qltb first_half second_half) eqn:E1.
  - apply Qltb_lt in E1. cbn [fst].
    repeat split; try discriminate; try tauto; intros; exfalso; lra.
  - apply Qltb_ge in E1.
    destruct (Qltb second_half first_half) eqn:E2.
    + apply Qltb_lt in E2. cbn [fst].
      repeat split; try discriminate; try tauto; intros; exfalso; lra.
    + apply Qltb_ge in E2. cbn [fst].
      repeat split; try discriminate; try tauto; intros; try lra;
        exfalso; lra.
Qed.

Lemma prediction_data_small (db : Store) (user : User)
  (recent_moods : list MoodEntry.t) :
  (length recent_moods < 7)%nat ->
  Views.prediction_data_from db user recent_moods = Ok None.
Proof.
  intros Hn. unfold Views.prediction_data_from.
  replace (7 <=? len recent_moods) with false; [reflexivity|].
  symmetry. apply Z.leb_gt. unfold len. lia.
Qed.

Lemma prediction_data_trend (db : Store) (user : User)
  (recent_moods : list MoodEntry.t) :
  (7 <= length recent_moods)%nat ->
  let mood_values := map MoodEntry.mood recent_moods in
  let h := (length recent_moods / 2)%nat in
  exists d,
    Views.prediction_data_from db user recent_moods = Ok (Some d)
    /\ get "trend" d
       = Some (VStr (fst (Views.half_trend (mean (firstn h mood_values))
                                           (mean (skipn h mood_values))))).
Proof.
  intros Hn mood_values h. unfold Views.prediction_data_from.
  fold mood_values. unfold slice_to, slice_from.
  assert (Hy : length mood_values = length recent_moods) by apply length_map.
  replace (7 <=? len recent_moods) with true
    by (symmetry; apply Z.leb_le; unfold len; lia).
  replace (7 <=? len mood_values) with true
    by (symmetry; apply Z.leb_le; unfold len; lia).
  rewrite truediv_Z by (unfold len; lia). cbn [bind].
  rewrite Hy. fold h.
  destruct (half_lt (length recent_moods)) as [H1 H2]; [lia|].
  fold h in H1, H2.
  rewrite mean_truediv.
  2:{ apply firstn_nonempty; [exact H1|]. intros E. rewrite E in Hy.
      simpl in Hy. lia. }
  cbn [bind].
  rewrite mean_truediv by (apply skipn_nonempty; lia).
  cbn [bind].
  destruct (Views.half_trend _ _) as [trend trend_message] eqn:Et.
  rewrite predict_next_mood_regression by lia. cbn [bind].
  destruct (confidence_returns mood_values) as [confidence ->]. cbn [bind].
  eexists. split; reflexivity.
Qed.

(** C1 (amended): for a non-empty chronological history both copies of
    [analyze_mood_trends] compute the same slope and label.  With fewer than
    three entries the slope is 0 and the label is "stable".  With n >= 3
    entries the slope is computed in binary64: the means of the second and
    of the first half (the first n/2 entries) are rounded, and so is their
    difference; the label is "improving" iff the computed slope is > 0.5,
    "declining" iff it is < -0.5 and "stable" otherwise.  For moods in
    1..10 and at most 10^6 entries the computed slope is within 30 * 2^-53
    of mean(second half) - mean(first half), and the label is "improving"
    when that exact difference is > 0.5, "declining" when it is < -0.5 and
    "stable" when it lies strictly between -0.5 and 0.5; when it is exactly
    0.5 or -0.5 the rounding decides.  The empty history is answered with
    the label "neutral". *)
Theorem trend_classification (recent_moods : list MoodEntry.t) :
  recent_moods <> [] ->
  let y_values := map MoodEntry.mood recent_moods in
  let n := length recent_moods in
  let exact := (mean (skipn (n / 2) y_values)
                - mean (firstn (n / 2) y_values))%Q in
  exists slope d d',
    (forall avg_mood, Views64.trend_slope recent_moods avg_mood = Ok slope)
    /\ (forall avg_mood, Api64.trend_slope recent_moods avg_mood = Ok slope)
    /\ Views64.analyze_recent_moods recent_moods = Ok d
    /\ Api64.analyze_recent_moods recent_moods = Ok d'
    /\ get "trend" d = Some (VStr (trend_label slope))
    /\ get "trend" d' = Some (VStr (trend_label slope))
    /\ ((n < 3)%nat -> slope = 0%Q /\ trend_label slope = "stable"%string)
    /\ ((3 <= n)%nat ->
        slope = Binary64.sub
                  (Binary64.nearest (mean (skipn (n / 2) y_values)))
                  (Binary64.nearest (mean (firstn (n / 2) y_values))))
    /\ (trend_label slope = "improving"%string <-> (1 # 2 < slope)%Q)
    /\ (trend_label slope = "declining"%string <-> (slope < - (1 # 2))%Q)
    /\ (trend_label slope = "stable"%string
        <-> ~ (1 # 2 < slope)%Q /\ ~ (slope < - (1 # 2))%Q)
    /\ ((3 <= n)%nat ->
        Forall in_mood_range y_values ->
        Z.of_nat n <= max_history ->
        (Qabs (slope - exact) <= 30 * half_ulp)%Q
        /\ ((1 # 2 < exact)%Q -> trend_label slope = "improving"%string)
        /\ ((exact < - (1 # 2))%Q -> trend_label slope = "declining"%string)
        /\ ((- (1 # 2) < exact)%Q -> (exact < 1 # 2)%Q ->
            trend_label slope = "stable"%string))
    /\ Views64.analyze_recent_moods [] = Ok Views.no_data
    /\ Api64.analyze_recent_moods [] = Ok Api.no_data
    /\ get "trend" Views.no_data = Some (VStr "neutral")
    /\ get "trend" Api.no_data = Some (VStr "neutral").
Proof.
  intros Hne y_values n exact.
  destruct (trend_slope64_returns recent_moods)
    as (slope & Hv & Ha & Hsmall & Hlarge).
  destruct (views64_analyze_nonempty recent_moods slope Hne Hv)
    as (d & Hd & Htrend & _).
  destruct (api64_analyze_nonempty recent_moods slope Hne Ha)
    as (d' & Hd' & Htrend' & _).
  destruct (trend_label_cases slope) as (Hi & Hdec & Hst).
  exists slope, d, d'.
  repeat (split; [assumption|]).
  split.
  { intros Hn. rewrite (Hsmall Hn). split; reflexivity. }
  split; [exact Hlarge|].
  repeat (split; [assumption|]).
  split; [|repeat split; reflexivity].
  intros Hn Hall Hmax.
  destruct (half_lt _ Hn) as [H1 H2].
  pose proof (trend_slope_vs_exact y_values (n / 2)) as Hx.
  cbv zeta in Hx. fold exact in Hx.
  subst y_values n. rewrite <- (Hlarge Hn) in Hx.
  destruct Hx as (Hc & S1 & S2 & S3 & S4).
  { rewrite length_map. split; assumption. }
  { exact Hall. }
  { rewrite len_map. exact Hmax. }
  split; [exact Hc|].
  split; [intros H; apply Hi; auto|].
  split; [intros H; apply Hdec; auto|].
  intros Hlo Hhi. apply Hst.
  specialize (S2 Hhi). specialize (S4 Hlo). split; lra.
Qed.

(** ** Result records and empty histories *)

Lemma filter_nil_impl {A} (f g : A -> bool) (l : list A) :
  (forall x, f x = true -> g x = true) -> filter g l = [] -> filter f l = [].
Proof.
  intros Himp. induction l as [|x l IH]; [reflexivity|].
  cbn [filter]. destruct (g x) eqn:Eg; [discriminate|].
  destruct (f x) eqn:Ef; [rewrite (Himp x Ef) in Eg; discriminate|exact IH].
Qed.

Lemma filter_none {A} (f : A -> bool) (l : list A) :
  (forall x, In x l -> f x = false) -> filter f l = [].
Proof.
  intros H. induction l as [|x l IH]; [reflexivity|].
  cbn [filter]. rewrite (H x) by now left.
  apply IH. intros y Hy. apply H. now right.
Qed.

Lemma analyze_returns (recent_moods : list MoodEntry.t) :
  returns (Views.analyze_recent_moods recent_moods)
  /\ returns (Api.analyze_recent_moods recent_moods).
Proof.
  destruct recent_moods as [|e l].
  - split; eexists; reflexivity.
  - destruct (trend_slope_returns (e :: l)) as (slope & Hv & Ha & _).
    split.
    + destruct (views_analyze_nonempty (e :: l) slope) as (d & Hd & _);
        [discriminate|exact Hv|]. now exists d.
    + destruct (api_analyze_nonempty (e :: l) slope) as (d & Hd & _);
        [discriminate|exact Ha|]. now exists d.
Qed.

Lemma predict_week_returns (recent_moods : list MoodEntry.t) :
  returns (Views.predict_week_from recent_moods).
Proof.
  destruct recent_moods as [|e l]; [eexists; reflexivity|].
  destruct (predict_week_from_forecast (e :: l)) as (b & s & d & Hd & _);
    [discriminate|]. now exists d.
Qed.

Lemma prediction_data_returns (db : Store) (user : User)
  (recent_moods : list MoodEntry.t) :
  returns (Views.prediction_data_from db user recent_moods).
Proof.
  destruct (Nat.lt_ge_cases (length recent_moods) 7) as [Hs|Hl].
  - eexists. now apply prediction_data_small.
  - destruct (prediction_data_trend db user recent_moods Hl) as (d & Hd & _).
    now exists (Some d).
Qed.

Lemma predict_next_mood_returns (mood_values : list Z) :
  mood_values <> [] -> returns (Views.predict_next_mood mood_values).
Proof.
  intros Hne. destruct (len mood_values <? 3) eqn:E.
  - exists (mean mood_values). unfold Views.predict_next_mood. rewrite E.
    now apply mean_truediv.
  - apply Z.ltb_ge in E. unfold len in E.
    eexists. apply predict_next_mood_regression. lia.
Qed.

(** C2 (amended): a user without mood entries gets the fixed defaults from
    every analytics entry point: streak 0, the no-data trend record, the
    neutral forecast, no prediction data, confidence "Low", and no
    achievement.  On every history the trend analysis, the weekly forecaster,
    the prediction view and the confidence estimate return without raising:
    each of their divisions has a non-zero divisor.  [predict_next_mood]
    returns on every non-empty list; the view calls it with at least seven
    values only. *)
Theorem empty_history_defaults (db : Store) (user : User) (now : datetime) :
  moods_of_user db user = [] ->
  Views.calculate_streak db user now = Some 0
  /\ Api.calculate_streak db user now = Some 0
  /\ Views.analyze_mood_trends db user now = Ok Views.no_data
  /\ Api.analyze_mood_trends db user now = Ok Api.no_data
  /\ Views.predict_next_week_mood db user now = Ok Views.no_forecast
  /\ Views.ai_mood_prediction db user = Ok None
  /\ Views.check_achievements db user now = db
  /\ Views.calculate_prediction_confidence [] = Ok "Low"%string
  /\ (forall recent_moods,
        returns (Views.analyze_recent_moods recent_moods)
        /\ returns (Api.analyze_recent_moods recent_moods)
        /\ returns (Views.predict_week_from recent_moods)
        /\ returns (Views.prediction_data_from db user recent_moods)
        /\ returns (Views.calculate_prediction_confidence
                      (map MoodEntry.mood recent_moods)))
  /\ (forall mood_values,
        mood_values <> [] -> returns (Views.predict_next_mood mood_values)).
Proof.
  intros Hnone.
  assert (Hf : forall p,
    filter (fun e => (MoodEntry.user e =? user) && p e) (mood_entries db) = []).
  { intros p. apply (filter_nil_impl _ (fun e => MoodEntry.user e =? user));
      [|exact Hnone].
    intros e He. now apply andb_true_iff in He as [He _]. }
  assert (Hstreak : Views.calculate_streak db user now = Some 0).
  { unfold Views.calculate_streak. cbn [Views.streak_loop].
    unfold moods_on. now rewrite Hf. }
  split; [exact Hstreak|].
  split.
  { unfold Api.calculate_streak. rewrite api_streak_loop. exact Hstreak. }
  split.
  { unfold Views.analyze_mood_trends, Views.recent_moods_30.
    now rewrite Hf. }
  split.
  { unfold Api.analyze_mood_trends, Api.recent_moods_30.
    now rewrite Hf. }
  split.
  { unfold Views.predict_next_week_mood, Views.recent_moods_14.
    rewrite (filter_nil_impl _ (fun e => MoodEntry.user e =? user));
      [reflexivity| |exact Hnone].
    intros e He. apply andb_true_iff in He as [He _].
    now apply andb_true_iff in He as [He _]. }
  split.
  { unfold Views.ai_mood_prediction, Views.recent_moods_latest.
    now rewrite Hnone. }
  split.
  { unfold Views.check_achievements. now rewrite Hnone. }
  split; [reflexivity|].
  split.
  { intros recent_moods.
    destruct (analyze_returns recent_moods) as [Hv Ha].
    auto using predict_week_returns, prediction_data_returns,
      confidence_returns. }
  apply predict_next_mood_returns.
Qed.

Lemma empty_history_defaults_witness :
  Views.predict_next_week_mood empty_store 1 {| day := 0; time_of_day := 0 |}
  = Ok Views.no_forecast.
Proof.
  apply (empty_history_defaults empty_store 1 {| day := 0; time_of_day := 0 |}).
  reflexivity.
Defined.

(** The fallback mean of [predict_next_mood] divides by the length of the
    list: on the empty list it raises. *)
Lemma predict_next_mood_empty_raises :
  Views.predict_next_mood [] = Raise ZeroDivisionError
  /\ ~ returns (Views.predict_next_mood []).
Proof.
  split; [reflexivity|]. intros [v Hv]. discriminate Hv.
Qed.

(** C6: when the user has no mood entry dated from fourteen days ago up to
    today, the weekly forecaster returns the neutral record: prediction
    "neutral", confidence "low", the data-insufficiency message and the flat
    forecast of seven fives. *)
Theorem empty_window_neutral_forecast (db : Store) (user : User)
  (now : datetime) :
  (forall e, In e (mood_entries db) -> MoodEntry.user e = user ->
             ~ (day now - 14 <= day (MoodEntry.date e) <= day now)) ->
  Views.predict_next_week_mood db user now = Ok Views.no_forecast
  /\ get "weekly_forecast" Views.no_forecast
     = Some (VNumList [5; 5; 5; 5; 5; 5; 5]%Q)
  /\ get "confidence" Views.no_forecast = Some (VStr "low")
  /\ get "message" Views.no_forecast
     = Some (VStr "Need more mood data for accurate predictions")
  /\ get "prediction" Views.no_forecast = Some (VStr "neutral").
Proof.
  intros Hwin. repeat split.
  unfold Views.predict_next_week_mood, Views.recent_moods_14.
  rewrite filter_none; [reflexivity|].
  intros e Hin.
  destruct (Z.eqb_spec (MoodEntry.user e) user) as [Hu|Hu]; [|reflexivity].
  specialize (Hwin e Hin Hu). cbn [andb].
  apply andb_false_iff.
  destruct (Z.leb_spec (day now - 14) (day (MoodEntry.date e)));
    [right; apply Z.leb_gt; lia|now left].
Qed.

Lemma empty_window_neutral_forecast_witness :
  Views.predict_next_week_mood
    {| mood_entries :=
         [ {| MoodEntry.user := 1; MoodEntry.mood := 8;
              MoodEntry.note := ""; MoodEntry.tags := "";
              MoodEntry.date := {| day := 100; time_of_day := 0 |} |} ];
       journals := []; achievements := [] |}
    1 {| day := 120; time_of_day := 0 |}
  = Ok Views.no_forecast.
Proof.
  apply empty_window_neutral_forecast.
  intros e [<-|[]] _. simpl. lia.
Defined.

(** C9 (amended): for a non-empty history the dashboard variant returns a
    record with the seven keys trend, mood_level, avg_mood, message,
    additional_message, recommendations, data_points, which include the five
    of the trend-analysis record; the API variant returns the four keys
    trend, avg_mood, message, data_points and no recommendations.  For the
    empty history both variants return the three keys trend, message,
    recommendations. *)
Theorem trend_result_fields (recent_moods : list MoodEntry.t) :
  (recent_moods <> [] ->
   exists d d',
     Views.analyze_recent_moods recent_moods = Ok d
     /\ keys d = views_trend_keys
     /\ Api.analyze_recent_moods recent_moods = Ok d'
     /\ keys d' = api_trend_keys)
  /\ Views.analyze_recent_moods [] = Ok Views.no_data
  /\ Api.analyze_recent_moods [] = Ok Api.no_data
  /\ keys Views.no_data = no_data_keys
  /\ keys Api.no_data = no_data_keys
  /\ incl ["trend"; "avg_mood"; "message"; "recommendations";
           "data_points"]%string views_trend_keys
  /\ ~ In "recommendations"%string api_trend_keys
  /\ ~ In "avg_mood"%string no_data_keys
  /\ ~ In "data_points"%string no_data_keys.
Proof.
  split.
  { intros Hne.
    destruct (trend_slope_returns recent_moods) as (slope & Hv & Ha & _).
    destruct (views_analyze_nonempty recent_moods slope Hne Hv)
      as (d & Hd & _ & Hk).
    destruct (api_analyze_nonempty recent_moods slope Hne Ha)
      as (d' & Hd' & _ & Hk').
    now exists d, d'. }
  repeat (split; [reflexivity|]).
  split.
  { intros k Hk. unfold views_trend_keys. simpl in Hk |- *. tauto. }
  unfold api_trend_keys, no_data_keys.
  repeat split; simpl; intros H; repeat destruct H as [H|H];
    try discriminate H; exact H.
Qed.

Lemma trend_classification_witness :
  exists d,
    Views64.analyze_recent_moods
      [mood_entry_on 1 3 0; mood_entry_on 1 5 1; mood_entry_on 1 9 2] = Ok d
    /\ get "trend" d = Some (VStr "improving").
Proof.
  destruct (trend_classification
              [mood_entry_on 1 3 0; mood_entry_on 1 5 1; mood_entry_on 1 9 2])
    as (slope & d & d' & _ & _ & Hd & _ & Ht & _ & _ & _ & _ & _ & _ & Hx & _).
  - discriminate.
  - exists d. split; [exact Hd|]. rewrite Ht.
    destruct Hx as (_ & Hi & _).
    + simpl. lia.
    + repeat constructor; unfold in_mood_range; simpl; lia.
    + unfold max_history. simpl. lia.
    + now rewrite Hi.
Defined.

(** The claim as stated fails on the code.  The empty history, of length
    0 < 3, is labelled "neutral" and not "stable".  On the twelve moods
    4,3,6,1,5,6,6,8,4,1,1,2 the half means differ by exactly -1/2, which is
    not below -0.5, yet both copies compute the slope -(2^50 + 1)/2^51 and
    answer "declining"; on 1,2,1,1 the difference is -1/2 as well and the
    answer is "stable".  And the trend block of the [ai_mood_prediction]
    view labels the history 1,2,...,8, logged on eight successive days,
    "declining", although the second half exceeds the first by 4. *)
Lemma trend_label_outside_dead_band :
  (length (@nil MoodEntry.t) < 3)%nat
  /\ Views64.analyze_recent_moods [] = Ok Views.no_data
  /\ Api64.analyze_recent_moods [] = Ok Api.no_data
  /\ get "trend" Views.no_data = Some (VStr "neutral")
  /\ get "trend" Api.no_data = Some (VStr "neutral")
  /\ get "trend" Views.no_data <> Some (VStr "stable")
  /\ (mean (skipn 6 [4; 3; 6; 1; 5; 6; 6; 8; 4; 1; 1; 2]%Z)
      - mean (firstn 6 [4; 3; 6; 1; 5; 6; 6; 8; 4; 1; 1; 2]%Z) == - (1 # 2))%Q
  /\ ~ (- (1 # 2) < - (1 # 2))%Q
  /\ (forall avg_mood,
        Views64.trend_slope
          (map (fun m => mood_entry_on 1 m 0)
               [4; 3; 6; 1; 5; 6; 6; 8; 4; 1; 1; 2]) avg_mood
        = Ok (- (2 ^ 50 + 1) # 2 ^ 51)%Q)
  /\ (exists d,
        Views64.analyze_recent_moods
          (map (fun m => mood_entry_on 1 m 0)
               [4; 3; 6; 1; 5; 6; 6; 8; 4; 1; 1; 2]) = Ok d
        /\ get "trend" d = Some (VStr "declining"))
  /\ (exists d,
        Api64.analyze_recent_moods
          (map (fun m => mood_entry_on 1 m 0)
               [4; 3; 6; 1; 5; 6; 6; 8; 4; 1; 1; 2]) = Ok d
        /\ get "trend" d = Some (VStr "declining"))
  /\ (mean (skipn 2 [1; 2; 1; 1]%Z) - mean (firstn 2 [1; 2; 1; 1]%Z)
      == - (1 # 2))%Q
  /\ (exists d,
        Views64.analyze_recent_moods
          (map (fun m => mood_entry_on 1 m 0) [1; 2; 1; 1]) = Ok d
        /\ get "trend" d = Some (VStr "stable"))
  /\ (mean (skipn 4 [1; 2; 3; 4; 5; 6; 7; 8]%Z)
      - mean (firstn 4 [1; 2; 3; 4; 5; 6; 7; 8]%Z) == 4)%Q
  /\ (exists p,
        Views.ai_mood_prediction
          {| mood_entries :=
               map (fun m => mood_entry_on 1 m m) [1; 2; 3; 4; 5; 6; 7; 8];
             journals := []; achievements := [] |} 1
        = Ok (Some p)
        /\ get "trend" p = Some (VStr "declining")).
Proof.
  split; [simpl; lia|].
  repeat (split; [reflexivity|]).
  split; [discriminate|].
  split; [reflexivity|].
  split; [intros H; discriminate H|].
  split; [intros avg_mood; vm_compute; reflexivity|].
  split; [eexists; split; [vm_compute; reflexivity|reflexivity]|].
  split; [eexists; split; [vm_compute; reflexivity|reflexivity]|].
  split; [reflexivity|].
  split; [eexists; split; [vm_compute; reflexivity|reflexivity]|].
  split; [reflexivity|].
  eexists; split; [vm_compute; reflexivity|reflexivity].
Qed.

Lemma trend_result_fields_witness :
  exists d,
    Views.analyze_recent_moods
      [ {| MoodEntry.user := 1; MoodEntry.mood := 6;
           MoodEntry.note := ""; MoodEntry.tags := "";
           MoodEntry.date := {| day := 0; time_of_day := 0 |} |} ] = Ok d
    /\ keys d = views_trend_keys.
Proof.
  destruct (proj1 (trend_result_fields
              [ {| MoodEntry.user := 1; MoodEntry.mood := 6;
                   MoodEntry.note := ""; MoodEntry.tags := "";
                   MoodEntry.date := {| day := 0; time_of_day := 0 |} |} ]))
    as (d & d' & Hd & Hk & _).
  - discriminate.
  - exists d. split; assumption.
Defined.

(** The no-data record has neither avg_mood nor data_points, in both
    variants, and the API record of a one-entry history has no
    recommendations. *)
Lemma trend_result_missing_fields :
  Views.analyze_recent_moods [] = Ok Views.no_data
  /\ has_key "avg_mood" Views.no_data = false
  /\ has_key "data_points" Views.no_data = false
  /\ Api.analyze_recent_moods [] = Ok Api.no_data
  /\ has_key "avg_mood" Api.no_data = false
  /\ has_key "data_points" Api.no_data = false
  /\ exists d,
       Api.analyze_recent_moods
         [ {| MoodEntry.user := 1; MoodEntry.mood := 6;
              MoodEntry.note := ""; MoodEntry.tags := "";
              MoodEntry.date := {| day := 0; time_of_day := 0 |} |} ] = Ok d
       /\ has_key "recommendations" d = false.
Proof.
  repeat (split; [reflexivity|]).
  eexists. split; reflexivity.
Qed.

(** ** Single-value predictor on straight lines *)

Lemma combine_map_self {A B} (f : A -> B) (l : list A) :
  combine l (map f l) = map (fun x => (x, f x)) l.
Proof. induction l as [|x l IH]; [reflexivity|]. simpl. now rewrite IH. Qed.

Lemma sum_map_range_S (g : Z -> Z) (n : nat) :
  sum (map g (range (S n))) = sum (map g (range n)) + g (Z.of_nat n).
Proof.
  rewrite range_S, map_app, sum_app. simpl map. rewrite sum_cons.
  change (sum []) with 0. lia.
Qed.

Lemma sum_line (a b : Z) (n : nat) :
  sum (map (fun x => a + b * x) (range n))
  = Z.of_nat n * a + b * Views.sum_x n.
Proof.
  induction n as [|n IH];
    [unfold Views.sum_x, Views.sum_xx, sum, range; simpl; lia|].
  rewrite sum_map_range_S, IH, sum_x_S, Nat2Z.inj_succ. lia.
Qed.

Lemma sum_xy_line (a b : Z) (n : nat) :
  Views.sum_xy n (map (fun x => a + b * x) (range n))
  = a * Views.sum_x n + b * Views.sum_xx n.
Proof.
  unfold Views.sum_xy. rewrite combine_map_self, map_map. cbn [fst snd].
  induction n as [|n IH];
    [unfold Views.sum_x, Views.sum_xx, sum, range; simpl; lia|].
  rewrite sum_map_range_S, IH, sum_x_S, sum_xx_S. lia.
Qed.

Lemma round_half_even_integer (q : Q) (z : Z) :
  (q == inject_Z z)%Q -> round_half_even q = z.
Proof.
  intros Hq. unfold round_half_even.
  assert (Hf : Qfloor q = z).
  { rewrite (Qfloor_comp _ _ Hq). apply Qfloor_Z. }
  rewrite Hf.
  assert (Hc : Qcompare (q - inject_Z z) (1 # 2) = Lt).
  { apply (proj1 (Qlt_alt _ _)). rewrite Hq. lra. }
  now rewrite Hc.
Qed.

Lemma round1_integer (q : Q) (z : Z) :
  (q == inject_Z z)%Q -> (round1 q == inject_Z z)%Q.
Proof.
  intros Hq. unfold round1.
  rewrite (round_half_even_integer (q * 10) (z * 10)).
  - rewrite inject_Z_mult. change (inject_Z 10) with 10%Q. field.
  - rewrite Hq, inject_Z_mult. reflexivity.
Qed.

Lemma Qltb_compat (a b c d : Q) :
  (a == c)%Q -> (b == d)%Q -> Qltb a b = Qltb c d.
Proof.
  intros Hac Hbd. unfold Qltb. f_equal.
  destruct (Qle_bool b a) eqn:E1, (Qle_bool d c) eqn:E2; try reflexivity.
  - apply Qle_bool_iff in E1. rewrite Hac, Hbd in E1.
    apply Qle_bool_iff in E1. congruence.
  - apply Qle_bool_iff in E2. rewrite <- Hac, <- Hbd in E2.
    apply Qle_bool_iff in E2. congruence.
Qed.

Lemma clamp_compat (x y : Q) :
  (x == y)%Q -> (max 1 (min 10 x) == max 1 (min 10 y))%Q.
Proof.
  intros Hxy. unfold max, min.
  rewrite (Qltb_compat x 10 y 10 Hxy (Qeq_refl _)).
  destruct (Qltb y 10); [|reflexivity].
  rewrite (Qltb_compat 1 x 1 y (Qeq_refl _) Hxy).
  destruct (Qltb 1 y); [exact Hxy|reflexivity].
Qed.

(** On the points (x, a + b x), x = 0 .. n-1, the least-squares line is the
    line itself. *)
Lemma regression_of_line (a b : Z) (n : nat) :
  (3 <= n)%nat ->
  let y_values := map (fun x => a + b * x) (range n) in
  let slope :=
    (inject_Z (Z.of_nat n * Views.sum_xy n y_values
               - Views.sum_x n * sum y_values)
     / inject_Z (Views.ols_denominator n))%Q in
  let intercept :=
    ((inject_Z (sum y_values) - slope * inject_Z (Views.sum_x n))
     / inject_Z (Z.of_nat n))%Q in
  (slope == inject_Z b)%Q /\ (intercept == inject_Z a)%Q.
Proof.
  intros Hn y_values slope intercept.
  pose proof (ols_denominator_pos n) as Hpos.
  assert (Hden : ~ (inject_Z (Views.ols_denominator n) == 0)%Q).
  { unfold Qeq, inject_Z; simpl. lia. }
  assert (Hnq : ~ (inject_Z (Z.of_nat n) == 0)%Q).
  { unfold Qeq, inject_Z; simpl. lia. }
  assert (Hs : (slope == inject_Z b)%Q).
  { subst slope y_values. rewrite sum_xy_line, sum_line.
    replace (Z.of_nat n * (a * Views.sum_x n + b * Views.sum_xx n)
             - Views.sum_x n * (Z.of_nat n * a + b * Views.sum_x n))
      with (b * Views.ols_denominator n)
      by (unfold Views.ols_denominator; ring).
    rewrite inject_Z_mult. field. exact Hden. }
  split; [exact Hs|].
  subst intercept. rewrite Hs. subst y_values. rewrite sum_line.
  rewrite inject_Z_plus, !inject_Z_mult. field. exact Hnq.
Qed.

Lemma length_map_range {B} (f : Z -> B) (n : nat) :
  length (map f (range n)) = n.
Proof. now rewrite length_map, length_range. Qed.

(** X1: on at least three moods that lie exactly on a line,
    y_i = a + b i for i = 0 .. n-1, [predict_next_mood] returns the next
    point of the line, a + b n, clamped to [1, 10]. *)
Theorem predict_next_mood_extrapolates_lines (a b : Z) (n : nat) :
  (3 <= n)%nat ->
  exists v,
    Views.predict_next_mood (map (fun x => a + b * x) (range n)) = Ok v
    /\ (v == max 1 (min 10 (inject_Z (a + b * Z.of_nat n))))%Q.
Proof.
  intros Hn.
  pose proof (predict_next_mood_regression
                (map (fun x => a + b * x) (range n))) as Hreg.
  rewrite length_map_range in Hreg. specialize (Hreg Hn).
  cbv zeta in Hreg.
  destruct (regression_of_line a b n Hn) as [Hs Hi]. cbv zeta in Hs, Hi.
  eexists. split; [exact Hreg|].
  apply clamp_compat, round1_integer.
  rewrite Hi, Hs, inject_Z_plus, inject_Z_mult. ring.
Qed.

Lemma predict_next_mood_extrapolates_lines_witness :
  exists v,
    Views.predict_next_mood (map (fun x => 2 + 1 * x) (range 4)) = Ok v
    /\ (v == max 1 (min 10 (inject_Z (2 + 1 * Z.of_nat 4))))%Q.
Proof.
  apply (predict_next_mood_extrapolates_lines 2 1 4). lia.
Defined.

Lemma repeat_as_line (c : Z) (n : nat) :
  repeat c n = map (fun x => c + 0 * x) (range n).
Proof.
  unfold range. rewrite map_map.
  generalize 0%nat. induction n as [|n IH]; intros s; [reflexivity|].
  simpl seq. simpl map. rewrite <- IH. simpl. now rewrite Z.add_0_r.
Qed.

Lemma sum_repeat (c : Z) (n : nat) : sum (repeat c n) = Z.of_nat n * c.
Proof.
  induction n as [|n IH]; [reflexivity|].
  simpl repeat. rewrite sum_cons, IH, Nat2Z.inj_succ. lia.
Qed.

Lemma mean_repeat (c : Z) (n : nat) :
  (1 <= n)%nat -> (mean (repeat c n) == inject_Z c)%Q.
Proof.
  intros Hn. unfold mean, len. rewrite sum_repeat, repeat_length.
  rewrite inject_Z_mult. field.
  unfold Qeq, inject_Z; simpl. lia.
Qed.

Lemma clamp_in_range (q : Q) :
  in_forecast_range q -> (max 1 (min 10 q) == q)%Q.
Proof.
  intros [Hlo Hhi]. unfold max, min.
  destruct (Qltb q 10) eqn:E1.
  - destruct (Qltb 1 q) eqn:E2; [reflexivity|].
    apply Qltb_ge in E2. lra.
  - apply Qltb_ge in E1.
    destruct (Qltb 1 10) eqn:E2; [lra|]. apply Qltb_ge in E2. lra.
Qed.

(** X2: a history of n >= 1 equal moods c in 1..10 predicts c, through the
    mean for fewer than three values and through the regression
    otherwise. *)
Theorem predict_next_mood_flat (c : Z) (n : nat) :
  (1 <= n)%nat -> in_mood_range c ->
  exists v,
    Views.predict_next_mood (repeat c n) = Ok v /\ (v == inject_Z c)%Q.
Proof.
  intros Hn [Hlo Hhi].
  destruct (Nat.lt_ge_cases n 3) as [Hs|Hl].
  - exists (mean (repeat c n)). split; [|now apply mean_repeat].
    unfold Views.predict_next_mood.
    replace (len (repeat c n) <? 3) with true
      by (symmetry; apply Z.ltb_lt; unfold len; rewrite repeat_length; lia).
    apply truediv_Z. unfold len. rewrite repeat_length. lia.
  - pose proof (predict_next_mood_regression
                  (map (fun x => c + 0 * x) (range n))) as Hreg.
    rewrite length_map_range in Hreg. specialize (Hreg Hl).
    cbv zeta in Hreg.
    destruct (regression_of_line c 0 n Hl) as [Hsl Hi]. cbv zeta in Hsl, Hi.
    rewrite repeat_as_line. eexists. split; [exact Hreg|].
    rewrite clamp_compat
      by (apply (round1_integer _ c); rewrite Hi, Hsl;
          change (inject_Z 0) with 0%Q; ring).
    apply clamp_in_range. unfold in_forecast_range, Qle, inject_Z; simpl.
    lia.
Qed.

Lemma predict_next_mood_flat_witness :
  exists v,
    Views.predict_next_mood (repeat 7 2) = Ok v /\ (v == inject_Z 7)%Q.
Proof.
  apply (predict_next_mood_flat 7 2); [lia|unfold in_mood_range; lia].
Defined.

(** ** Confidence estimate *)

Lemma sumQ_all_zero (l : list Q) :
  Forall (fun q => (q == 0)%Q) l -> (sumQ l == 0)%Q.
Proof.
  induction 1 as [|x l Hx Hl IH]; [reflexivity|].
  rewrite sumQ_cons, Hx, IH. ring.
Qed.

Lemma Qsquare_nonneg (t : Q) : (0 <= t * t)%Q.
Proof. nra. Qed.

Lemma two_level_spread (m k : Q) : ((m - k) * (k + 1 - m) < 1)%Q.
Proof.
  pose proof (Qsquare_nonneg (m - k - (1 # 2))) as H.
  setoid_replace ((m - k) * (k + 1 - m))%Q
    with ((1 # 4) - (m - k - (1 # 2)) * (m - k - (1 # 2)))%Q by ring.
  lra.
Qed.

Lemma squared_deviations (l : list Z) (m : Q) :
  (sumQ (map (fun x => (inject_Z x - m) ^ 2) l)
   == inject_Z (sum (map (fun x => (x * x)%Z) l))
      - 2 * m * inject_Z (sum l) + inject_Z (len l) * m * m)%Q.
Proof.
  induction l as [|x l IH].
  - unfold sumQ, sum, len; simpl. unfold inject_Z. ring.
  - cbn [map]. rewrite sumQ_cons, IH, !sum_cons, len_cons.
    rewrite !inject_Z_plus, inject_Z_mult.
    set (t := (inject_Z x - m)%Q).
    change (t ^ 2)%Q with (t * t)%Q. subst t.
    change (inject_Z 1) with 1%Q. ring.
Qed.

Lemma sum_squares_two_levels (l : list Z) (c : Z) :
  Forall (fun x => c <= x <= c + 1) l ->
  sum (map (fun x => x * x) l) = (2 * c + 1) * sum l - len l * (c * (c + 1)).
Proof.
  induction 1 as [|x l Hx Hl IH].
  - unfold sum, len; simpl. lia.
  - cbn [map]. rewrite !sum_cons, len_cons, IH.
    assert (x = c \/ x = c + 1) as [-> | ->] by lia; ring.
Qed.

Lemma variance_two_levels (l : list Z) (c : Z) :
  l <> [] ->
  Forall (fun x => c <= x <= c + 1) l ->
  (sumQ (map (fun x => (inject_Z x - mean l) ^ 2) l) / inject_Z (len l)
   < 1)%Q.
Proof.
  intros Hne Hall.
  pose proof (len_pos l Hne) as Hpos.
  assert (Hn : (0 < inject_Z (len l))%Q).
  { unfold Qlt, inject_Z; simpl. lia. }
  apply Qlt_shift_div_r; [exact Hn|].
  rewrite squared_deviations, (sum_squares_two_levels l c Hall).
  assert (Hs : (inject_Z (sum l) == mean l * inject_Z (len l))%Q).
  { unfold mean. field. lra. }
  unfold Z.sub.
  rewrite !inject_Z_plus, inject_Z_opp, !inject_Z_mult, !inject_Z_plus,
    !inject_Z_mult, Hs.
  change (inject_Z 2) with 2%Q. change (inject_Z 1) with 1%Q.
  set (m := mean l) in *. set (n := inject_Z (len l)) in *.
  set (k := inject_Z c).
  clearbody m n k. clear Hs.
  pose proof (two_level_spread m k) as Ht.
  apply (Qle_lt_trans _ (n * ((m - k) * (k + 1 - m)))).
  - apply Qle_lteq. right. ring.
  - set (t := ((m - k) * (k + 1 - m))%Q) in *. clearbody t.
    clear - Hn Ht. nra.
Qed.

(** X3: [calculate_prediction_confidence] returns one of "High", "Medium",
    "Low" on every list; fewer than five values give "Low" whatever they
    are; five or more values that all lie on two adjacent levels c and c+1
    (in particular equal values) give "High", their variance being at most
    1/4. *)
Theorem confidence_levels (mood_values : list Z) :
  (exists level,
      Views.calculate_prediction_confidence mood_values = Ok level
      /\ (level = "High" \/ level = "Medium" \/ level = "Low")%string)
  /\ ((length mood_values < 5)%nat ->
      Views.calculate_prediction_confidence mood_values = Ok "Low"%string)
  /\ ((5 <= length mood_values)%nat ->
      forall c, Forall (fun x => c <= x <= c + 1) mood_values ->
      Views.calculate_prediction_confidence mood_values
      = Ok "High"%string).
Proof.
  split; [|split].
  - unfold Views.calculate_prediction_confidence.
    destruct (len mood_values <? 5) eqn:E; [eauto 6|].
    apply Z.ltb_ge in E.
    rewrite truediv_Z by lia. cbn [bind].
    rewrite truediv_Z by lia. cbn [bind].
    destruct (Qltb _ 1); [eauto 6|].
    destruct (Qltb _ 4); eauto 6.
  - intros Hn. unfold Views.calculate_prediction_confidence.
    replace (len mood_values <? 5) with true; [reflexivity|].
    symmetry. apply Z.ltb_lt. unfold len. lia.
  - intros Hn c Hall. unfold Views.calculate_prediction_confidence.
    replace (len mood_values <? 5) with false
      by (symmetry; apply Z.ltb_ge; unfold len; lia).
    rewrite truediv_Z by (unfold len; lia). cbn [bind].
    rewrite truediv_Z by (unfold len; lia). cbn [bind].
    fold (mean mood_values).
    assert (Hne : mood_values <> []).
    { intros ->. simpl in Hn. lia. }
    rewrite (proj2 (Qltb_lt _ _) (variance_two_levels _ c Hne Hall)).
    reflexivity.
Qed.

Lemma confidence_levels_witness :
  Views.calculate_prediction_confidence [5; 6; 6; 5; 6] = Ok "High"%string.
Proof.
  apply (proj2 (proj2 (confidence_levels [5; 6; 6; 5; 6]))) with (c := 5).
  - simpl. lia.
  - repeat constructor; lia.
Defined.

(** ** Weekly forecaster: shape and monotonicity *)

Lemma round_half_even_mono (x y : Q) :
  (x <= y)%Q -> round_half_even x <= round_half_even y.
Proof.
  intros Hxy.
  pose proof (Qfloor_resp_le _ _ Hxy) as Hf.
  pose proof (round_half_even_bounds x) as [_ Hx].
  pose proof (round_half_even_bounds y) as [Hy _].
  destruct (Z.eq_dec (Qfloor x) (Qfloor y)) as [E|NE]; [|lia].
  unfold round_half_even. rewrite <- E.
  destruct (Qcompare (x - inject_Z (Qfloor x)) (1 # 2)) eqn:Cx;
    destruct (Qcompare (y - inject_Z (Qfloor x)) (1 # 2)) eqn:Cy;
    try (destruct (Z.even (Qfloor x)); lia); try lia; exfalso.
  - apply Qeq_alt in Cx. apply Qlt_alt in Cy. lra.
  - apply Qgt_alt in Cx. apply Qeq_alt in Cy. lra.
  - apply Qgt_alt in Cx. apply Qlt_alt in Cy. lra.
Qed.

Lemma round1_mono (x y : Q) : (x <= y)%Q -> (round1 x <= round1 y)%Q.
Proof.
  intros Hxy. unfold round1.
  assert (H : round_half_even (x * 10) <= round_half_even (y * 10)).
  { apply round_half_even_mono. lra. }
  revert H.
  generalize (round_half_even (x * 10)), (round_half_even (y * 10)).
  intros r s Hrs.
  unfold Qle, Qdiv, Qmult, Qinv, inject_Z; simpl. lia.
Qed.

Lemma clamp_min_max_mono (x y : Q) :
  (x <= y)%Q -> (min 10 (max 1 x) <= min 10 (max 1 y))%Q.
Proof.
  intros Hxy. unfold min, max.
  destruct (Qltb 1 x) eqn:Ex; destruct (Qltb 1 y) eqn:Ey;
    try apply Qltb_lt in Ex; try apply Qltb_ge in Ex;
    try apply Qltb_lt in Ey; try apply Qltb_ge in Ey;
    repeat match goal with
           | |- context [Qltb ?a ?b] =>
               let E := fresh "E" in
               destruct (Qltb a b) eqn:E;
               [apply Qltb_lt in E|apply Qltb_ge in E]
           end; lra.
Qed.

Lemma clamp_min_max_compat (x y : Q) :
  (x == y)%Q -> (min 10 (max 1 x) == min 10 (max 1 y))%Q.
Proof.
  intros Hxy. apply Qle_antisym; apply clamp_min_max_mono; lra.
Qed.

Lemma clamp_min_max_in_range (q : Q) :
  in_forecast_range q -> (min 10 (max 1 q) == q)%Q.
Proof.
  intros [Hlo Hhi]. unfold max, min.
  destruct (Qltb 1 q) eqn:E1.
  - destruct (Qltb q 10) eqn:E2; [reflexivity|].
    apply Qltb_ge in E2. lra.
  - apply Qltb_ge in E1.
    destruct (Qltb 1 10) eqn:E2; [lra|]. apply Qltb_ge in E2. lra.
Qed.

Lemma forecast_day_mono_up (base_mood : Z) (slope : Q) (i j : Z) :
  (0 <= slope)%Q -> i <= j ->
  (Views.forecast_day base_mood slope i
   <= Views.forecast_day base_mood slope j)%Q.
Proof.
  intros Hs Hij. unfold Views.forecast_day.
  apply round1_mono, clamp_min_max_mono.
  assert (H : (inject_Z (i + 1) <= inject_Z (j + 1))%Q).
  { unfold Qle, inject_Z; simpl. lia. }
  nra.
Qed.

Lemma forecast_day_mono_down (base_mood : Z) (slope : Q) (i j : Z) :
  (slope <= 0)%Q -> i <= j ->
  (Views.forecast_day base_mood slope j
   <= Views.forecast_day base_mood slope i)%Q.
Proof.
  intros Hs Hij. unfold Views.forecast_day.
  apply round1_mono, clamp_min_max_mono.
  assert (H : (inject_Z (i + 1) <= inject_Z (j + 1))%Q).
  { unfold Qle, inject_Z; simpl. lia. }
  nra.
Qed.

Lemma forecast_day_flat (base_mood : Z) (slope : Q) (i : Z) :
  in_mood_range base_mood -> (slope == 0)%Q ->
  (Views.forecast_day base_mood slope i == inject_Z base_mood)%Q.
Proof.
  intros [Hlo Hhi] Hs. unfold Views.forecast_day.
  apply round1_integer.
  rewrite (clamp_min_max_compat _ (inject_Z base_mood))
    by (rewrite Hs; ring).
  apply clamp_min_max_in_range.
  unfold in_forecast_range, Qle, inject_Z; simpl. lia.
Qed.

Lemma nth_map_range {B} (f : Z -> B) (n i : nat) (d : B) :
  (i < n)%nat -> nth i (map f (range n)) d = f (Z.of_nat i).
Proof.
  intros Hi. unfold range. rewrite map_map.
  rewrite (nth_indep _ d (f (Z.of_nat 0)))
    by (rewrite length_map, length_seq; lia).
  rewrite (map_nth (fun x => f (Z.of_nat x)) (seq 0 n) 0%nat i).
  now rewrite seq_nth.
Qed.

Lemma sumQ_range (l : list Q) :
  Forall in_forecast_range l ->
  (inject_Z (len l) <= sumQ l)%Q /\ (sumQ l <= 10 * inject_Z (len l))%Q.
Proof.
  induction 1 as [|x l [Hx1 Hx2] Hl [IH1 IH2]].
  - split; unfold sumQ, len, inject_Z; simpl; lra.
  - rewrite sumQ_cons, len_cons, inject_Z_plus.
    change (inject_Z 1) with 1%Q. split; lra.
Qed.

(** The record of the weekly forecaster on a non-empty history. *)
Lemma predict_week_from_shape (recent_moods : list MoodEntry.t) :
  recent_moods <> [] ->
  let mood_values := map MoodEntry.mood recent_moods in
  exists slope d,
    Views.weekly_slope mood_values (mean mood_values) = Ok slope
    /\ Views.predict_week_from recent_moods = Ok d
    /\ keys d = ["prediction"; "confidence"; "message"; "weekly_forecast";
                 "avg_predicted"]%string
    /\ get "weekly_forecast" d
       = Some (VNumList (map (Views.forecast_day (last mood_values 0) slope)
                             (range 7)))
    /\ get "avg_predicted" d
       = Some (VFloat (round1
            (sumQ (map (Views.forecast_day (last mood_values 0) slope)
                       (range 7)) / 7)))
    /\ get "confidence" d
       = Some (VStr (if 7 <=? len mood_values then "high"
                     else if 3 <=? len mood_values then "medium"
                     else "low")).
Proof.
  intros Hne mood_values. unfold Views.predict_week_from.
  rewrite (proj2 (exists_true _) Hne). cbn [negb]. fold mood_values.
  assert (Hmv : mood_values <> []).
  { subst mood_values. destruct recent_moods; [congruence|discriminate]. }
  rewrite mean_truediv by exact Hmv. cbn [bind].
  destruct (weekly_slope_returns mood_values (mean mood_values))
    as [slope Hs].
  rewrite Hs. cbn [bind].
  rewrite (proj2 (exists_true _) Hmv). unfold last_or.
  replace (inject_Z (len (map (Views.forecast_day (last mood_values 0) slope)
                              (range 7)))) with 7%Q
    by (unfold len; rewrite length_map_range; reflexivity).
  rewrite truediv_nonzero by (intros H; discriminate H). cbn [bind].
  exists slope.
  destruct (Qle_bool 7 _); [|destruct (Qle_bool 4 _)];
    eexists; repeat split; reflexivity.
Qed.

Lemma weekly_slope_constant (c : Z) (n : nat) :
  (1 <= n)%nat ->
  exists slope,
    Views.weekly_slope (repeat c n) (mean (repeat c n)) = Ok slope
    /\ (slope == 0)%Q.
Proof.
  intros Hn. unfold Views.weekly_slope.
  destruct (1 <? len (repeat c n)) eqn:E;
    [|exists 0%Q; split; reflexivity].
  apply Z.ltb_lt in E. unfold len in E. rewrite repeat_length in E.
  rewrite repeat_length.
  rewrite truediv_Z by (unfold len; rewrite length_range; lia).
  cbn [bind].
  rewrite truediv_nonzero.
  2:{ intros H0.
      pose proof (centred_squares_pos n
        (inject_Z (sum (range n)) / inject_Z (len (range n)))%Q) as Hpos.
      rewrite H0 in Hpos. assert (2 <= n)%nat by lia.
      specialize (Hpos H). lra. }
  eexists. split; [reflexivity|].
  rewrite sumQ_all_zero; [now field; intros H0;
    pose proof (centred_squares_pos n
      (inject_Z (sum (range n)) / inject_Z (len (range n)))%Q
      ltac:(lia)) as Hpos; rewrite H0 in Hpos; lra|].
  apply Forall_forall. intros q Hq.
  apply in_map_iff in Hq as ([x y] & <- & Hxy).
  apply in_combine_r, repeat_spec in Hxy. subst y. cbn [fst snd].
  rewrite mean_repeat by lia. ring.
Qed.

(** X4: the seven values of the weekly forecast never decrease from one day
    to the next when the regression slope is non-negative, and never
    increase when it is non-positive. *)
Theorem weekly_forecast_monotone (recent_moods : list MoodEntry.t) :
  recent_moods <> [] ->
  exists slope weekly_forecast d,
    Views.weekly_slope (map MoodEntry.mood recent_moods)
      (mean (map MoodEntry.mood recent_moods)) = Ok slope
    /\ Views.predict_week_from recent_moods = Ok d
    /\ get "weekly_forecast" d = Some (VNumList weekly_forecast)
    /\ ((0 <= slope)%Q ->
        forall i j, (i <= j < 7)%nat ->
          (nth i weekly_forecast 0 <= nth j weekly_forecast 0)%Q)
    /\ ((slope <= 0)%Q ->
        forall i j, (i <= j < 7)%nat ->
          (nth j weekly_forecast 0 <= nth i weekly_forecast 0)%Q).
Proof.
  intros Hne.
  destruct (predict_week_from_shape recent_moods Hne)
    as (slope & d & Hs & Hd & _ & Hwf & _).
  exists slope. eexists. exists d.
  split; [exact Hs|]. split; [exact Hd|]. split; [exact Hwf|].
  split; intros Hsl i j Hij; rewrite !nth_map_range by lia.
  - apply forecast_day_mono_up; [exact Hsl|lia].
  - apply forecast_day_mono_down; [exact Hsl|lia].
Qed.

Lemma weekly_forecast_monotone_witness :
  exists d,
    Views.predict_week_from [mood_entry_on 1 4 0; mood_entry_on 1 6 1]
    = Ok d.
Proof.
  destruct (weekly_forecast_monotone
              [mood_entry_on 1 4 0; mood_entry_on 1 6 1])
    as (slope & weekly_forecast & d & _ & Hd & _).
  - discriminate.
  - exists d. exact Hd.
Defined.

(** X5: when every entry of a non-empty window has the same mood c in 1..10,
    the weekly forecast is seven times c. *)
Theorem weekly_forecast_of_constant_history (recent_moods : list MoodEntry.t)
  (c : Z) :
  recent_moods <> [] ->
  in_mood_range c ->
  (forall e, In e recent_moods -> MoodEntry.mood e = c) ->
  exists weekly_forecast d,
    Views.predict_week_from recent_moods = Ok d
    /\ get "weekly_forecast" d = Some (VNumList weekly_forecast)
    /\ length weekly_forecast = 7%nat
    /\ Forall (fun q => (q == inject_Z c)%Q) weekly_forecast.
Proof.
  intros Hne Hc Hall.
  assert (Hrep : map MoodEntry.mood recent_moods
                 = repeat c (length recent_moods)).
  { clear Hne. induction recent_moods as [|e l IH]; [reflexivity|].
    simpl. rewrite (Hall e) by now left.
    rewrite IH; [reflexivity|]. intros e' He'. apply Hall. now right. }
  assert (Hn : (1 <= length recent_moods)%nat).
  { destruct recent_moods; [congruence|simpl; lia]. }
  destruct (predict_week_from_shape recent_moods Hne)
    as (slope & d & Hs & Hd & _ & Hwf & _).
  rewrite Hrep in Hs, Hwf.
  destruct (weekly_slope_constant c (length recent_moods) Hn)
    as (slope' & Hs' & Hzero).
  rewrite Hs in Hs'. injection Hs' as <-.
  assert (Hlast : last (repeat c (length recent_moods)) 0 = c).
  { destruct (length recent_moods) as [|k]; [lia|]. clear.
    induction k as [|k IH]; [reflexivity|].
    change (repeat c (S (S k))) with (c :: repeat c (S k)).
    simpl last. exact IH. }
  rewrite Hlast in Hwf.
  eexists. exists d. split; [exact Hd|]. split; [exact Hwf|].
  split; [apply length_map_range|].
  apply Forall_forall. intros q Hq.
  apply in_map_iff in Hq as (i & <- & _).
  now apply forecast_day_flat.
Qed.

Lemma weekly_forecast_of_constant_history_witness :
  exists weekly_forecast d,
    Views.predict_week_from
      [mood_entry_on 1 6 0; mood_entry_on 1 6 1; mood_entry_on 1 6 2] = Ok d
    /\ get "weekly_forecast" d = Some (VNumList weekly_forecast)
    /\ length weekly_forecast = 7%nat
    /\ Forall (fun q => (q == inject_Z 6)%Q) weekly_forecast.
Proof.
  apply weekly_forecast_of_constant_history.
  - discriminate.
  - unfold in_mood_range. lia.
  - intros e [<-|[<-|[<-|[]]]]; reflexivity.
Defined.

(** X6: for a non-empty window the weekly forecaster returns the five keys
    prediction, confidence, message, weekly_forecast, avg_predicted; the
    reported average lies in [1, 10]; the confidence is "high" from seven
    entries on, "medium" for three to six and "low" below three. *)
Theorem weekly_record_shape (recent_moods : list MoodEntry.t) :
  recent_moods <> [] ->
  exists d avg_predicted,
    Views.predict_week_from recent_moods = Ok d
    /\ keys d = ["prediction"; "confidence"; "message"; "weekly_forecast";
                 "avg_predicted"]%string
    /\ get "avg_predicted" d = Some (VFloat avg_predicted)
    /\ in_forecast_range avg_predicted
    /\ (get "confidence" d = Some (VStr "high")
        <-> (7 <= length recent_moods)%nat)
    /\ (get "confidence" d = Some (VStr "medium")
        <-> (3 <= length recent_moods < 7)%nat)
    /\ (get "confidence" d = Some (VStr "low")
        <-> (length recent_moods < 3)%nat).
Proof.
  intros Hne.
  destruct (predict_week_from_shape recent_moods Hne)
    as (slope & d & _ & Hd & Hk & _ & Havg & Hconf).
  exists d. eexists. split; [exact Hd|]. split; [exact Hk|].
  split; [exact Havg|]. split.
  { apply round1_range.
    set (wf := map _ (range 7)).
    assert (Hwf : Forall in_forecast_range wf).
    { apply Forall_forall. intros q Hq.
      apply in_map_iff in Hq as (i & <- & _). apply forecast_day_range. }
    destruct (sumQ_range wf Hwf) as [Hlo Hhi].
    replace (inject_Z (len wf)) with 7%Q in Hlo, Hhi
      by (unfold len, wf; rewrite length_map_range; reflexivity).
    split.
    - apply Qle_shift_div_l; lra.
    - apply Qle_shift_div_r; lra. }
  rewrite Hconf, len_map. unfold len.
  destruct (Z.leb_spec 7 (Z.of_nat (length recent_moods)));
    [|destruct (Z.leb_spec 3 (Z.of_nat (length recent_moods)))];
    repeat match goal with |- _ /\ _ => split end;
    (split; intros Hx; [try discriminate Hx|try reflexivity]; lia).
Qed.

Lemma weekly_record_shape_witness :
  exists d,
    Views.predict_week_from [mood_entry_on 1 4 0; mood_entry_on 1 6 1] = Ok d
    /\ get "confidence" d = Some (VStr "low").
Proof.
  destruct (weekly_record_shape [mood_entry_on 1 4 0; mood_entry_on 1 6 1])
    as (d & avg & Hd & _ & _ & _ & _ & _ & Hlow).
  - discriminate.
  - exists d. split; [exact Hd|]. apply Hlow. simpl. lia.
Defined.

(** ** Trend records of the two variants *)

Lemma views_analyze_record (recent_moods : list MoodEntry.t) (slope : Q) :
  recent_moods <> [] ->
  (forall avg_mood, Views.trend_slope recent_moods avg_mood = Ok slope) ->
  let avg_mood := mean (map MoodEntry.mood recent_moods) in
  Views.analyze_recent_moods recent_moods
  = Ok [ ("trend", VStr (fst (fst (Views.classify slope))));
         ("mood_level", VStr (fst (Views.mood_range avg_mood)));
         ("avg_mood", VFloat (round1 avg_mood));
         ("message", VStr (snd (fst (Views.classify slope))));
         ("additional_message", VStr (snd (Views.mood_range avg_mood)));
         ("recommendations", VStrList (snd (Views.classify slope)));
         ("data_points", VInt (len recent_moods)) ]%string.
Proof.
  intros Hne Hslope avg_mood. subst avg_mood.
  unfold mean. rewrite len_map.
  unfold Views.analyze_recent_moods, Views.avg_mood_of.
  rewrite (proj2 (exists_true _) Hne). cbn [negb].
  rewrite truediv_Z by (pose proof (len_pos _ Hne); lia).
  cbn [bind]. rewrite Hslope. cbn [bind].
  destruct (Views.classify slope) as [[trend message] recommendations].
  destruct (Views.mood_range _) as [mood_level additional_message].
  reflexivity.
Qed.

Lemma api_analyze_record (recent_moods : list MoodEntry.t) (slope : Q) :
  recent_moods <> [] ->
  (forall avg_mood, Api.trend_slope recent_moods avg_mood = Ok slope) ->
  let avg_mood := mean (map MoodEntry.mood recent_moods) in
  Api.analyze_recent_moods recent_moods
  = Ok [ ("trend", VStr (fst (Api.classify slope)));
         ("avg_mood", VFloat (round1 avg_mood));
         ("message", VStr (snd (Api.classify slope)));
         ("data_points", VInt (len recent_moods)) ]%string.
Proof.
  intros Hne Hslope avg_mood. subst avg_mood.
  unfold mean. rewrite len_map.
  unfold Api.analyze_recent_moods, Api.avg_mood_of.
  rewrite (proj2 (exists_true _) Hne). cbn [negb].
  rewrite truediv_Z by (pose proof (len_pos _ Hne); lia).
  cbn [bind]. rewrite Hslope. cbn [bind].
  destruct (Api.classify slope) as [trend message].
  reflexivity.
Qed.

Lemma classify_messages_agree (slope : Q) :
  fst (Api.classify slope) = fst (fst (Views.classify slope))
  /\ snd (Api.classify slope) = snd (fst (Views.classify slope)).
Proof.
  unfold Api.classify, Views.classify.
  destruct (Qltb (1 # 2) slope); [split; reflexivity|].
  destruct (Qltb slope (- (1 # 2))); split; reflexivity.
Qed.

(** X7: on every history both variants of [analyze_mood_trends] return, the
    keys of the API record are keys of the dashboard record, and the two
    records hold the same value under each of them. *)
Theorem api_record_is_dashboard_record_restricted
  (recent_moods : list MoodEntry.t) :
  exists d d',
    Views.analyze_recent_moods recent_moods = Ok d
    /\ Api.analyze_recent_moods recent_moods = Ok d'
    /\ (forall k, In k (keys d') -> get k d' = get k d)
    /\ incl (keys d') (keys d).
Proof.
  destruct recent_moods as [|e l].
  - exists Views.no_data, Api.no_data.
    split; [reflexivity|]. split; [reflexivity|]. split; [reflexivity|].
    apply incl_refl.
  - destruct (trend_slope_returns (e :: l)) as (slope & Hv & Ha & _).
    assert (Hne : e :: l <> []) by discriminate.
    pose proof (views_analyze_record (e :: l) slope Hne Hv) as Hd.
    pose proof (api_analyze_record (e :: l) slope Hne Ha) as Hd'.
    cbv zeta in Hd, Hd'.
    destruct (classify_messages_agree slope) as [Ht Hm].
    rewrite Ht, Hm in Hd'.
    eexists. eexists. split; [exact Hd|]. split; [exact Hd'|].
    split.
    + intros k Hk. simpl in Hk.
      destruct Hk as [<-|[<-|[<-|[<-|[]]]]]; reflexivity.
    + intros k Hk. simpl in Hk |- *. tauto.
Qed.

Lemma mood_range_levels (avg_mood : Q) :
  (fst (Views.mood_range avg_mood) = "excellent"%string
   <-> (8 <= avg_mood)%Q)
  /\ (fst (Views.mood_range avg_mood) = "good"%string
      <-> (6 <= avg_mood)%Q /\ (avg_mood < 8)%Q)
  /\ (fst (Views.mood_range avg_mood) = "moderate"%string
      <-> (4 <= avg_mood)%Q /\ (avg_mood < 6)%Q)
  /\ (fst (Views.mood_range avg_mood) = "needs_attention"%string
      <-> (avg_mood < 4)%Q).
Proof.
  unfold Views.mood_range.
  destruct (Qle_bool 8 avg_mood) eqn:E8.
  { apply Qle_bool_iff in E8. cbn [fst].
    repeat match goal with |- _ /\ _ => split end;
      (split; intros Hx; [try discriminate Hx|try reflexivity];
       try tauto; exfalso; lra). }
  assert (H8 : (avg_mood < 8)%Q).
  { apply Qnot_le_lt. intros H. apply Qle_bool_iff in H. congruence. }
  destruct (Qle_bool 6 avg_mood) eqn:E6.
  { apply Qle_bool_iff in E6. cbn [fst].
    repeat match goal with |- _ /\ _ => split end;
      (split; intros Hx; [try discriminate Hx|try reflexivity];
       try tauto; exfalso; lra). }
  assert (H6 : (avg_mood < 6)%Q).
  { apply Qnot_le_lt. intros H. apply Qle_bool_iff in H. congruence. }
  destruct (Qle_bool 4 avg_mood) eqn:E4.
  { apply Qle_bool_iff in E4. cbn [fst].
    repeat match goal with |- _ /\ _ => split end;
      (split; intros Hx; [try discriminate Hx|try reflexivity];
       try tauto; exfalso; lra). }
  assert (H4 : (avg_mood < 4)%Q).
  { apply Qnot_le_lt. intros H. apply Qle_bool_iff in H. congruence. }
  cbn [fst].
  repeat match goal with |- _ /\ _ => split end;
    (split; intros Hx; [try discriminate Hx|try reflexivity];
     try tauto; exfalso; lra).
Qed.

Lemma views64_analyze_record (recent_moods : list MoodEntry.t) (slope : Q) :
  recent_moods <> [] ->
  (forall avg_mood, Views64.trend_slope recent_moods avg_mood = Ok slope) ->
  let avg_mood := Binary64.nearest (mean (map MoodEntry.mood recent_moods)) in
  Views64.analyze_recent_moods recent_moods
  = Ok [ ("trend", VStr (fst (fst (Views.classify slope))));
         ("mood_level", VStr (fst (Views.mood_range avg_mood)));
         ("avg_mood", VFloat (Binary64.round1 avg_mood));
         ("message", VStr (snd (fst (Views.classify slope))));
         ("additional_message", VStr (snd (Views.mood_range avg_mood)));
         ("recommendations", VStrList (snd (Views.classify slope)));
         ("data_points", VInt (len recent_moods)) ]%string.
Proof.
  intros Hne Hslope avg_mood. subst avg_mood.
  unfold mean. rewrite len_map.
  unfold Views64.analyze_recent_moods, Views64.avg_mood_of.
  rewrite (proj2 (exists_true _) Hne). cbn [negb].
  rewrite b64_truediv by (pose proof (len_pos _ Hne); lia).
  cbn [bind]. rewrite Hslope. cbn [bind].
  destruct (Views.classify slope) as [[trend message] recommendations].
  destruct (Views.mood_range _) as [mood_level additional_message].
  reflexivity.
Qed.

(** X8: for a non-empty history of at most 10^6 moods in 1..10 the
    dashboard record, computed in binary64, reports data_points = number of
    entries and as avg_mood the float of a one-decimal number tenths/10,
    where tenths is an integer of 10..100 within 1/2 of ten times the exact
    mean (the nearest tenth; at a tie the rounding of the mean decides); the
    mood level is the one of the exact mean: "excellent" from 8, "good" from
    6, "moderate" from 4, "needs_attention" below. *)
Theorem dashboard_trend_record_values (recent_moods : list MoodEntry.t) :
  recent_moods <> [] ->
  Forall in_mood_range (map MoodEntry.mood recent_moods) ->
  len recent_moods <= max_history ->
  let avg := mean (map MoodEntry.mood recent_moods) in
  exists d level tenths,
    Views64.analyze_recent_moods recent_moods = Ok d
    /\ get "data_points" d = Some (VInt (Z.of_nat (length recent_moods)))
    /\ get "avg_mood" d
       = Some (VFloat (Binary64.nearest (inject_Z tenths / 10)))
    /\ 10 <= tenths <= 100
    /\ (Qabs (inject_Z tenths - avg * 10) <= 1 # 2)%Q
    /\ in_forecast_range avg
    /\ get "mood_level" d = Some (VStr level)
    /\ (level = "excellent"%string <-> (8 <= avg)%Q)
    /\ (level = "good"%string <-> (6 <= avg)%Q /\ (avg < 8)%Q)
    /\ (level = "moderate"%string <-> (4 <= avg)%Q /\ (avg < 6)%Q)
    /\ (level = "needs_attention"%string <-> (avg < 4)%Q).
Proof.
  intros Hne Hall Hmax avg.
  destruct (trend_slope64_returns recent_moods) as (slope & Hv & _).
  pose proof (views64_analyze_record recent_moods slope Hne Hv) as Hd.
  cbv zeta in Hd. fold avg in Hd.
  assert (Hne' : map MoodEntry.mood recent_moods <> []).
  { destruct recent_moods; [congruence|discriminate]. }
  assert (Hmax' : len (map MoodEntry.mood recent_moods) <= max_history)
    by now rewrite len_map.
  assert (Havg : in_forecast_range avg).
  { apply mean_in_range; [|exact Hall].
    destruct recent_moods; [congruence|discriminate]. }
  destruct (tenths_of_rounded_mean _ Hne' Hall Hmax') as [Ht Hc].
  fold avg in Ht, Hc.
  pose proof (rounded_mean_threshold _ 8 Hne' Hall Hmax' ltac:(lia)) as T8.
  pose proof (rounded_mean_threshold _ 6 Hne' Hall Hmax' ltac:(lia)) as T6.
  pose proof (rounded_mean_threshold _ 4 Hne' Hall Hmax' ltac:(lia)) as T4.
  fold avg in T8, T6, T4.
  change (inject_Z 8) with 8%Q in T8. change (inject_Z 6) with 6%Q in T6.
  change (inject_Z 4) with 4%Q in T4.
  eexists. exists (fst (Views.mood_range (Binary64.nearest avg))).
  exists (round_half_even (Binary64.nearest avg * 10)).
  split; [exact Hd|].
  split; [reflexivity|]. split; [reflexivity|]. split; [exact Ht|].
  split; [exact Hc|]. split; [exact Havg|]. split; [reflexivity|].
  destruct (mood_range_levels (Binary64.nearest avg)) as (L1 & L2 & L3 & L4).
  revert T8 T6 T4 L1 L2 L3 L4.
  generalize (fst (Views.mood_range (Binary64.nearest avg)))
             (Binary64.nearest avg).
  intros level a T8 T6 T4 L1 L2 L3 L4.
  assert (N8 : (a < 8)%Q <-> (avg < 8)%Q).
  { split; intros H; apply Qnot_le_lt; intros H'; apply T8 in H'; lra. }
  assert (N6 : (a < 6)%Q <-> (avg < 6)%Q).
  { split; intros H; apply Qnot_le_lt; intros H'; apply T6 in H'; lra. }
  assert (N4 : (a < 4)%Q <-> (avg < 4)%Q).
  { split; intros H; apply Qnot_le_lt; intros H'; apply T4 in H'; lra. }
  rewrite L1, L2, L3, L4. tauto.
Qed.

Lemma dashboard_trend_record_values_witness :
  exists d,
    Views64.analyze_recent_moods
      (map (fun d => mood_entry_on 1 (if d <? 7 then 7 else 6) d) (range 20))
    = Ok d
    /\ get "avg_mood" d = Some (VFloat (Binary64.nearest (63 # 10)))
    /\ get "mood_level" d = Some (VStr "good").
Proof.
  destruct (dashboard_trend_record_values
              (map (fun d => mood_entry_on 1 (if d <? 7 then 7 else 6) d)
                   (range 20)))
    as (d & level & tenths & Hd & _).
  - discriminate.
  - vm_compute. repeat constructor; discriminate.
  - vm_compute. discriminate.
  - exists d. split; [exact Hd|].
    vm_compute in Hd. injection Hd as <-. split; reflexivity.
Defined.

(** ** Reading a history in the opposite order *)

Lemma sum_rev (l : list Z) : sum (rev l) = sum l.
Proof.
  induction l as [|x l IH]; [reflexivity|].
  simpl rev. rewrite sum_app, IH, !sum_cons. change (sum []) with 0. lia.
Qed.

Lemma mean_rev (l : list Z) : mean (rev l) = mean l.
Proof. unfold mean, len. now rewrite sum_rev, length_rev. Qed.

Lemma even_half (n : nat) : Nat.even n = true -> (n - n / 2 = n / 2)%nat.
Proof.
  intros He. apply Nat.even_spec in He as [k ->].
  rewrite Nat.mul_comm, Nat.div_mul by lia. lia.
Qed.

Lemma halves_of_rev (l : list Z) :
  Nat.even (length l) = true ->
  mean (firstn (length l / 2) (rev l)) = mean (skipn (length l / 2) l)
  /\ mean (skipn (length l / 2) (rev l)) = mean (firstn (length l / 2) l).
Proof.
  intros He. rewrite firstn_rev, skipn_rev, even_half by exact He.
  now rewrite !mean_rev.
Qed.

(** X9: for a history of even length, reading the entries in the opposite
    order negates the slope of [analyze_mood_trends] and exchanges the
    labels "improving" and "declining"; the same exchange happens in the
    trend block of [ai_mood_prediction], whose query lists the newest entry
    first. *)
Theorem reversed_history_swaps_trend (recent_moods : list MoodEntry.t) :
  Nat.even (length recent_moods) = true ->
  exists slope slope_rev,
    (forall avg_mood, Views.trend_slope recent_moods avg_mood = Ok slope)
    /\ (forall avg_mood,
          Views.trend_slope (rev recent_moods) avg_mood = Ok slope_rev)
    /\ (slope_rev == - slope)%Q
    /\ (trend_label slope_rev = "improving"%string
        <-> trend_label slope = "declining"%string)
    /\ (trend_label slope_rev = "declining"%string
        <-> trend_label slope = "improving"%string)
    /\ (trend_label slope_rev = "stable"%string
        <-> trend_label slope = "stable"%string)
    /\ (forall db user,
          (7 <= length recent_moods)%nat ->
          exists p p' label label',
            Views.prediction_data_from db user recent_moods = Ok (Some p)
            /\ Views.prediction_data_from db user (rev recent_moods)
               = Ok (Some p')
            /\ get "trend" p = Some (VStr label)
            /\ get "trend" p' = Some (VStr label')
            /\ (label' = "improving"%string <-> label = "declining"%string)
            /\ (label' = "declining"%string <-> label = "improving"%string)
            /\ (label' = "stable"%string <-> label = "stable"%string)).
Proof.
  intros He.
  set (y := map MoodEntry.mood recent_moods).
  assert (Hy : length y = length recent_moods) by apply length_map.
  assert (Hey : Nat.even (length y) = true) by now rewrite Hy.
  destruct (halves_of_rev y Hey) as [Hf Hs]. rewrite Hy in Hf, Hs.
  destruct (trend_slope_returns recent_moods)
    as (slope & Hv & _ & Hsmall & Hlarge).
  destruct (trend_slope_returns (rev recent_moods))
    as (slope_rev & Hv' & _ & Hsmall' & Hlarge').
  rewrite length_rev, map_rev in *. fold y in Hlarge, Hlarge'.
  assert (Hneg : (slope_rev == - slope)%Q).
  { destruct (Nat.lt_ge_cases (length recent_moods) 3) as [Hlt|Hge].
    - rewrite (Hsmall Hlt), (Hsmall' Hlt). reflexivity.
    - rewrite (Hlarge Hge), (Hlarge' Hge), Hf, Hs. ring. }
  exists slope, slope_rev.
  split; [exact Hv|]. split; [exact Hv'|]. split; [exact Hneg|].
  destruct (trend_label_cases slope) as (Hi & Hd & Hst).
  destruct (trend_label_cases slope_rev) as (Hi' & Hd' & Hst').
  split; [rewrite Hi', Hd, Hneg; split; intros; lra|].
  split; [rewrite Hd', Hi, Hneg; split; intros; lra|].
  split.
  { rewrite Hst', Hst, Hneg. split; intros [H1 H2]; split; intros H; lra. }
  intros db user Hn.
  destruct (prediction_data_trend db user recent_moods Hn) as (p & Hp & Ht).
  destruct (prediction_data_trend db user (rev recent_moods))
    as (p' & Hp' & Ht'); [rewrite length_rev; exact Hn|].
  rewrite length_rev, map_rev in Ht'. fold y in Ht, Ht'.
  rewrite Hf, Hs in Ht'.
  exists p, p'. eexists. eexists.
  split; [exact Hp|]. split; [exact Hp'|].
  split; [exact Ht|]. split; [exact Ht'|].
  destruct (half_trend_cases (mean (firstn (length recent_moods / 2) y))
                             (mean (skipn (length recent_moods / 2) y)))
    as (Ha & Hb & Hc).
  destruct (half_trend_cases (mean (skipn (length recent_moods / 2) y))
                             (mean (firstn (length recent_moods / 2) y)))
    as (Ha' & Hb' & Hc').
  split; [rewrite Ha', Hb; tauto|].
  split; [rewrite Hb', Ha; tauto|].
  rewrite Hc', Hc. split; intros H; now symmetry.
Qed.

Lemma reversed_history_swaps_trend_witness :
  exists slope slope_rev,
    (forall avg_mood,
        Views.trend_slope
          [mood_entry_on 1 2 0; mood_entry_on 1 3 1; mood_entry_on 1 8 2;
           mood_entry_on 1 9 3] avg_mood = Ok slope)
    /\ (slope_rev == - slope)%Q.
Proof.
  destruct (reversed_history_swaps_trend
              [mood_entry_on 1 2 0; mood_entry_on 1 3 1; mood_entry_on 1 8 2;
               mood_entry_on 1 9 3])
    as (slope & slope_rev & Hs & _ & Hneg & _).
  - reflexivity.
  - exists slope, slope_rev. split; [exact Hs|exact Hneg].
Defined.

(** ** Recommendation engine: which entries survive *)

(** X10: for the trend "declining" the list is the two urgent messages and
    the first three bucket entries, whatever the journal count, and holds
    neither the journaling nor the wellness-games entry; for any other trend
    it is the four bucket entries followed by the journaling entry when the
    user has fewer than five journals, and by the wellness-games entry
    otherwise. *)
Theorem recommendations_by_trend (db : Store) (avg_mood : Q) (trend : string)
  (user : User) :
  let r := Views.generate_ai_recommendations db avg_mood trend user in
  let journal_count :=
    count (filter (fun j => Journal.user j =? user) (journals db)) in
  (trend = "declining"%string ->
   r = Views.urgent_support :: Views.urgent_contact
         :: firstn 3 (Views.bucket avg_mood)
   /\ ~ In Views.journaling_more r /\ ~ In Views.wellness_games r)
  /\ (trend <> "declining"%string -> journal_count < 5 ->
      r = Views.bucket avg_mood ++ [Views.journaling_more]
      /\ ~ In Views.wellness_games r)
  /\ (trend <> "declining"%string -> 5 <= journal_count ->
      r = Views.bucket avg_mood ++ [Views.wellness_games]
      /\ ~ In Views.journaling_more r).
Proof.
  intros r journal_count. subst r.
  unfold Views.generate_ai_recommendations, Views.assemble_recommendations,
    slice_to.
  fold journal_count.
  assert (Hb : exists a b c d,
             Views.bucket avg_mood = [a; b; c; d]
             /\ ~ In Views.journaling_more [a; b; c; d]
             /\ ~ In Views.wellness_games [a; b; c; d]
             /\ ~ In Views.journaling_more
                     [Views.urgent_support; Views.urgent_contact; a; b; c]
             /\ ~ In Views.wellness_games
                     [Views.urgent_support; Views.urgent_contact; a; b; c]).
  { unfold Views.bucket.
    destruct (Qltb avg_mood 4); [|destruct (Qltb avg_mood 6)];
      do 4 eexists; (split; [reflexivity|]);
      repeat split; intros H; simpl in H;
      repeat (destruct H as [H|H]; [discriminate H|]); exact H. }
  destruct Hb as (a & b & c & d & -> & Hj & Hg & Hj' & Hg').
  split; [|split].
  - intros ->. cbv [String.eqb Ascii.eqb Bool.eqb insert firstn skipn app].
    destruct (journal_count <? 5); cbn; auto.
  - intros Hnd Hc.
    rewrite (proj2 (String.eqb_neq _ _) Hnd).
    replace (journal_count <? 5) with true by (symmetry; lia).
    cbn. split; [reflexivity|].
    intros H. simpl in H.
    repeat (destruct H as [H|H]; [try discriminate H|]);
      try (apply Hg; simpl; tauto); try exact H.
  - intros Hnd Hc.
    rewrite (proj2 (String.eqb_neq _ _) Hnd).
    replace (journal_count <? 5) with false by (symmetry; lia).
    cbn. split; [reflexivity|].
    intros H. simpl in H.
    repeat (destruct H as [H|H]; [try discriminate H|]);
      try (apply Hj; simpl; tauto); try exact H.
Qed.

Lemma recommendations_by_trend_witness :
  Views.generate_ai_recommendations empty_store 7 "stable" 1
  = Views.bucket 7 ++ [Views.journaling_more]
  /\ ~ In Views.wellness_games
          (Views.generate_ai_recommendations empty_store 7 "stable" 1).
Proof.
  apply (recommendations_by_trend empty_store 7 "stable"%string 1).
  - discriminate.
  - reflexivity.
Defined.

(** ** Streak calculator: recurrence, bound, composition with [log_mood] *)

Lemma run_length_unique (P : Z -> Prop) (k1 k2 : Z) :
  0 <= k1 -> 0 <= k2 ->
  (forall i, 0 <= i < k1 -> P i) -> ~ P k1 ->
  (forall i, 0 <= i < k2 -> P i) -> ~ P k2 ->
  k1 = k2.
Proof.
  intros H1 H2 Ha1 Hn1 Ha2 Hn2.
  destruct (Z.lt_trichotomy k1 k2) as [Hlt|[Heq|Hgt]]; [|exact Heq|].
  - exfalso. apply Hn1, Ha2. lia.
  - exfalso. apply Hn2, Ha1. lia.
Qed.

Lemma streak_run (db : Store) (user : User) (now : datetime) :
  exists n,
    Views.calculate_streak db user now = Some n
    /\ 0 <= n
    /\ (forall i, 0 <= i < n -> logged_on db user (day now - i))
    /\ ~ logged_on db user (day now - n).
Proof.
  destruct (streak_loop_spec (S (length (mood_entries db))) db user (day now) 0)
    as (n & Hn & Hrun & Hall & Hend).
  { pose proof (entries_upto_le db user (day now)). lia. }
  exists n. rewrite Z.add_0_l in Hrun. auto.
Qed.

(** Two stores that agree on which days the user logged have the same
    streak. *)
Lemma streak_ext (db db' : Store) (user : User) (now now' : datetime) :
  day now = day now' ->
  (forall i, 0 <= i -> logged_on db user (day now - i)
                       <-> logged_on db' user (day now - i)) ->
  Views.calculate_streak db user now = Views.calculate_streak db' user now'.
Proof.
  intros Hday Hiff.
  destruct (streak_run db user now) as (n & -> & Hn & Hall & Hend).
  destruct (streak_run db' user now') as (n' & -> & Hn' & Hall' & Hend').
  rewrite <- Hday in Hall', Hend'. f_equal.
  apply (run_length_unique (fun i => logged_on db user (day now - i)));
    auto.
  - intros i Hi. apply Hiff; [lia|]. now apply Hall'.
  - intros H. apply Hend'. apply Hiff; [lia|exact H].
Qed.

Lemma api_calculate_streak (db : Store) (user : User) (now : datetime) :
  Api.calculate_streak db user now = Views.calculate_streak db user now.
Proof. unfold Api.calculate_streak. now rewrite api_streak_loop. Qed.

(** X11: when the user has an entry today, the streak of today is the
    streak of yesterday plus one, in both copies of [calculate_streak]. *)
Theorem streak_extends_by_one (db : Store) (user : User)
  (now yesterday : datetime) :
  day yesterday = day now - 1 ->
  logged_on db user (day now) ->
  exists k,
    Views.calculate_streak db user yesterday = Some k
    /\ Views.calculate_streak db user now = Some (k + 1)
    /\ Api.calculate_streak db user yesterday = Some k
    /\ Api.calculate_streak db user now = Some (k + 1).
Proof.
  intros Hy Hlog.
  destruct (streak_run db user yesterday) as (k & Hk & Hk0 & Hall & Hend).
  destruct (streak_run db user now) as (n & Hn & Hn0 & Hall' & Hend').
  rewrite Hy in Hall, Hend.
  assert (Hpos : n <> 0).
  { intros ->. apply Hend'. now rewrite Z.sub_0_r. }
  assert (E : n - 1 = k).
  { apply (run_length_unique
             (fun i => logged_on db user (day now - 1 - i))); auto; try lia.
    - intros i Hi.
      replace (day now - 1 - i) with (day now - (i + 1)) by lia.
      apply Hall'. lia.
    - replace (day now - 1 - (n - 1)) with (day now - n) by lia.
      exact Hend'. }
  exists k. split; [exact Hk|]. split; [rewrite Hn; f_equal; lia|].
  split; [rewrite api_calculate_streak; exact Hk|].
  rewrite api_calculate_streak, Hn. f_equal. lia.
Qed.

Lemma streak_extends_by_one_witness :
  exists k,
    Views.calculate_streak
      {| mood_entries := [mood_entry_on 1 5 9; mood_entry_on 1 5 10];
         journals := []; achievements := [] |}
      1 {| day := 9; time_of_day := 0 |} = Some k
    /\ Views.calculate_streak
         {| mood_entries := [mood_entry_on 1 5 9; mood_entry_on 1 5 10];
            journals := []; achievements := [] |}
         1 {| day := 10; time_of_day := 0 |} = Some (k + 1).
Proof.
  destruct (streak_extends_by_one
              {| mood_entries := [mood_entry_on 1 5 9; mood_entry_on 1 5 10];
                 journals := []; achievements := [] |}
              1 {| day := 10; time_of_day := 0 |}
              {| day := 9; time_of_day := 0 |})
    as (k & Hy & Hn & _).
  - reflexivity.
  - exists (mood_entry_on 1 5 10).
    split; [right; left; reflexivity|]. split; reflexivity.
  - exists k. split; [exact Hy|exact Hn].
Defined.

Lemma streak_loop_bound (fuel : nat) (db : Store) (user : User) :
  forall check_date streak n,
    Views.streak_loop fuel db user check_date streak = Some n ->
    streak <= n
    /\ n - streak <= Z.of_nat (length (entries_upto db user check_date)).
Proof.
  induction fuel as [|fuel IH]; intros check_date streak n Hrun;
    [discriminate|].
  cbn [Views.streak_loop] in Hrun.
  destruct (exists_ (moods_on db user check_date)) eqn:E.
  - apply IH in Hrun as [H1 H2].
    pose proof (entries_upto_step db user check_date) as Hstep.
    assert (Hpos : (0 < length (moods_on db user check_date))%nat).
    { destruct (moods_on db user check_date); [discriminate|simpl; lia]. }
    lia.
  - injection Hrun as <-. lia.
Qed.

Lemma entries_upto_user (db : Store) (user : User) (d : Z) :
  (length (entries_upto db user d) <= length (moods_of_user db user))%nat.
Proof.
  unfold entries_upto, moods_of_user.
  induction (mood_entries db) as [|e l IH]; [simpl; lia|].
  cbn [filter]. destruct (MoodEntry.user e =? user); cbn [andb].
  - destruct (day (MoodEntry.date e) <=? d); simpl; lia.
  - exact IH.
Qed.

Lemma logged_on_own (db : Store) (user : User) (d : Z) :
  logged_on db user d
  <-> exists e, In e (moods_of_user db user) /\ day (MoodEntry.date e) = d.
Proof.
  unfold logged_on, moods_of_user. split.
  - intros (e & Hin & Hu & Hd). exists e. split; [|exact Hd].
    apply filter_In. split; [exact Hin|lia].
  - intros (e & Hin & Hd). apply filter_In in Hin as [Hin Hu].
    exists e. repeat split; auto. lia.
Qed.

(** X12: the streak lies between 0 and the number of the user's mood
    entries, and two stores in which the user has the same entries give the
    same streak: entries of other users do not count. *)
Theorem streak_bounded_by_own_entries (db db' : Store) (user : User)
  (now : datetime) :
  (exists n,
      Views.calculate_streak db user now = Some n
      /\ 0 <= n <= count (moods_of_user db user))
  /\ (moods_of_user db user = moods_of_user db' user ->
      Views.calculate_streak db user now
      = Views.calculate_streak db' user now).
Proof.
  split.
  - destruct (streak_run db user now) as (n & Hn & Hn0 & _).
    exists n. split; [exact Hn|]. split; [exact Hn0|].
    unfold Views.calculate_streak in Hn.
    apply streak_loop_bound in Hn as [_ Hb].
    pose proof (entries_upto_user db user (day now)).
    unfold count, len. lia.
  - intros Hsame. apply streak_ext; [reflexivity|].
    intros i _. rewrite !logged_on_own, Hsame. reflexivity.
Qed.

Lemma streak_bounded_by_own_entries_witness :
  Views.calculate_streak
    {| mood_entries := [mood_entry_on 1 5 10; mood_entry_on 2 5 9];
       journals := []; achievements := [] |}
    1 {| day := 10; time_of_day := 0 |}
  = Views.calculate_streak
      {| mood_entries := [mood_entry_on 1 5 10];
         journals := []; achievements := [] |}
      1 {| day := 10; time_of_day := 0 |}.
Proof.
  apply (streak_bounded_by_own_entries
           {| mood_entries := [mood_entry_on 1 5 10; mood_entry_on 2 5 9];
              journals := []; achievements := [] |}
           {| mood_entries := [mood_entry_on 1 5 10];
              journals := []; achievements := [] |}).
  reflexivity.
Defined.

Lemma logged_on_after_log (db : Store) (user : User) (mood : Z)
  (note tags : string) (now : datetime) (d : Z) :
  logged_on (Views.log_mood_valid db user mood note tags now) user d
  <-> logged_on db user d \/ d = day now.
Proof.
  unfold logged_on, Views.log_mood_valid. rewrite check_moods.
  cbn [save_mood mood_entries]. split.
  - intros (e & Hin & Hu & Hd). apply in_app_or in Hin as [Hin|[<-|[]]].
    + left. now exists e.
    + right. now rewrite <- Hd.
  - intros [(e & Hin & Hu & Hd)| ->].
    + exists e. split; [apply in_or_app; now left|]. now split.
    + eexists. split; [apply in_or_app; right; left; reflexivity|].
      split; reflexivity.
Qed.

(** Right after a valid entry is saved the streak of the user is one more
    than the streak the store had for the day before. *)
Lemma streak_after_valid_mood (db : Store) (user : User) (mood : Z)
  (note tags : string) (now yesterday : datetime) :
  day yesterday = day now - 1 ->
  exists k,
    Views.calculate_streak db user yesterday = Some k
    /\ Views.calculate_streak (Views.log_mood_valid db user mood note tags now)
         user now = Some (k + 1)
    /\ 0 <= k.
Proof.
  intros Hy.
  set (db' := Views.log_mood_valid db user mood note tags now).
  destruct (streak_run db user yesterday) as (k & Hk & Hk0 & _).
  assert (Hsame : Views.calculate_streak db' user yesterday
                  = Views.calculate_streak db user yesterday).
  { apply streak_ext; [reflexivity|]. intros i Hi. subst db'.
    rewrite logged_on_after_log. split; [|tauto]. intros [H|H]; [exact H|lia]. }
  destruct (streak_run db' user yesterday) as (k' & Hk' & _ & Hall & Hend).
  rewrite Hsame, Hk in Hk'. injection Hk' as <-. rewrite Hy in Hall, Hend.
  destruct (streak_run db' user now) as (n & Hn & Hn0 & Hall' & Hend').
  assert (Hlog : logged_on db' user (day now)).
  { subst db'. apply logged_on_after_log. now right. }
  assert (Hpos : n <> 0).
  { intros ->. apply Hend'. now rewrite Z.sub_0_r. }
  assert (E : n - 1 = k).
  { apply (run_length_unique
             (fun i => logged_on db' user (day now - 1 - i))); auto; try lia.
    - intros i Hi.
      replace (day now - 1 - i) with (day now - (i + 1)) by lia.
      apply Hall'. lia.
    - replace (day now - 1 - (n - 1)) with (day now - n) by lia.
      exact Hend'. }
  exists k. split; [exact Hk|]. split; [rewrite Hn; f_equal; lia|exact Hk0].
Qed.

(** ** The [log_mood] view *)

(** The form accepts exactly the texts "1" .. "10". *)
Lemma cleaned_mood_spec (posted : option string) (mood : Z) :
  cleaned_mood posted = Some mood
  <-> 1 <= mood <= 10 /\ posted = Some (str mood).
Proof.
  unfold cleaned_mood. split.
  - destruct posted as [text|]; [|discriminate].
    destruct (find _ MoodEntry.MOOD_CHOICES) as [choice|] eqn:E;
      [|discriminate].
    intros H. injection H as <-.
    apply find_some in E as [Hin Heq]. apply String.eqb_eq in Heq.
    subst text. split; [|reflexivity].
    unfold MoodEntry.MOOD_CHOICES in Hin. apply in_map_iff in Hin
      as (i & <- & Hi). cbn [fst].
    unfold range_from, range in Hi. rewrite map_map in Hi.
    apply in_map_iff in Hi as (k & <- & Hk). apply in_seq in Hk.
    simpl in Hk. lia.
  - intros [Hm ->].
    assert (H : mood = 1 \/ mood = 2 \/ mood = 3 \/ mood = 4 \/ mood = 5
                \/ mood = 6 \/ mood = 7 \/ mood = 8 \/ mood = 9 \/ mood = 10)
      by lia.
    repeat (destruct H as [-> | H]; [reflexivity|]).
    subst. reflexivity.
Qed.

Lemma cleaned_mood_none (posted : option string) :
  cleaned_mood posted = None
  <-> forall mood, 1 <= mood <= 10 -> posted <> Some (str mood).
Proof.
  split.
  - intros Hn mood Hm E.
    assert (H : cleaned_mood posted = Some mood)
      by (apply cleaned_mood_spec; now split).
    congruence.
  - intros H. destruct (cleaned_mood posted) as [mood|] eqn:E;
      [|reflexivity].
    apply cleaned_mood_spec in E as [Hm E]. now apply H in E.
Qed.

(** What the view answers, case by case. *)
Lemma log_mood_cases (db : Store) (method : string)
  (posted_mood : option string) (note tags : string) (now : datetime)
  (user : Account.t) :
  (exists mood,
      method = "POST"%string
      /\ cleaned_mood posted_mood = Some mood
      /\ Views.log_mood db method posted_mood note tags now (Some user)
         = Pass (Views.log_mood_valid db (Account.id user) mood note tags now,
                 RedirectTo "patient_dashboard"
                   (Success "Mood logged successfully!")))
  \/ ((method <> "POST"%string \/ cleaned_mood posted_mood = None)
      /\ Views.log_mood db method posted_mood note tags now (Some user)
         = Pass (db, Render "dashboard/log_mood.html")).
Proof.
  unfold Views.log_mood, login_required, Views.log_mood_of.
  destruct (String.eqb_spec method "POST") as [E|E].
  - destruct (cleaned_mood posted_mood) as [mood|] eqn:Ec.
    + left. now exists mood.
    + right. split; [now right|reflexivity].
  - right. split; [now left|reflexivity].
Qed.

(** X13: a POST to [log_mood] by a logged-in user whose mood text the form
    accepts (str(mood) for a mood of 1..10) is answered with the redirect to
    the dashboard, and right afterwards the streak of the user is one more
    than the streak the store had for the day before.  Any other request of
    a logged-in user renders the form and leaves the store as it was. *)
Theorem log_mood_extends_streak (db : Store) (method : string)
  (posted_mood : option string) (note tags : string)
  (now yesterday : datetime) (user : Account.t) :
  day yesterday = day now - 1 ->
  exists db' answer k,
    Views.log_mood db method posted_mood note tags now (Some user)
    = Pass (db', answer)
    /\ Views.calculate_streak db (Account.id user) yesterday = Some k
    /\ 0 <= k
    /\ (method = "POST"%string ->
        (exists mood, 1 <= mood <= 10 /\ posted_mood = Some (str mood)) ->
        answer = RedirectTo "patient_dashboard"
                   (Success "Mood logged successfully!")
        /\ Views.calculate_streak db' (Account.id user) now = Some (k + 1))
    /\ (method <> "POST"%string
        \/ (forall mood, 1 <= mood <= 10 -> posted_mood <> Some (str mood)) ->
        answer = Render "dashboard/log_mood.html" /\ db' = db).
Proof.
  intros Hy.
  destruct (log_mood_cases db method posted_mood note tags now user)
    as [(mood & Hm & Hc & ->)|([Hm|Hc] & ->)].
  - destruct (streak_after_valid_mood db (Account.id user) mood note tags
                now yesterday Hy) as (k & Hk & Hk' & Hk0).
    eexists. eexists. exists k.
    split; [reflexivity|]. split; [exact Hk|]. split; [exact Hk0|].
    split.
    + intros _ _. split; [reflexivity|exact Hk'].
    + intros [Hn|Hn]; [contradiction|].
      apply cleaned_mood_spec in Hc as [Hr Hp]. now apply Hn in Hp.
  - destruct (streak_run db (Account.id user) yesterday) as (k & Hk & Hk0 & _).
    eexists. eexists. exists k.
    split; [reflexivity|]. split; [exact Hk|]. split; [exact Hk0|].
    split; [intros Hp; contradiction|]. intros _. split; reflexivity.
  - destruct (streak_run db (Account.id user) yesterday) as (k & Hk & Hk0 & _).
    eexists. eexists. exists k.
    split; [reflexivity|]. split; [exact Hk|]. split; [exact Hk0|].
    split.
    + intros _ (mood & Hr & Hp).
      assert (H : cleaned_mood posted_mood = Some mood)
        by (apply cleaned_mood_spec; now split).
      congruence.
    + intros _. split; reflexivity.
Qed.

Lemma log_mood_extends_streak_witness :
  exists db',
    Views.log_mood empty_store "POST" (Some "5"%string) "" ""
      {| day := 10; time_of_day := 0 |} (Some sample_patient)
    = Pass (db', RedirectTo "patient_dashboard"
                   (Success "Mood logged successfully!"))
    /\ Views.calculate_streak db' 2 {| day := 10; time_of_day := 0 |}
       = Some 1.
Proof.
  destruct (log_mood_extends_streak empty_store "POST" (Some "5"%string)
              "" "" {| day := 10; time_of_day := 0 |}
              {| day := 9; time_of_day := 0 |} sample_patient eq_refl)
    as (db' & answer & k & H & Hk & _ & Hpost & _).
  destruct Hpost as [-> Hs]; [reflexivity|exists 5; split; [lia|reflexivity]|].
  vm_compute in Hk. injection Hk as <-.
  exists db'. split; [exact H|exact Hs].
Defined.

(** ** Achievement rule engine: what a run adds *)

Lemma check_achievements_added (db : Store) (user : User) (now : datetime) :
  let c := count (moods_of_user db user) in
  let week :=
    {| Achievement.user := user; Achievement.title := "Week Warrior";
       Achievement.description := "Logged mood for 7 days!";
       Achievement.points := 10; Achievement.unlocked_at := now |} in
  let month :=
    {| Achievement.user := user; Achievement.title := "Monthly Master";
       Achievement.description := "Logged mood for 30 days!";
       Achievement.points := 50; Achievement.unlocked_at := now |} in
  achievements (Views.check_achievements db user now)
  = achievements db
    ++ (if (7 <=? c)
           && negb (exists_ (achievements_titled db user "Week Warrior"))
        then [week] else [])
    ++ (if (30 <=? c)
           && negb (exists_ (achievements_titled db user "Monthly Master"))
        then [month] else []).
Proof.
  intros c week month. unfold Views.check_achievements. fold c.
  destruct ((7 <=? c)
            && negb (exists_ (achievements_titled db user "Week Warrior"))).
  - rewrite titled_create.
    change (String.eqb "Week Warrior" "Monthly Master") with false.
    rewrite andb_false_r, app_nil_r.
    destruct ((30 <=? c) && negb _); cbn [create_achievement achievements];
      now rewrite <- ?app_assoc, ?app_nil_r.
  - destruct ((30 <=? c) && negb _); cbn [create_achievement achievements];
      now rewrite ?app_nil_r.
Qed.

Lemma check_journals (db : Store) (user : User) (now : datetime) :
  journals (Views.check_achievements db user now) = journals db.
Proof.
  unfold Views.check_achievements.
  destruct (_ && _); destruct (_ && _); reflexivity.
Qed.

(** X14: a run of [check_achievements] leaves mood entries and journals
    alone and only appends achievements, at most two, each for the given
    user, stamped now, and either "Week Warrior" with 10 points at 7 or more
    entries or "Monthly Master" with 50 points at 30 or more; below 7 entries
    the store is unchanged; from 7 entries on the user holds "Week Warrior"
    afterwards, from 30 on "Monthly Master". *)
Theorem check_achievements_effect (db : Store) (user : User)
  (now : datetime) :
  let db' := Views.check_achievements db user now in
  let c := count (moods_of_user db user) in
  mood_entries db' = mood_entries db
  /\ journals db' = journals db
  /\ (exists added,
        achievements db' = achievements db ++ added
        /\ (length added <= 2)%nat
        /\ forall a, In a added ->
             Achievement.user a = user
             /\ Achievement.unlocked_at a = now
             /\ ((Achievement.title a = "Week Warrior"%string
                  /\ Achievement.points a = 10 /\ 7 <= c)
                 \/ (Achievement.title a = "Monthly Master"%string
                     /\ Achievement.points a = 50 /\ 30 <= c)))
  /\ (c < 7 -> db' = db)
  /\ (7 <= c ->
      exists_ (achievements_titled db' user "Week Warrior") = true)
  /\ (30 <= c ->
      exists_ (achievements_titled db' user "Monthly Master") = true).
Proof.
  intros db' c. subst db'.
  split; [apply check_moods|]. split; [apply check_journals|].
  split.
  { rewrite check_achievements_added. fold c.
    eexists. split; [reflexivity|].
    destruct (Z.leb_spec 7 c); destruct (Z.leb_spec 30 c); cbn [andb];
      repeat match goal with
             | |- context [negb (exists_ ?q)] => destruct (exists_ q)
             end; cbn [negb app length]; (split; [lia|]);
      intros a Ha; simpl in Ha;
      repeat (destruct Ha as [<-|Ha]); try contradiction;
      cbn; repeat split; auto. }
  split.
  { intros Hc. unfold Views.check_achievements. fold c.
    replace (7 <=? c) with false by (symmetry; lia).
    replace (30 <=? c) with false by (symmetry; lia). reflexivity. }
  split; [apply week_warrior_after_check|apply monthly_master_after_check].
Qed.

Lemma check_achievements_effect_witness :
  Views.check_achievements empty_store 1 {| day := 0; time_of_day := 0 |}
  = empty_store.
Proof.
  apply (check_achievements_effect empty_store 1
           {| day := 0; time_of_day := 0 |}).
  reflexivity.
Defined.

(** ** Achievements in reachable stores *)

Lemma titled_nonempty (db : Store) (user : User) (title : string) :
  exists_ (achievements_titled db user title) = true
  <-> exists a, In a (achievements db)
                /\ Achievement.user a = user /\ Achievement.title a = title.
Proof.
  rewrite exists_true. unfold achievements_titled. split.
  - intros Hne.
    destruct (filter _ (achievements db)) as [|a l] eqn:E; [congruence|].
    assert (Hin : In a (a :: l)) by now left.
    rewrite <- E in Hin. apply filter_In in Hin as [Hin Hp].
    apply andb_true_iff in Hp as [Hu Ht].
    exists a. repeat split; auto; [lia|now apply String.eqb_eq].
  - intros (a & Hin & Hu & Ht) Hnil.
    assert (Hf : In a (filter
                  (fun a => (Achievement.user a =? user)
                            && String.eqb (Achievement.title a) title)
                  (achievements db))).
    { apply filter_In. split; [exact Hin|].
      apply andb_true_iff. split; [lia|now apply String.eqb_eq]. }
    rewrite Hnil in Hf. exact Hf.
Qed.

Lemma check_keeps_achievements (db : Store) (user : User) (now : datetime)
  (a : Achievement.t) :
  In a (achievements db) ->
  In a (achievements (Views.check_achievements db user now)).
Proof.
  intros Hin. rewrite check_achievements_added.
  apply in_or_app. now left.
Qed.

Lemma check_new_achievement (db : Store) (user : User) (now : datetime)
  (a : Achievement.t) :
  In a (achievements (Views.check_achievements db user now)) ->
  In a (achievements db)
  \/ (Achievement.user a = user
      /\ ((Achievement.title a = "Week Warrior"%string
           /\ Achievement.points a = 10
           /\ 7 <= count (moods_of_user db user))
          \/ (Achievement.title a = "Monthly Master"%string
              /\ Achievement.points a = 50
              /\ 30 <= count (moods_of_user db user)))).
Proof.
  rewrite check_achievements_added. intros Hin.
  apply in_app_or in Hin as [Hin|Hin]; [now left|]. right.
  apply in_app_or in Hin as [Hin|Hin].
  - destruct (Z.leb_spec 7 (count (moods_of_user db user)));
      cbn [andb] in Hin; [|contradiction].
    destruct (negb _); [|contradiction].
    destruct Hin as [<-|[]]. cbn. auto.
  - destruct (Z.leb_spec 30 (count (moods_of_user db user)));
      cbn [andb] in Hin; [|contradiction].
    destruct (negb _); [|contradiction].
    destruct Hin as [<-|[]]. cbn. auto.
Qed.

Lemma check_keeps_well_formed (db : Store) (user : User) (now : datetime) :
  well_formed_achievements db ->
  well_formed_achievements (Views.check_achievements db user now).
Proof.
  intros [Hwf Hmw]. split.
  - intros a Ha. apply check_new_achievement in Ha as [Ha|[_ Ha]];
      [now apply Hwf|tauto].
  - intros u Hm. apply titled_nonempty in Hm as (a & Hin & Hu & Ht).
    apply check_new_achievement in Hin as [Hin|[Hu' Hnew]].
    + assert (Hold : exists_ (achievements_titled db u "Monthly Master")
                     = true).
      { apply titled_nonempty. now exists a. }
      apply Hmw, titled_nonempty in Hold as (w & Hw & Hwu & Hwt).
      apply titled_nonempty. exists w.
      split; [now apply check_keeps_achievements|]. now split.
    + destruct Hnew as [(Ht' & _)|(_ & _ & Hc)]; [congruence|].
      rewrite <- Hu, Hu'. apply week_warrior_after_check. lia.
Qed.

(** X15: in every store reached from the empty one, each achievement is
    "Week Warrior" with 10 points or "Monthly Master" with 50 points, and
    whoever holds "Monthly Master" also holds "Week Warrior". *)
Theorem reachable_achievements_well_formed (db : Store) :
  reachable db ->
  (forall a, In a (achievements db) ->
     (Achievement.title a = "Week Warrior"%string /\ Achievement.points a = 10)
     \/ (Achievement.title a = "Monthly Master"%string
         /\ Achievement.points a = 50))
  /\ (forall user,
        exists_ (achievements_titled db user "Monthly Master") = true ->
        exists_ (achievements_titled db user "Week Warrior") = true).
Proof.
  change (reachable db -> well_formed_achievements db).
  induction 1 as [|db db' Hr IH Hstep].
  - split; [intros a []|intros user H; discriminate H].
  - destruct Hstep.
    + unfold Views.log_mood_valid. apply check_keeps_well_formed. exact IH.
    + exact IH.
    + exact IH.
    + apply check_keeps_well_formed. exact IH.
Qed.

Lemma reachable_fold {A} (f : Store -> A -> Store) (l : list A) :
  (forall db x, step db (f db x)) ->
  forall db, reachable db -> reachable (fold_left f l db).
Proof.
  intros Hf. induction l as [|x l IH]; intros db Hr; [exact Hr|].
  cbn [fold_left]. apply IH. eapply reach_step; [exact Hr|apply Hf].
Qed.

Lemma reachable_logged_days (n : nat) : reachable (logged_days n).
Proof.
  unfold logged_days. apply reachable_fold; [|apply reach_empty].
  intros db d. apply step_log_mood.
Qed.

Lemma reachable_achievements_well_formed_witness :
  well_formed_achievements (logged_days 30)
  /\ exists_ (achievements_titled (logged_days 30) 2 "Week Warrior") = true
  /\ exists_ (achievements_titled (logged_days 30) 2 "Monthly Master") = true.
Proof.
  split.
  - apply (reachable_achievements_well_formed (logged_days 30)).
    apply reachable_logged_days.
  - split; vm_compute; reflexivity.
Defined.

(** Saving a valid entry adds exactly one mood entry for the user and none
    for anybody else, leaves journals and the achievements of other users
    as they were, and afterwards a user with 7 or more entries holds "Week
    Warrior" and one with 30 or more holds "Monthly Master". *)
Lemma log_mood_valid_effect (db : Store) (user : User) (mood : Z)
  (note tags : string) (now : datetime) :
  let db' := Views.log_mood_valid db user mood note tags now in
  count (moods_of_user db' user) = count (moods_of_user db user) + 1
  /\ (forall other, other <> user ->
        moods_of_user db' other = moods_of_user db other
        /\ forall title,
             achievements_titled db' other title
             = achievements_titled db other title)
  /\ (7 <= count (moods_of_user db' user) ->
      exists_ (achievements_titled db' user "Week Warrior") = true)
  /\ (30 <= count (moods_of_user db' user) ->
      exists_ (achievements_titled db' user "Monthly Master") = true)
  /\ journals db' = journals db.
Proof.
  intros db'. subst db'. unfold Views.log_mood_valid.
  set (e := {| MoodEntry.user := user; MoodEntry.mood := mood;
               MoodEntry.note := note; MoodEntry.tags := tags;
               MoodEntry.date := now |}).
  assert (Hm : forall u,
    moods_of_user (Views.check_achievements (save_mood db e) user now) u
    = moods_of_user db u ++ (if MoodEntry.user e =? u then [e] else [])).
  { intros u. unfold moods_of_user. rewrite check_moods.
    cbn [save_mood mood_entries]. now rewrite filter_app. }
  assert (Hc : count (moods_of_user (save_mood db e) user)
               = count (moods_of_user db user) + 1).
  { unfold moods_of_user, count, len. cbn [save_mood mood_entries].
    rewrite filter_app, length_app. cbn [filter MoodEntry.user e].
    rewrite Z.eqb_refl. simpl length. lia. }
  split.
  { rewrite Hm. cbn [MoodEntry.user e]. rewrite Z.eqb_refl.
    unfold count, len. rewrite length_app. simpl length. lia. }
  split.
  { intros other Hne. split.
    - rewrite Hm. cbn [MoodEntry.user e].
      replace (user =? other) with false by (symmetry; lia).
      apply app_nil_r.
    - intros title.
      destruct (titled_check (save_mood db e) user now other title)
        as (added & -> & _ & Hadd).
      destruct added as [|a added]; [apply app_nil_r|].
      destruct Hadd as (Hu & _); [discriminate|congruence]. }
  assert (Hcount : count (moods_of_user
                     (Views.check_achievements (save_mood db e) user now) user)
                   = count (moods_of_user (save_mood db e) user)).
  { unfold moods_of_user. now rewrite check_moods. }
  rewrite Hcount.
  split; [apply week_warrior_after_check|].
  split; [apply monthly_master_after_check|].
  now rewrite check_journals.
Qed.

(** X16: what [log_mood] does, told by its answer.  The anonymous user,
    and nobody else, is sent to the login page.  The redirect to the
    dashboard answers a POST of a logged-in user whose mood text is
    str(mood) for a mood of 1..10, and only that: then one entry with that
    mood, dated now, is appended for the user and none for anybody else,
    journals and the achievements of other users stay as they were, and
    afterwards a user with 7 or more entries holds "Week Warrior" and one
    with 30 or more holds "Monthly Master".  In every other case the form
    is rendered and the store is unchanged. *)
Theorem log_mood_effect (db : Store) (method : string)
  (posted_mood : option string) (note tags : string) (now : datetime)
  (request_user : option Account.t) :
  match Views.log_mood db method posted_mood note tags now request_user with
  | LoginRedirect => request_user = None
  | Redirect _ _ => False
  | Pass (db', RedirectTo to message) =>
      exists user mood,
        request_user = Some user
        /\ method = "POST"%string
        /\ 1 <= mood <= 10
        /\ posted_mood = Some (str mood)
        /\ to = "patient_dashboard"%string
        /\ message = Success "Mood logged successfully!"
        /\ mood_entries db'
           = mood_entries db
             ++ [ {| MoodEntry.user := Account.id user;
                     MoodEntry.mood := mood;
                     MoodEntry.note := note; MoodEntry.tags := tags;
                     MoodEntry.date := now |} ]
        /\ count (moods_of_user db' (Account.id user))
           = count (moods_of_user db (Account.id user)) + 1
        /\ (forall other, other <> Account.id user ->
              moods_of_user db' other = moods_of_user db other
              /\ forall title,
                   achievements_titled db' other title
                   = achievements_titled db other title)
        /\ (7 <= count (moods_of_user db' (Account.id user)) ->
            exists_ (achievements_titled db' (Account.id user)
                       "Week Warrior") = true)
        /\ (30 <= count (moods_of_user db' (Account.id user)) ->
            exists_ (achievements_titled db' (Account.id user)
                       "Monthly Master") = true)
        /\ journals db' = journals db
  | Pass (db', Render template) =>
      db' = db
      /\ template = "dashboard/log_mood.html"%string
      /\ request_user <> None
      /\ (method <> "POST"%string
          \/ forall mood, 1 <= mood <= 10 -> posted_mood <> Some (str mood))
  end.
Proof.
  destruct request_user as [user|]; [|reflexivity].
  destruct (log_mood_cases db method posted_mood note tags now user)
    as [(mood & Hm & Hc & ->)|(Hm & ->)].
  - apply cleaned_mood_spec in Hc as [Hr Hp].
    destruct (log_mood_valid_effect db (Account.id user) mood note tags now)
      as (E1 & E2 & E3 & E4 & E5).
    exists user, mood.
    split; [reflexivity|]. split; [exact Hm|]. split; [exact Hr|].
    split; [exact Hp|]. split; [reflexivity|]. split; [reflexivity|].
    split; [unfold Views.log_mood_valid; now rewrite check_moods|].
    split; [exact E1|]. split; [exact E2|]. split; [exact E3|].
    split; [exact E4|exact E5].
  - split; [reflexivity|]. split; [reflexivity|]. split; [discriminate|].
    destruct Hm as [Hm|Hm]; [now left|right].
    now apply cleaned_mood_none.
Qed.

(** ** Grouped queries *)

Lemma ascending_find_none {V} (k : Z) (rows : list (Z * V)) :
  (forall k', In k' (map fst rows) -> k < k') -> find_row k rows = None.
Proof.
  induction rows as [|[k1 v1] rest IH]; intros Hlt; [reflexivity|].
  cbn [find_row]. 
  assert (k < k1) by (apply Hlt; now left).
  replace (k =? k1) with false by (symmetry; lia).
  apply IH. intros k' Hk'. apply Hlt. now right.
Qed.

Lemma group_add_keys (key value : Z) (rows : list (Z * (Z * Z))) (k : Z) :
  In k (map fst (group_add key value rows)) ->
  k = key \/ In k (map fst rows).
Proof.
  induction rows as [|[k1 [s1 n1]] rest IH]; cbn [group_add].
  - simpl. intros [<-|[]]. now left.
  - destruct (key <? k1); [simpl; intros [<-|H]; auto|].
    destruct (key =? k1) eqn:E.
    + simpl. intros [<-|H]; auto.
    + simpl. intros [<-|H]; auto. apply IH in H as [->|H]; auto.
Qed.

Lemma group_add_ascending (key value : Z) (rows : list (Z * (Z * Z))) :
  ascending rows -> ascending (group_add key value rows).
Proof.
  induction rows as [|[k1 [s1 n1]] rest IH]; intros Hasc; cbn [group_add].
  - simpl. split; [intros k []|exact I].
  - destruct Hasc as [Hlt Hrest]. cbn [fst] in Hlt.
    destruct (Z.ltb_spec key k1).
    + split; [|split; assumption].
      cbn [fst]. intros k [<-|Hk]; [assumption|].
      specialize (Hlt k Hk). lia.
    + destruct (Z.eqb_spec key k1) as [->|Hne].
      * split; assumption.
      * split; [|now apply IH].
        cbn [fst]. intros k Hk.
        apply group_add_keys in Hk as [->|Hk]; [lia|now apply Hlt].
Qed.

Lemma group_add_find (key value : Z) (rows : list (Z * (Z * Z))) (k : Z) :
  ascending rows ->
  find_row k (group_add key value rows)
  = if k =? key
    then Some (match find_row key rows with
               | Some (s, n) => (s + value, n + 1)
               | None => (value, 1)
               end)
    else find_row k rows.
Proof.
  induction rows as [|[k1 [s1 n1]] rest IH]; intros Hasc; cbn [group_add].
  - cbn [find_row]. destruct (k =? key); reflexivity.
  - destruct Hasc as [Hlt Hrest]. cbn [fst] in Hlt.
    destruct (Z.ltb_spec key k1).
    + cbn [find_row].
      replace (key =? k1) with false by (symmetry; lia).
      rewrite (ascending_find_none key rest)
        by (intros k' Hk'; specialize (Hlt k' Hk'); lia).
      destruct (k =? key); reflexivity.
    + destruct (Z.eqb_spec key k1) as [->|Hne].
      * cbn [find_row]. rewrite Z.eqb_refl.
        destruct (k =? k1); reflexivity.
      * cbn [find_row]. rewrite (IH Hrest).
        replace (key =? k1) with false by (symmetry; lia).
        destruct (Z.eqb_spec k k1) as [->|Hk].
        -- replace (k1 =? key) with false by (symmetry; lia). reflexivity.
        -- reflexivity.
Qed.

Lemma ascending_find_in {V} (rows : list (Z * V)) (k : Z) (v : V) :
  ascending rows -> (In (k, v) rows <-> find_row k rows = Some v).
Proof.
  induction rows as [|[k1 v1] rest IH]; intros Hasc.
  - simpl. split; [intros []|discriminate].
  - destruct Hasc as [Hlt Hrest]. cbn [fst] in Hlt. cbn [find_row].
    destruct (Z.eqb_spec k k1) as [->|Hne].
    + split.
      * intros [H|H]; [congruence|].
        exfalso. assert (k1 < k1); [|lia].
        apply Hlt. apply in_map_iff. now exists (k1, v).
      * intros H. left. congruence.
    + rewrite <- (IH Hrest). split.
      * intros [H|H]; [congruence|exact H].
      * intros H. now right.
Qed.

Lemma group_by_snoc (key value : MoodEntry.t -> Z) (qs : list MoodEntry.t)
  (e : MoodEntry.t) :
  group_by key value (qs ++ [e])
  = group_add (key e) (value e) (group_by key value qs).
Proof. unfold group_by. now rewrite fold_left_app. Qed.

Lemma group_of_snoc (key : MoodEntry.t -> Z) (k : Z) (qs : list MoodEntry.t)
  (e : MoodEntry.t) :
  group_of key k (qs ++ [e])
  = group_of key k qs ++ (if key e =? k then [e] else []).
Proof. unfold group_of. now rewrite filter_app. Qed.

Lemma group_by_ascending (key value : MoodEntry.t -> Z)
  (qs : list MoodEntry.t) : ascending (group_by key value qs).
Proof.
  induction qs as [|e qs IH] using rev_ind; [exact I|].
  rewrite group_by_snoc. now apply group_add_ascending.
Qed.

(** The row of a key carries the sum and the number of the rows grouped
    under it; a key without rows has no row. *)
Lemma group_by_find (key value : MoodEntry.t -> Z) (qs : list MoodEntry.t)
  (k : Z) :
  find_row k (group_by key value qs)
  = if occurrences key k qs =? 0 then None
    else Some (group_total key value k qs, occurrences key k qs).
Proof.
  induction qs as [|e qs IH] using rev_ind; [reflexivity|].
  rewrite group_by_snoc, group_add_find by apply group_by_ascending.
  unfold occurrences, group_total in *. rewrite group_of_snoc.
  destruct (Z.eqb_spec k (key e)) as [->|Hne].
  - rewrite IH, Z.eqb_refl.
    rewrite map_app, sum_app. unfold len. rewrite length_app.
    cbn [map length]. rewrite sum_cons. change (sum []) with 0.
    pose proof (len_nonneg (group_of key (key e) qs)) as Hn. unfold len in Hn.
    replace (Z.of_nat (length (group_of key (key e) qs) + 1) =? 0)
      with false by (symmetry; apply Z.eqb_neq; lia).
    destruct (Z.eqb_spec (Z.of_nat (length (group_of key (key e) qs))) 0)
      as [E|E].
    + assert (Hnil : group_of key (key e) qs = []).
      { destruct (group_of key (key e) qs); [reflexivity|simpl in E; lia]. }
      rewrite Hnil. change (sum (map value [])) with 0. cbn [length].
      f_equal. f_equal; lia.
    + f_equal. f_equal; lia.
  - replace (key e =? k) with false by (symmetry; lia).
    rewrite app_nil_r. exact IH.
Qed.

Lemma counts_of_group_add (key value : Z) (rows : list (Z * (Z * Z))) :
  sum (map (fun row => snd (snd row)) (group_add key value rows))
  = sum (map (fun row => snd (snd row)) rows) + 1.
Proof.
  induction rows as [|[k1 [s1 n1]] rest IH]; cbn [group_add].
  - reflexivity.
  - destruct (key <? k1); [cbn [map]; rewrite !sum_cons; cbn [snd]; lia|].
    destruct (key =? k1); cbn [map]; rewrite !sum_cons; cbn [snd].
    + lia.
    + rewrite IH. lia.
Qed.

Lemma counts_of_group_by (key value : MoodEntry.t -> Z)
  (qs : list MoodEntry.t) :
  sum (map (fun row => snd (snd row)) (group_by key value qs)) = len qs.
Proof.
  induction qs as [|e qs IH] using rev_ind; [reflexivity|].
  rewrite group_by_snoc, counts_of_group_add, IH.
  unfold len. rewrite length_app. simpl length. lia.
Qed.

Lemma ascending_map {V W} (g : V -> W) (rows : list (Z * V)) :
  ascending rows -> ascending (map (fun row => (fst row, g (snd row))) rows).
Proof.
  induction rows as [|[k v] rest IH]; intros Hasc; [exact I|].
  destruct Hasc as [Hlt Hrest]. split; [|now apply IH].
  cbn [fst]. intros k' Hk'. apply Hlt.
  rewrite map_map in Hk'. cbn [fst] in Hk'. exact Hk'.
Qed.

Lemma in_map_row {V W} (g : V -> W) (rows : list (Z * V)) (k : Z) (w : W) :
  In (k, w) (map (fun row => (fst row, g (snd row))) rows)
  <-> exists v, In (k, v) rows /\ w = g v.
Proof.
  rewrite in_map_iff. split.
  - intros ([k' v] & E & Hin). cbn [fst snd] in E.
    injection E as <- <-. now exists v.
  - intros (v & Hin & ->). now exists (k, v).
Qed.

Lemma group_by_row (key value : MoodEntry.t -> Z) (qs : list MoodEntry.t)
  (k s n : Z) :
  In (k, (s, n)) (group_by key value qs)
  <-> s = group_total key value k qs /\ n = occurrences key k qs /\ 1 <= n.
Proof.
  rewrite (ascending_find_in _ _ _ (group_by_ascending key value qs)),
    group_by_find.
  pose proof (len_nonneg (group_of key k qs)) as Hn.
  fold (occurrences key k qs) in Hn.
  destruct (Z.eqb_spec (occurrences key k qs) 0) as [E|E].
  - split; [discriminate|]. intros (_ & -> & H). lia.
  - split.
    + intros H. injection H as <- <-. repeat split. lia.
    + intros (-> & -> & _). reflexivity.
Qed.

(** X17: the mood distribution lists the moods in strictly ascending order,
    has a row (m, n) exactly when n >= 1 is the number of the user's entries
    with mood m, and its counts add up to the number of the user's
    entries. *)
Theorem mood_distribution_counts (db : Store) (user : User) :
  let dist := mood_distribution db user in
  ascending dist
  /\ (forall m n,
        In (m, n) dist
        <-> n = occurrences MoodEntry.mood m (moods_of_user db user)
            /\ 1 <= n)
  /\ sum (map snd dist) = count (moods_of_user db user).
Proof.
  intros dist. subst dist. unfold mood_distribution.
  split; [apply (ascending_map (fun v => snd v)), group_by_ascending|].
  split.
  - intros m n. rewrite (in_map_row (fun v => snd v)). split.
    + intros ([s n'] & Hin & ->). apply group_by_row in Hin. tauto.
    + intros [Hn H1]. exists (group_total MoodEntry.mood MoodEntry.mood m
                                (moods_of_user db user), n).
      split; [|reflexivity]. apply group_by_row. tauto.
  - rewrite map_map. cbn [snd]. apply counts_of_group_by.
Qed.

(** X18: the 30-day mood trend lists the days in strictly ascending order;
    it has a row (day, avg, n) exactly when n >= 1 is the number of the
    user's entries of the window on that day and avg the mean of their
    moods; every listed day lies in the window, every average lies in
    [1, 10] when the moods are in 1..10, and the counts add up to the size
    of the window. *)
Theorem mood_trend_rows (db : Store) (user : User) (now : datetime) :
  let window :=
    filter (fun e => (MoodEntry.user e =? user)
                     && (day now - 30 <=? day (MoodEntry.date e))
                     && (day (MoodEntry.date e) <=? day now))
           (mood_entries db) in
  let on_day := group_of (fun e => day (MoodEntry.date e)) in
  ascending (mood_trend db user now)
  /\ (forall d avg n,
        In (d, (avg, n)) (mood_trend db user now)
        <-> n = len (on_day d window) /\ 1 <= n
            /\ avg = mean (map MoodEntry.mood (on_day d window)))
  /\ (forall d avg n,
        In (d, (avg, n)) (mood_trend db user now) ->
        day now - 30 <= d <= day now
        /\ (Forall in_mood_range (map MoodEntry.mood window) ->
            in_forecast_range avg))
  /\ sum (map (fun row => snd (snd row)) (mood_trend db user now))
     = len window.
Proof.
  intros window on_day. unfold mood_trend. fold window.
  set (key := fun e => day (MoodEntry.date e)).
  assert (Hrow : forall d avg n,
    In (d, (avg, n))
       (map (fun row => (fst row,
                         ((inject_Z (fst (snd row))
                           / inject_Z (snd (snd row)))%Q, snd (snd row))))
            (group_by key MoodEntry.mood window))
    <-> n = len (on_day d window) /\ 1 <= n
        /\ avg = mean (map MoodEntry.mood (on_day d window))).
  { intros d avg n.
    rewrite (in_map_row
               (fun v => ((inject_Z (fst v) / inject_Z (snd v))%Q, snd v))).
    unfold mean. rewrite len_map. split.
    - intros ([s n'] & Hin & E). cbn [fst snd] in E. injection E as -> ->.
      apply group_by_row in Hin as (-> & -> & H1). repeat split; auto.
    - intros (-> & H1 & ->). eexists (_, _). split.
      + apply group_by_row. repeat split. exact H1.
      + reflexivity. }
  split.
  { apply (ascending_map
             (fun v => ((inject_Z (fst v) / inject_Z (snd v))%Q, snd v))),
      group_by_ascending. }
  split; [exact Hrow|]. split.
  - intros d avg n Hin. apply Hrow in Hin as (Hn & H1 & ->).
    assert (Hne : on_day d window <> []).
    { intros E. rewrite E in Hn. unfold len in Hn. simpl in Hn. lia. }
    destruct (on_day d window) as [|e g] eqn:Eg; [congruence|].
    assert (Hin : In e (on_day d window)) by (rewrite Eg; now left).
    unfold on_day, group_of in Hin. apply filter_In in Hin as [Hw Hd].
    split.
    + unfold window in Hw. apply filter_In in Hw as [_ Hw].
      apply andb_true_iff in Hw as [Hw Hhi].
      apply andb_true_iff in Hw as [_ Hlo]. lia.
    + intros Hall. apply mean_in_range; [discriminate|].
      rewrite <- Eg. apply Forall_forall. intros m Hm.
      apply in_map_iff in Hm as (e' & <- & He').
      unfold on_day, group_of in He'. apply filter_In in He' as [He' _].
      rewrite Forall_forall in Hall. apply Hall. now apply in_map.
  - rewrite map_map. cbn [snd]. apply counts_of_group_by.
Qed.

Lemma mood_trend_rows_witness :
  day {| day := 3; time_of_day := 0 |} - 30 <= 2
  <= day {| day := 3; time_of_day := 0 |}.
Proof.
  destruct (proj1 (proj2 (proj2
    (mood_trend_rows
       {| mood_entries := [mood_entry_on 1 4 2; mood_entry_on 1 8 2];
          journals := []; achievements := [] |}
       1 {| day := 3; time_of_day := 0 |}))) 2 (12 # 2) 2) as [Hday _].
  - left. reflexivity.
  - exact Hday.
Defined.

(** ** Statistics of the detail and analytics pages *)

Lemma py_int_range (q : Q) (a b : Z) :
  0 <= a -> (inject_Z a <= q)%Q -> (q <= inject_Z b)%Q ->
  a <= py_int q <= b.
Proof.
  intros Ha Hlo Hhi. unfold py_int.
  assert (H0 : Qle_bool 0 q = true).
  { apply Qle_bool_iff. apply Qle_trans with (inject_Z a); [|exact Hlo].
    unfold Qle, inject_Z; simpl. lia. }
  rewrite H0.
  pose proof (Qfloor_resp_le _ _ Hlo) as H1. rewrite Qfloor_Z in H1.
  pose proof (Qfloor_resp_le _ _ Hhi) as H2. rewrite Qfloor_Z in H2.
  lia.
Qed.

Lemma percentage_range (q : Q) :
  in_forecast_range q -> 10 <= py_int (q * 10) <= 100.
Proof.
  intros [Hlo Hhi]. apply py_int_range; [lia| |];
    unfold inject_Z; lra.
Qed.

(** [int(avg_mood * 10)] gives back the tenths of a one-decimal float. *)
Lemma percentage_of_tenths (tenths : Z) :
  10 <= tenths <= 100 ->
  py_int (Binary64.mul (Binary64.nearest (inject_Z tenths / 10)) 10) = tenths.
Proof.
  intros Ht.
  assert (Hall : forallb
            (fun k => py_int (Binary64.mul
                                (Binary64.nearest (inject_Z k / 10)) 10)
                      =? k)
            (range_from 10 101) = true) by (vm_compute; reflexivity).
  rewrite forallb_forall in Hall.
  apply Z.eqb_eq, Hall. unfold range_from, range.
  rewrite map_map. apply in_map_iff.
  exists (Z.to_nat (tenths - 10)). split; [lia|].
  apply in_seq. lia.
Qed.

Lemma api64_patient_stats (db : Store) (patient : User) (now : datetime) :
  Api64.patient_stats db patient now = Views64.patient_stats db patient now.
Proof.
  unfold Api64.patient_stats, Views64.patient_stats.
  now rewrite api_calculate_streak.
Qed.

(** X19: the statistics of the detail and analytics pages, computed in
    binary64, are the same in the HTML and the REST variant; total_moods is
    the sum of the counts of the mood distribution; the streak is returned
    and lies between 0 and total_moods; without entries avg_mood and its
    percentage are 0; with at most 10^6 entries, all in 1..10, avg_mood is
    the float of tenths/10 and the percentage is tenths, an integer of
    10..100 within 1/2 of ten times the exact mean. *)
Theorem patient_stats_bounds (db : Store) (patient : User) (now : datetime) :
  let s := Views64.patient_stats db patient now in
  let moods := map MoodEntry.mood (moods_of_user db patient) in
  Api64.patient_stats db patient now = s
  /\ Stats.total_moods s = sum (map snd (mood_distribution db patient))
  /\ (exists n, Stats.current_streak s = Some n
                /\ 0 <= n <= Stats.total_moods s)
  /\ (moods_of_user db patient = [] ->
      Stats.avg_mood s = 0%Q /\ Stats.avg_mood_percentage s = 0)
  /\ (moods_of_user db patient <> [] ->
      Forall in_mood_range moods ->
      Stats.total_moods s <= max_history ->
      exists tenths,
        10 <= tenths <= 100
        /\ (Qabs (inject_Z tenths - mean moods * 10) <= 1 # 2)%Q
        /\ Stats.avg_mood s = Binary64.nearest (inject_Z tenths / 10)
        /\ Stats.avg_mood_percentage s = tenths).
Proof.
  intros s moods. subst s.
  split; [apply api64_patient_stats|].
  unfold Views64.patient_stats. cbn [Stats.total_moods Stats.current_streak
    Stats.avg_mood Stats.avg_mood_percentage].
  split.
  { unfold mood_distribution. rewrite map_map. cbn [snd].
    now rewrite counts_of_group_by. }
  split.
  { destruct (streak_run db patient now) as (n & Hn & Hn0 & _).
    exists n. split; [exact Hn|]. split; [exact Hn0|].
    unfold Views.calculate_streak in Hn.
    apply streak_loop_bound in Hn as [_ Hb].
    pose proof (entries_upto_user db patient (day now)).
    unfold count, len. lia. }
  split.
  { intros ->. split; reflexivity. }
  intros Hne Hall Hmax.
  assert (Hne' : moods <> []).
  { subst moods.
    destruct (moods_of_user db patient); [congruence|discriminate]. }
  assert (Hmax' : len moods <= max_history).
  { subst moods. now rewrite len_map. }
  assert (Havg : Binary64.mood_avg (moods_of_user db patient)
                 = Some (Binary64.nearest (mean moods))).
  { unfold Binary64.mood_avg, mean. subst moods. rewrite len_map.
    destruct (moods_of_user db patient); [congruence|reflexivity]. }
  assert (Hr : in_forecast_range (mean moods)).
  { apply mean_in_range; assumption. }
  destruct (rounded_mean_threshold moods 1 Hne' Hall Hmax' ltac:(lia))
    as [_ H1].
  change (inject_Z 1) with 1%Q in H1. specialize (H1 (proj1 Hr)).
  destruct (tenths_of_rounded_mean moods Hne' Hall Hmax') as [Ht Hc].
  rewrite Havg. unfold or_zero.
  replace (Qeq_bool (Binary64.nearest (mean moods)) 0) with false.
  2:{ symmetry. apply not_true_is_false. intros H. apply Qeq_bool_iff in H.
      lra. }
  exists (round_half_even (Binary64.nearest (mean moods) * 10)).
  split; [exact Ht|]. split; [exact Hc|]. split; [reflexivity|].
  unfold Binary64.round1. now apply percentage_of_tenths.
Qed.

Lemma patient_stats_bounds_witness :
  Stats.avg_mood_percentage
    (Views64.patient_stats
       {| mood_entries :=
            map (fun d => mood_entry_on 1 (if d <? 9 then 3 else 2) d)
                (range 20);
          journals := []; achievements := [] |}
       1 {| day := 20; time_of_day := 0 |}) = 25.
Proof.
  destruct (proj2 (proj2 (proj2 (proj2
    (patient_stats_bounds
       {| mood_entries :=
            map (fun d => mood_entry_on 1 (if d <? 9 then 3 else 2) d)
                (range 20);
          journals := []; achievements := [] |}
       1 {| day := 20; time_of_day := 0 |})))))
    as (tenths & _ & _ & _ & Hp).
  - discriminate.
  - vm_compute. repeat constructor; discriminate.
  - vm_compute. discriminate.
  - vm_compute. reflexivity.
Defined.

(** X20: [progress_analytics] always finds the weekly forecast in the
    prediction record, so the list with percentages is always built: seven
    pairs (mood, int(mood * 10)) over the forecast values, each mood in
    [1, 10] and each percentage between 10 and 100; with an empty window the
    seven pairs are (5, 50). *)
Theorem progress_percentages (db : Store) (user : User) (now : datetime) :
  exists mood_prediction pairs,
    Views.progress_prediction db user now = Ok (mood_prediction, Some pairs)
    /\ Views.predict_next_week_mood db user now = Ok mood_prediction
    /\ get "weekly_forecast" mood_prediction
       = Some (VNumList (map fst pairs))
    /\ length pairs = 7%nat
    /\ Forall (fun p => in_forecast_range (fst p)
                        /\ snd p = py_int (fst p * 10)
                        /\ 10 <= snd p <= 100) pairs
    /\ (Views.recent_moods_14 db user now = [] ->
        pairs = repeat (5%Q, 50) 7).
Proof.
  unfold Views.progress_prediction, Views.predict_next_week_mood.
  destruct (Views.recent_moods_14 db user now) as [|e l] eqn:E.
  - eexists. eexists. split; [reflexivity|].
    split; [reflexivity|]. split; [reflexivity|]. split; [reflexivity|].
    split; [|reflexivity].
    repeat constructor; cbn; try lia;
      unfold Qle; simpl; lia.
  - destruct (predict_week_from_shape (e :: l))
      as (slope & d & _ & Hd & Hk & Hwf & _); [discriminate|].
    rewrite Hd. cbn [bind].
    unfold Views.weekly_forecast_with_percentages, has_key.
    rewrite Hwf.
    assert (Hex : exists_ d = true).
    { destruct d; [discriminate Hk|reflexivity]. }
    rewrite Hex. cbn [andb].
    eexists. eexists. split; [reflexivity|]. split; [reflexivity|].
    split; [now rewrite map_map, map_id|].
    split; [now rewrite !length_map, length_range|].
    split; [|discriminate].
    apply Forall_forall. intros p Hp.
    apply in_map_iff in Hp as (q & <- & Hq).
    apply in_map_iff in Hq as (i & <- & _). cbn [fst snd].
    pose proof (forecast_day_range
                  (last (map MoodEntry.mood (e :: l)) 0) slope i) as Hr.
    repeat split; try apply Hr; now apply percentage_range.
Qed.

Lemma progress_percentages_witness :
  Views.progress_prediction empty_store 1 {| day := 0; time_of_day := 0 |}
  = Ok (Views.no_forecast, Some (repeat (5%Q, 50) 7)).
Proof.
  destruct (progress_percentages empty_store 1
              {| day := 0; time_of_day := 0 |})
    as (d & pairs & Hp & Hd & _ & _ & _ & Hempty).
  rewrite Hp. injection Hd as <-. now rewrite Hempty.
Defined.

(** ** Assigning patients *)

Lemma get_one_done {A} (qs : list A) (x : A) :
  get_one qs = Done x <-> qs = [x].
Proof.
  destruct qs as [|a [|b l]]; simpl; split; intros H;
    try discriminate H; congruence.
Qed.


Lemma patient_by_id_done (c : Clinic) (pid : User) (u : Account.t) :
  patient_by_id c pid = Done u ->
  In u (users c) /\ Account.id u = pid /\ Account.role u = "patient"%string.
Proof.
  unfold patient_by_id. intros H. apply get_one_done in H.
  assert (Hin : In u [u]) by now left.
  rewrite <- H in Hin. apply filter_In in Hin as [Hin Hp].
  apply andb_true_iff in Hp as [Hc Hr].
  split; [exact Hin|]. split; [lia|now apply String.eqb_eq].
Qed.

Lemma active_is_pair (c : Clinic) (d p : User) :
  exists_ (active_assignments c d p) = true ->
  exists_ (pair_assignments c d p) = true.
Proof.
  unfold active_assignments, pair_assignments.
  induction (assignments c) as [|a l IH]; [discriminate|].
  cbn [filter].
  destruct ((Assignment.doctor a =? d) && (Assignment.patient a =? p));
    cbn [andb]; [reflexivity|exact IH].
Qed.

Lemma pair_after_create (c c' : Clinic) (d p : User) (now : datetime)
  (a : Assignment.t) (d' p' : User) :
  create_assignment c d p now = Done (c', a) ->
  pair_assignments c d p = []
  /\ a = {| Assignment.doctor := d; Assignment.patient := p;
            Assignment.assigned_date := now; Assignment.is_active := true;
            Assignment.notes := "" |}
  /\ users c' = users c
  /\ doctor_notes c' = doctor_notes c
  /\ assignments c' = assignments c ++ [a]
  /\ pair_assignments c' d' p'
     = pair_assignments c d' p'
       ++ (if (d =? d') && (p =? p') then [a] else [])
  /\ active_assignments c' d' p'
     = active_assignments c d' p'
       ++ (if (d =? d') && (p =? p') then [a] else []).
Proof.
  unfold create_assignment.
  destruct (pair_assignments c d p) as [|x l] eqn:E; [|discriminate].
  cbn [exists_]. intros H. injection H as <- <-.
  repeat split.
  - unfold pair_assignments. cbn [assignments]. rewrite filter_app.
    cbn [filter Assignment.doctor Assignment.patient].
    destruct ((d =? d') && (p =? p')); reflexivity.
  - unfold active_assignments. cbn [assignments]. rewrite filter_app.
    cbn [filter Assignment.doctor Assignment.patient Assignment.is_active].
    destruct ((d =? d') && (p =? p')); reflexivity.
Qed.


(** The two variants of [assign_patient] step by step. *)
Lemma assign_patient_cases (c : Clinic) (code : string) (now : datetime)
  (doctor : Account.t) :
  (exists e, e <> DoesNotExist
             /\ patient_by_code c code = Fails e
             /\ Views.assign_patient_of c code now doctor = Fails e
             /\ Api.assign_patient_of c code now doctor = Fails e)
  \/ (patient_by_code c code = Fails DoesNotExist
      /\ Views.assign_patient_of c code now doctor
         = Done (c, Error ("No patient found with ID: " ++ code))
      /\ Api.assign_patient_of c code now doctor
         = Done (c, {| status := 404;
                        data := ErrorBody ("No patient found with ID: "
                                           ++ code) |}))
  \/ (exists patient,
        patient_by_code c code = Done patient
        /\ exists_ (active_assignments c (Account.id doctor)
                      (Account.id patient)) = true
        /\ Views.assign_patient_of c code now doctor
           = Done (c, Warning ("Patient " ++ Account.username patient
                               ++ " is already assigned to you."))
        /\ Api.assign_patient_of c code now doctor
           = Done (c, {| status := 400;
                          data := ErrorBody
                                    ("Patient " ++ Account.username patient
                                     ++ " is already assigned to you") |}))
  \/ (exists patient,
        patient_by_code c code = Done patient
        /\ exists_ (active_assignments c (Account.id doctor)
                      (Account.id patient)) = false
        /\ exists_ (pair_assignments c (Account.id doctor)
                      (Account.id patient)) = true
        /\ Views.assign_patient_of c code now doctor = Fails IntegrityError
        /\ Api.assign_patient_of c code now doctor = Fails IntegrityError)
  \/ (exists patient c' a,
        patient_by_code c code = Done patient
        /\ exists_ (active_assignments c (Account.id doctor)
                      (Account.id patient)) = false
        /\ create_assignment c (Account.id doctor) (Account.id patient) now
           = Done (c', a)
        /\ Views.assign_patient_of c code now doctor
           = Done (c', Success ("Successfully assigned patient "
                                ++ Account.username patient
                                ++ " (ID: " ++ code ++ ")."))
        /\ Api.assign_patient_of c code now doctor
           = Done (c', {| status := 201;
                           data := AssignedBody
                                     ("Successfully assigned patient "
                                      ++ Account.username patient
                                      ++ " (ID: " ++ code ++ ")") a |})).
Proof.
  unfold Views.assign_patient_of, Api.assign_patient_of.
  destruct (patient_by_code c code) as [patient|e] eqn:Ep.
  - destruct (exists_ (active_assignments c (Account.id doctor)
                         (Account.id patient))) eqn:Ea.
    + right. right. left. exists patient. auto.
    + destruct (create_assignment c (Account.id doctor) (Account.id patient)
                  now) as [[c' a]|e] eqn:Ec.
      * right. right. right. right. exists patient, c', a. auto.
      * right. right. right. left. exists patient.
        unfold create_assignment in Ec.
        destruct (exists_ (pair_assignments c (Account.id doctor)
                             (Account.id patient))) eqn:Epair;
          [|discriminate].
        injection Ec as <-. auto.
  - destruct e.
    + right. left. auto.
    + left. exists MultipleObjectsReturned. repeat split; auto. discriminate.
    + left. exists IntegrityError. repeat split; auto. discriminate.
    + left. exists Http404. repeat split; auto. discriminate.
Qed.

Lemma doctor_required_pass {R} (view_func : Account.t -> R)
  (request_user : option Account.t) (r : R) :
  doctor_required view_func request_user = Pass r ->
  exists doctor,
    request_user = Some doctor
    /\ Account.role doctor = "doctor"%string
    /\ r = view_func doctor.
Proof.
  unfold doctor_required. destruct request_user as [u|]; [|discriminate].
  destruct (String.eqb_spec (Account.role u) "doctor") as [E|E];
    cbn [negb]; [|discriminate].
  intros H. injection H as <-. now exists u.
Qed.

Lemma doctor_required_doctor {R} (view_func : Account.t -> R)
  (doctor : Account.t) :
  Account.role doctor = "doctor"%string ->
  doctor_required view_func (Some doctor) = Pass (view_func doctor).
Proof.
  intros Hr. unfold doctor_required. now rewrite Hr.
Qed.

Lemma views_assign_patient_user (c : Clinic) (code : string)
  (now : datetime) (user : Account.t) :
  Views.assign_patient c code now (Some user)
  = doctor_required (Views.assign_patient_of c code now) (Some user).
Proof. reflexivity. Qed.

Lemma api_assign_patient_user (c : Clinic) (code : string)
  (now : datetime) (user : Account.t) :
  Api.assign_patient c code now (Some user)
  = doctor_required (Api.assign_patient_of c code now) (Some user).
Proof. reflexivity. Qed.

(** A response of the REST variant comes from the permission class, for
    the anonymous user, or from the view run for a doctor. *)
Lemma api_assign_patient_pass (c c' : Clinic) (code : string)
  (now : datetime) (request_user : option Account.t) (response : Response) :
  Api.assign_patient c code now request_user = Pass (Done (c', response)) ->
  (request_user = None /\ c' = c /\ response = not_authenticated)
  \/ (exists doctor,
        request_user = Some doctor
        /\ Account.role doctor = "doctor"%string
        /\ Api.assign_patient_of c code now doctor = Done (c', response)).
Proof.
  destruct request_user as [user|].
  - rewrite api_assign_patient_user. intros H.
    apply doctor_required_pass in H as (doctor & E & Hrole & H).
    right. now exists doctor.
  - intros H. injection H as <- <-. left. repeat split.
Qed.

(** X21: an anonymous request is sent to the login page by the HTML view
    and answered with status 403 by the REST view, and the clinic stays as
    it is.  On the request of a logged-in user the two variants of
    [assign_patient] redirect alike (when the user is not a doctor), raise
    the same exception or leave the same clinic behind; success goes with
    status 201, "already assigned" with 400 and "no patient found" with
    404. *)
Theorem assign_patient_variants_agree (c : Clinic) (code : string)
  (now : datetime) (request_user : option Account.t) :
  match request_user with
  | None =>
      Views.assign_patient c code now None = LoginRedirect
      /\ Api.assign_patient c code now None
         = Pass (Done (c, not_authenticated))
      /\ status not_authenticated = 403
  | Some user =>
      match Views.assign_patient c code now (Some user),
            Api.assign_patient c code now (Some user) with
      | Redirect to message, Redirect to' message' =>
          to = to' /\ message = message'
          /\ Account.role user <> "doctor"%string
      | Pass (Fails e), Pass (Fails e') => e = e'
      | Pass (Done (c1, report)), Pass (Done (c2, response)) =>
          c1 = c2
          /\ Account.role user = "doctor"%string
          /\ match report with
             | Success _ => status response = 201
             | Warning _ => status response = 400
             | Error _ => status response = 404
             end
      | _, _ => False
      end
  end.
Proof.
  destruct request_user as [u|]; [|repeat split].
  rewrite views_assign_patient_user, api_assign_patient_user.
  unfold doctor_required.
  destruct (String.eqb_spec (Account.role u) "doctor") as [E|E];
    cbn [negb]; [|repeat split; exact E].
  destruct (assign_patient_cases c code now u)
    as [(e & _ & _ & -> & ->)
       |[(_ & -> & ->)
        |[(p & _ & _ & -> & ->)
         |[(p & _ & _ & _ & -> & ->)
          |(p & c' & a & _ & _ & _ & -> & ->)]]]];
    try reflexivity; repeat split; exact E.
Qed.



(** X23: after a successful assignment the same request is answered
    "already assigned" (status 400, a warning in the HTML view) and leaves
    the clinic as it is. *)
Theorem assign_patient_repeated (c c' : Clinic) (code : string)
  (now now' : datetime) (request_user : option Account.t)
  (response : Response) :
  Api.assign_patient c code now request_user = Pass (Done (c', response)) ->
  status response = 201 ->
  (exists response',
      Api.assign_patient c' code now' request_user
      = Pass (Done (c', response'))
      /\ status response' = 400)
  /\ (exists text,
        Views.assign_patient c' code now' request_user
        = Pass (Done (c', Warning text))).
Proof.
  intros H H201.
  apply api_assign_patient_pass in H
    as [(_ & _ & ->)|(doctor & -> & Hrole & H)]; [discriminate H201|].
  destruct (assign_patient_cases c code now doctor)
    as [(e & _ & _ & _ & Ha)
       |[(_ & _ & Ha)
        |[(p & _ & _ & _ & Ha)
         |[(p & _ & _ & _ & _ & Ha)
          |(p & c1 & a & Hp & _ & Hc & _ & Ha)]]]];
    rewrite Ha in H; try discriminate H; injection H as <- <-;
    cbn [status] in H201; try discriminate H201.
  destruct (pair_after_create _ _ _ _ _ _
              (Account.id doctor) (Account.id p) Hc)
    as (_ & _ & Hu & _ & _ & _ & Hact).
  rewrite !Z.eqb_refl in Hact. cbn [andb] in Hact.
  assert (Hp' : patient_by_code c1 code = Done p).
  { unfold patient_by_code in *. now rewrite Hu. }
  assert (Hex : exists_ (active_assignments c1 (Account.id doctor)
                           (Account.id p)) = true).
  { rewrite Hact. destruct (active_assignments c _ _); reflexivity. }
  rewrite api_assign_patient_user, views_assign_patient_user.
  rewrite !doctor_required_doctor by exact Hrole.
  unfold Api.assign_patient_of, Views.assign_patient_of.
  rewrite Hp', Hex. split; eexists; [split|]; reflexivity.
Qed.

Lemma assign_patient_repeated_witness :
  exists text c',
    Views.assign_patient c' "AB12CD34" {| day := 1; time_of_day := 0 |}
      (Some sample_doctor)
    = Pass (Done (c', Warning text)).
Proof.
  destruct (assign_patient_repeated sample_clinic _ "AB12CD34"
              {| day := 0; time_of_day := 0 |}
              {| day := 1; time_of_day := 0 |}
              (Some sample_doctor) _ eq_refl eq_refl)
    as (_ & text & H).
  exists text. eexists. exact H.
Defined.

(** X24: when the pair has an assignment that is not active, the request
    is neither answered "already assigned" nor served: the insert violates
    [unique_together] and both variants raise [IntegrityError]. *)
Theorem assign_patient_deactivated_pair (c : Clinic) (code : string)
  (now : datetime) (doctor patient : Account.t) :
  Account.role doctor = "doctor"%string ->
  patient_by_code c code = Done patient ->
  active_assignments c (Account.id doctor) (Account.id patient) = [] ->
  pair_assignments c (Account.id doctor) (Account.id patient) <> [] ->
  Api.assign_patient c code now (Some doctor) = Pass (Fails IntegrityError)
  /\ Views.assign_patient c code now (Some doctor)
     = Pass (Fails IntegrityError).
Proof.
  intros Hrole Hp Hact Hpair.
  rewrite api_assign_patient_user, views_assign_patient_user.
  rewrite !doctor_required_doctor by exact Hrole.
  unfold Api.assign_patient_of, Views.assign_patient_of, create_assignment.
  rewrite Hp, Hact. cbn [exists_].
  destruct (pair_assignments c (Account.id doctor) (Account.id patient));
    [congruence|]. split; reflexivity.
Qed.

Lemma assign_patient_deactivated_pair_witness :
  Api.assign_patient
    {| users := users sample_clinic;
       assignments :=
         [ {| Assignment.doctor := 1; Assignment.patient := 2;
              Assignment.assigned_date := {| day := 0; time_of_day := 0 |};
              Assignment.is_active := false; Assignment.notes := "" |} ];
       doctor_notes := [] |}
    "AB12CD34" {| day := 1; time_of_day := 0 |} (Some sample_doctor)
  = Pass (Fails IntegrityError).
Proof.
  apply (assign_patient_deactivated_pair _ "AB12CD34"
           {| day := 1; time_of_day := 0 |} sample_doctor sample_patient).
  - reflexivity.
  - reflexivity.
  - reflexivity.
  - discriminate.
Defined.

(** ** Doctor notes *)

(** X25: [create_for_patient] changes the clinic only with status 201, and
    then the author is a doctor with an active assignment to that patient
    and the note is appended; the author finds it in his queryset, and a
    reader who is not a doctor finds it exactly when he is that patient and
    the note is visible.  A reader who is not a doctor is only ever shown
    notes about himself that are marked visible. *)
Theorem doctor_note_visibility (c c' : Clinic) (user : Account.t)
  (patient_id : User) (validated : option (string * bool)) (now : datetime)
  (response : Response) :
  Api.create_for_patient c user patient_id validated now
  = Done (c', response) ->
  (status response <> 201 -> c' = c)
  /\ (status response = 201 ->
      exists patient text is_visible n,
        Account.role user = "doctor"%string
        /\ patient_by_id c patient_id = Done patient
        /\ active_assignments c (Account.id user) (Account.id patient) <> []
        /\ validated = Some (text, is_visible)
        /\ n = {| DoctorNote.patient := Account.id patient;
                  DoctorNote.doctor := Account.id user;
                  DoctorNote.note := text;
                  DoctorNote.date := now;
                  DoctorNote.is_visible_to_patient := is_visible |}
        /\ data response = NoteBody n
        /\ doctor_notes c' = doctor_notes c ++ [n]
        /\ In n (Api.get_queryset c' user)
        /\ (forall reader,
              Account.role reader <> "doctor"%string ->
              (In n (Api.get_queryset c' reader)
               <-> Account.id reader = Account.id patient
                   /\ is_visible = true)))
  /\ (forall reader n,
        Account.role reader <> "doctor"%string ->
        In n (Api.get_queryset c' reader) ->
        DoctorNote.patient n = Account.id reader
        /\ DoctorNote.is_visible_to_patient n = true).
Proof.
  intros H.
  assert (Hprivate : forall c0 reader n,
    Account.role reader <> "doctor"%string ->
    (In n (Api.get_queryset c0 reader)
     <-> In n (doctor_notes c0)
         /\ DoctorNote.patient n = Account.id reader
         /\ DoctorNote.is_visible_to_patient n = true)).
  { intros c0 reader n Hr. unfold Api.get_queryset.
    rewrite (proj2 (String.eqb_neq _ _) Hr), filter_In, andb_true_iff.
    rewrite Z.eqb_eq. tauto. }
  split; [|split].
  - intros Hs. unfold Api.create_for_patient in H.
    destruct (negb (String.eqb (Account.role user) "doctor"));
      [now injection H as <- <-|].
    destruct (patient_by_id c patient_id) as [p|[]];
      try discriminate H; [|now injection H as <- <-].
    destruct (negb (exists_ _)); [now injection H as <- <-|].
    destruct validated as [[text vis]|]; injection H as <- <-;
      [cbn [status] in Hs; congruence|reflexivity].
  - intros Hs. unfold Api.create_for_patient in H.
    destruct (String.eqb_spec (Account.role user) "doctor") as [Hrole|Hrole];
      cbn [negb] in H;
      [|injection H as <- <-; cbn [status] in Hs; discriminate Hs].
    destruct (patient_by_id c patient_id) as [p|[]] eqn:Ep;
      try discriminate H;
      [|injection H as <- <-; cbn [status] in Hs; discriminate Hs].
    destruct (exists_ (active_assignments c (Account.id user)
                         (Account.id p))) eqn:Ea; cbn [negb] in H;
      [|injection H as <- <-; cbn [status] in Hs; discriminate Hs].
    destruct validated as [[text vis]|]; injection H as <- <-;
      [|cbn [status] in Hs; discriminate Hs].
    exists p, text, vis. eexists.
    split; [exact Hrole|]. split; [reflexivity|].
    split; [now apply exists_true|]. split; [reflexivity|].
    split; [reflexivity|]. split; [reflexivity|]. split; [reflexivity|].
    split.
    + unfold Api.get_queryset. rewrite Hrole.
      change (String.eqb "doctor" "doctor") with true. cbv iota.
      apply filter_In. split; [|cbn; lia].
      cbn [create_note doctor_notes]. apply in_or_app. right. now left.
    + intros reader Hr. rewrite Hprivate by exact Hr.
      cbn [create_note doctor_notes DoctorNote.patient
           DoctorNote.is_visible_to_patient].
      split; [intros (_ & Hp' & Hv); auto|].
      intros [Hid Hv]. split; [apply in_or_app; right; now left|auto].
  - intros reader n Hr Hin. apply Hprivate in Hin; tauto.
Qed.

Lemma doctor_note_visibility_witness :
  exists n c',
    Api.create_for_patient
      {| users := users sample_clinic;
         assignments :=
           [ {| Assignment.doctor := 1; Assignment.patient := 2;
                Assignment.assigned_date := {| day := 0; time_of_day := 0 |};
                Assignment.is_active := true; Assignment.notes := "" |} ];
         doctor_notes := [] |}
      sample_doctor 2 (Some ("rest well"%string, true))
      {| day := 1; time_of_day := 0 |}
    = Done (c', {| status := 201; data := NoteBody n |})
    /\ In n (Api.get_queryset c' sample_doctor)
    /\ In n (Api.get_queryset c' sample_patient).
Proof.
  eexists. eexists. split; [reflexivity|].
  match goal with
  | |- In ?n (Api.get_queryset ?c' _) /\ _ =>
      destruct (proj1 (proj2
        (doctor_note_visibility
           {| users := users sample_clinic;
              assignments :=
                [ {| Assignment.doctor := 1; Assignment.patient := 2;
                     Assignment.assigned_date :=
                       {| day := 0; time_of_day := 0 |};
                     Assignment.is_active := true;
                     Assignment.notes := "" |} ];
              doctor_notes := [] |}
           c' sample_doctor 2 (Some ("rest well"%string, true))
           {| day := 1; time_of_day := 0 |}
           {| status := 201; data := NoteBody n |} eq_refl)) eq_refl)
        as (patient & text & is_visible & n' & _ & Hp & _ & Hv & Hn & _ & _
            & Hdoc & Hread)
  end.
  injection Hp as <-. injection Hv as <- <-. subst n'.
  split; [exact Hdoc|].
  apply (Hread sample_patient); [discriminate|split; reflexivity].
Defined.

(** ** Patient detail pages *)




(** X27: the HTML note form, for a doctor and an existing patient, appends
    a note about that patient authored by the doctor, visible exactly when
    the checkbox was sent as "on", and the patient then finds it in his
    queryset exactly in that case; an unknown patient gives Http404.  The
    form asks for no assignment: it stores the note where the REST action
    answers 403. *)
Theorem add_doctor_note_effect (c : Clinic) (patient_id : User)
  (note : string) (checkbox : option string) (now : datetime)
  (request_user : option Account.t) :
  (forall c' report,
      Views.add_doctor_note c patient_id note checkbox now request_user
      = Pass (Done (c', report)) ->
      exists doctor patient n,
        request_user = Some doctor
        /\ Account.role doctor = "doctor"%string
        /\ patient_by_id c patient_id = Done patient
        /\ n = {| DoctorNote.patient := patient_id;
                  DoctorNote.doctor := Account.id doctor;
                  DoctorNote.note := note;
                  DoctorNote.date := now;
                  DoctorNote.is_visible_to_patient :=
                    column_is checkbox "on" |}
        /\ c' = create_note c n
        /\ (In n (Api.get_queryset c' patient)
            <-> checkbox = Some "on"%string))
  /\ (forall doctor,
        request_user = Some doctor ->
        Account.role doctor = "doctor"%string ->
        patient_by_id c patient_id = Fails DoesNotExist ->
        Views.add_doctor_note c patient_id note checkbox now request_user
        = Pass (Fails Http404))
  /\ (forall doctor patient,
        request_user = Some doctor ->
        Account.role doctor = "doctor"%string ->
        patient_by_id c patient_id = Done patient ->
        active_assignments c (Account.id doctor) (Account.id patient) = [] ->
        (exists c' report,
            Views.add_doctor_note c patient_id note checkbox now request_user
            = Pass (Done (c', report))
            /\ length (doctor_notes c') = S (length (doctor_notes c)))
        /\ forall validated,
             Api.create_for_patient c doctor patient_id validated now
             = Done (c, {| status := 403;
                           data := ErrorBody
                                     "You are not assigned to this patient" |})).
Proof.
  split; [|split].
  - intros c' report H. destruct request_user as [user|];
      [|discriminate H].
    change (doctor_required
              (Views.add_doctor_note_of c patient_id note checkbox now)
              (Some user) = Pass (Done (c', report))) in H.
    apply doctor_required_pass in H as (doctor & E & Hrole & H).
    injection E as ->.
    symmetry in H. unfold Views.add_doctor_note_of in H.
    destruct (patient_by_id c patient_id) as [p|[]] eqn:Ep;
      try discriminate H.
    injection H as <- <-.
    destruct (patient_by_id_done _ _ _ Ep) as (_ & Hid & Hr).
    subst patient_id.
    exists doctor, p. eexists.
    split; [reflexivity|]. split; [exact Hrole|]. split; [reflexivity|].
    split; [reflexivity|]. split; [reflexivity|].
    unfold Api.get_queryset. rewrite Hr.
    change (String.eqb "patient" "doctor") with false. cbv iota.
    rewrite filter_In.
    cbn [create_note doctor_notes DoctorNote.patient
         DoctorNote.is_visible_to_patient].
    rewrite andb_true_iff, Z.eqb_eq. split.
    + intros (_ & _ & Hv). unfold column_is in Hv.
      destruct checkbox as [s|]; [|discriminate].
      apply String.eqb_eq in Hv. now subst.
    + intros ->. split; [apply in_or_app; right; now left|].
      split; reflexivity.
  - intros doctor -> Hrole Hp. unfold Views.add_doctor_note, login_required.
    rewrite doctor_required_doctor by exact Hrole.
    unfold Views.add_doctor_note_of. now rewrite Hp.
  - intros doctor patient -> Hrole Hp Hact. split.
    + unfold Views.add_doctor_note, login_required.
      rewrite doctor_required_doctor by exact Hrole.
      unfold Views.add_doctor_note_of. rewrite Hp.
      eexists. eexists. split; [reflexivity|].
      cbn [create_note doctor_notes]. rewrite length_app. simpl. lia.
    + intros validated. unfold Api.create_for_patient.
      rewrite Hrole. change (String.eqb "doctor" "doctor") with true.
      cbn [negb]. rewrite Hp, Hact. reflexivity.
Qed.

Lemma add_doctor_note_effect_witness :
  Views.add_doctor_note sample_clinic 7 "note" None
    {| day := 0; time_of_day := 0 |} (Some sample_doctor)
  = Pass (Fails Http404).
Proof.
  apply (proj1 (proj2 (add_doctor_note_effect sample_clinic 7 "note" None
                         {| day := 0; time_of_day := 0 |}
                         (Some sample_doctor)))
           sample_doctor); reflexivity.
Defined.

(** ** Patient identifiers *)

Lemma code_taken_iff (c : Clinic) (code : string) :
  exists_ (filter (fun u => column_is (Account.patient_id u) code) (users c))
  = true <-> code_taken c code.
Proof.
  rewrite exists_true. unfold code_taken. split.
  - intros Hne.
    destruct (filter _ (users c)) as [|u l] eqn:E; [congruence|].
    assert (Hin : In u (u :: l)) by now left.
    rewrite <- E in Hin. apply filter_In in Hin as [Hin Hc].
    exists u. split; [exact Hin|].
    unfold column_is in Hc. destruct (Account.patient_id u); [|discriminate].
    apply String.eqb_eq in Hc. now subst.
  - intros (u & Hin & Hc) Hnil.
    assert (Hf : In u (filter
                  (fun u => column_is (Account.patient_id u) code) (users c))).
    { apply filter_In. split; [exact Hin|].
      rewrite Hc. apply String.eqb_refl. }
    rewrite Hnil in Hf. exact Hf.
Qed.

Lemma generate_patient_id_first_free (c : Clinic) (draws : list string) :
  match generate_patient_id c draws with
  | Some code =>
      ~ code_taken c code
      /\ exists before after,
           draws = before ++ code :: after
           /\ forall d, In d before -> code_taken c d
  | None => forall d, In d draws -> code_taken c d
  end.
Proof.
  induction draws as [|d draws IH]; cbn [generate_patient_id].
  - intros d [].
  - destruct (exists_ (filter (fun u => column_is (Account.patient_id u) d)
                              (users c))) eqn:E; cbn [negb].
    + apply code_taken_iff in E.
      destruct (generate_patient_id c draws) as [code|].
      * destruct IH as (Hfree & before & after & -> & Hbefore).
        split; [exact Hfree|]. exists (d :: before), after.
        split; [reflexivity|]. intros d' [<-|Hd']; auto.
      * intros d' [<-|Hd']; auto.
    + split.
      * intros Ht. apply code_taken_iff in Ht. congruence.
      * exists [], draws. split; [reflexivity|]. intros d' [].
Qed.

(** X28: before a user is saved, a patient without identifier gets the
    first drawn identifier that no user holds (every earlier draw being
    taken), a doctor or a patient with an identifier is left as is, and
    nothing but the identifier ever changes; the step fails only for a
    patient when every draw is taken. *)
Theorem patient_id_is_fresh (c : Clinic) (u : Account.t)
  (draws : list string) :
  match with_patient_id c u draws with
  | Some u' =>
      Account.id u' = Account.id u
      /\ Account.username u' = Account.username u
      /\ Account.role u' = Account.role u
      /\ (Account.role u = "patient"%string
          /\ (Account.patient_id u = None
              \/ Account.patient_id u = Some ""%string) ->
          exists code before after,
            Account.patient_id u' = Some code
            /\ ~ code_taken c code
            /\ draws = before ++ code :: after
            /\ forall d, In d before -> code_taken c d)
      /\ (Account.role u <> "patient"%string
          \/ (exists code, Account.patient_id u = Some code
                           /\ code <> ""%string) ->
          u' = u)
  | None =>
      Account.role u = "patient"%string
      /\ forall d, In d draws -> code_taken c d
  end.
Proof.
  unfold with_patient_id.
  destruct (String.eqb_spec (Account.role u) "patient") as [Hr|Hr];
    cbn [andb].
  - destruct (lacks_patient_id u) eqn:El.
    + pose proof (generate_patient_id_first_free c draws) as Hg.
      destruct (generate_patient_id c draws) as [code|].
      * cbn. repeat split; auto.
        -- intros _. destruct Hg as (Hfree & before & after & Hd & Hb).
           exists code, before, after. auto.
        -- intros [Hc|(code' & Hc & Hne)]; [congruence|].
           unfold lacks_patient_id in El. rewrite Hc in El.
           apply String.eqb_eq in El. congruence.
      * split; assumption.
    + repeat split; auto.
      intros (_ & [Hc|Hc]); unfold lacks_patient_id in El;
        rewrite Hc in El; discriminate El.
  - repeat split; auto. intros (Hc & _). congruence.
Qed.

Lemma patient_id_is_fresh_witness :
  with_patient_id sample_clinic
    {| Account.id := 3; Account.username := "bob";
       Account.role := "patient"; Account.patient_id := None |}
    ["AB12CD34"; "0F3A9C7E"]%string
  = Some {| Account.id := 3; Account.username := "bob";
            Account.role := "patient";
            Account.patient_id := Some "0F3A9C7E"%string |}.
Proof.
  pose proof (patient_id_is_fresh sample_clinic
                {| Account.id := 3; Account.username := "bob";
                   Account.role := "patient"; Account.patient_id := None |}
                ["AB12CD34"; "0F3A9C7E"]%string) as H.
  destruct (with_patient_id _ _ _) as [u'|] eqn:E.
  - destruct H as (_ & _ & _ & Hnew & _).
    destruct Hnew as (code & before & after & _ & _ & _ & _);
      [split; [reflexivity|now left]|].
    rewrite <- E. reflexivity.
  - destruct H as [_ Htaken]. exfalso.
    destruct (Htaken "0F3A9C7E"%string) as (u & Hin & Hc);
      [right; now left|].
    destruct Hin as [<-|[<-|[]]]; discriminate Hc.
Defined.

(** ** Worked examples *)

Example flat_input_flat_prediction :
  exists v, Views.predict_next_mood [5; 5; 5; 5; 5] = Ok v /\ (v == 5)%Q.
Proof. eexists. split; reflexivity. Qed.

Example ten_tens_forecast_ten :
  exists v, Views.predict_next_mood (repeat 10 10) = Ok v /\ (v == 10)%Q.
Proof. eexists. split; reflexivity. Qed.

Example ten_ones_forecast_one :
  exists v, Views.predict_next_mood (repeat 1 10) = Ok v /\ (v == 1)%Q.
Proof. eexists. split; reflexivity. Qed.

Example rising_moods_clamped :
  exists v,
    Views.predict_next_mood [1; 2; 3; 4; 5; 6; 7; 8; 9; 10] = Ok v
    /\ (v == 10)%Q.
Proof. eexists. split; reflexivity. Qed.

Example few_points_low_confidence :
  Views.calculate_prediction_confidence [1; 10; 1; 10] = Ok "Low"%string.
Proof. reflexivity. Qed.

Example declining_recommendations :
  Views.generate_ai_recommendations empty_store 3 "declining" 1
  = [ Views.urgent_support; Views.urgent_contact;
      "Consider speaking with a mental health professional";
      "Try daily gratitude journaling to shift perspective";
      "Practice deep breathing exercises for 5 minutes daily" ]%string.
Proof. reflexivity. Qed.
